(** * curdfirebasedemo: the CRUD screen and its notifications

    An embedding of [src/App.tsx] (the validators, the in-app notification
    feed, the NotificationService with its set-up and the methods behind
    notifyCRUDOperation, the snapshot listener, and the handlers addUser,
    updateUser, deleteUser, startEditing and cancelEditing) and of
    [src/functions/src/index.ts] (sendNotificationToAllUsers and
    sendEmailNotification), followed by the properties proved of them.

    Conventions of the model:
    - a JavaScript string is the list of its UTF-16 code units;
    - [undefined] is [None]; a thrown or rejected call is [Throw], and the
      value thrown may be null or undefined, on which a catch block that
      reads [error.message] throws in its turn;
    - a handler is a computation over the component state, the service and a
      trace of what it did; what the platform, the store and the callable
      functions answer is read from an environment, call by call;
    - while a handler awaits the store or the notification service, the
      snapshot listener of the store may replace the user list; no other
      handler runs at its awaits;
    - console output, styling and rendering are left out, and so are
      fetchUsers, getFCMToken, clearError and the store trigger, which no
      property below is about. *)

From Stdlib Require Import ZArith NArith Lia Ascii String.
From stdpp Require Import base tactics option list strings gmap.

Local Open Scope Z_scope.

(** ** JavaScript strings

    A JavaScript string is a sequence of UTF-16 code units; [.length],
    [trim], [parseInt] and the regular expressions of the source all work on
    code units. *)

Abbreviation jsstring := (list N).

(** An ASCII literal of the source as code units. *)
Definition js (s : string) : jsstring :=
  map N_of_ascii (list_ascii_of_string s).

(** WhiteSpace and LineTerminator code points of ECMAScript: what [trim]
    strips and what [\s] matches. *)
Definition isWhiteSpace (c : N) : bool :=
  ((9 <=? c) && (c <=? 13) || (c =? 32) || (c =? 160) || (c =? 5760)
   || (8192 <=? c) && (c <=? 8202) || (c =? 8232) || (c =? 8233)
   || (c =? 8239) || (c =? 8287) || (c =? 12288) || (c =? 65279))%N.

Fixpoint trimStart (s : jsstring) : jsstring :=
  match s with
  | c :: s' => if isWhiteSpace c then trimStart s' else s
  | [] => []
  end.

Definition trimEnd (s : jsstring) : jsstring := rev (trimStart (rev s)).

(** [String.prototype.trim] *)
Definition trim (s : jsstring) : jsstring := trimEnd (trimStart s).

(** *** parseInt(string) with the radix left out

    Leading white space is skipped, one sign is read, a [0x]/[0X] prefix
    switches to radix 16, and the longest prefix of digits is the value: what
    follows the digits is ignored, and no digit at all gives NaN ([None]).
    The result is kept as the mathematical integer: the source only compares
    it with 1 and 120, and rounding to a double is monotone and exact on
    those. *)

Definition digitValue (c : N) : option Z :=
  if ((48 <=? c) && (c <=? 57))%N then Some (Z.of_N (c - 48))
  else if ((97 <=? c) && (c <=? 122))%N then Some (Z.of_N (c - 87))
  else if ((65 <=? c) && (c <=? 90))%N then Some (Z.of_N (c - 55))
  else None.

Definition radixDigit (R : Z) (c : N) : option Z :=
  match digitValue c with
  | Some d => if d <? R then Some d else None
  | None => None
  end.

Fixpoint digitsPrefix (R : Z) (s : jsstring) : list Z :=
  match s with
  | c :: s' =>
      match radixDigit R c with
      | Some d => d :: digitsPrefix R s'
      | None => []
      end
  | [] => []
  end.

Definition mathInt (R : Z) (ds : list Z) : Z :=
  fold_left (fun acc d => acc * R + d) ds 0.

Definition stripSign (s : jsstring) : Z * jsstring :=
  match s with
  | 45%N :: r => (-1, r)
  | 43%N :: r => (1, r)
  | _ => (1, s)
  end.

Definition stripPrefix (s : jsstring) : Z * jsstring :=
  match s with
  | 48%N :: x :: r => if ((x =? 120) || (x =? 88))%N then (16, r) else (10, s)
  | _ => (10, s)
  end.

Definition parseInt (input : jsstring) : option Z :=
  let '(sign, s1) := stripSign (trimStart input) in
  let '(R, s2) := stripPrefix s1 in
  match digitsPrefix R s2 with
  | [] => None
  | ds => Some (sign * mathInt R ds)
  end.

(** ** Regular expressions

    The two patterns of the source are anchored at both ends and use only
    character classes, concatenation and [+], so [test] is membership in the
    pattern's language; it is decided by derivatives. *)

Inductive regex : Type :=
| Empty : regex
| Eps : regex
| Class : (N -> bool) -> regex
| Seq : regex -> regex -> regex
| Alt : regex -> regex -> regex
| Star : regex -> regex.

Definition Plus (r : regex) : regex := Seq r (Star r).
Definition Chr (a : ascii) : regex := Class (N.eqb (N_of_ascii a)).

Fixpoint nullable (r : regex) : bool :=
  match r with
  | Empty => false
  | Eps => true
  | Class _ => false
  | Seq r1 r2 => nullable r1 && nullable r2
  | Alt r1 r2 => nullable r1 || nullable r2
  | Star _ => true
  end.

Fixpoint deriv (c : N) (r : regex) : regex :=
  match r with
  | Empty => Empty
  | Eps => Empty
  | Class p => if p c then Eps else Empty
  | Seq r1 r2 =>
      if nullable r1 then Alt (Seq (deriv c r1) r2) (deriv c r2)
      else Seq (deriv c r1) r2
  | Alt r1 r2 => Alt (deriv c r1) (deriv c r2)
  | Star r1 => Seq (deriv c r1) (Star r1)
  end.

(** The language of a pattern. *)
Inductive matches : regex -> jsstring -> Prop :=
| MEps : matches Eps []
| MClass p c : p c = true -> matches (Class p) [c]
| MSeq r1 r2 s1 s2 : matches r1 s1 -> matches r2 s2 -> matches (Seq r1 r2) (s1 ++ s2)
| MAltL r1 r2 s : matches r1 s -> matches (Alt r1 r2) s
| MAltR r1 r2 s : matches r2 s -> matches (Alt r1 r2) s
| MStarNil r : matches (Star r) []
| MStarApp r s1 s2 : matches r s1 -> matches (Star r) s2 -> matches (Star r) (s1 ++ s2).

(** [/^r$/.test(s)] *)
Definition test (r : regex) (s : jsstring) : bool :=
  nullable (fold_left (fun r c => deriv c r) s r).

Definition isLetter (c : N) : bool :=
  ((97 <=? c) && (c <=? 122) || (65 <=? c) && (c <=? 90))%N.

(** [/^[a-zA-Z\s]+$/] *)
Definition nameRegex : regex :=
  Plus (Class (fun c => isLetter c || isWhiteSpace c)).

(** [[^\s@]] *)
Definition notSpaceAt (c : N) : bool := negb (isWhiteSpace c || (c =? 64)%N).

(** [/^[^\s@]+@[^\s@]+\.[^\s@]+$/] *)
Definition emailRegex : regex :=
  Seq (Plus (Class notSpaceAt))
    (Seq (Chr "@")
       (Seq (Plus (Class notSpaceAt))
          (Seq (Chr ".") (Plus (Class notSpaceAt))))).

(** ** Validation (App.tsx, validateName .. validateForm)

    A validator returns [undefined] ([None]) or an error message. *)

Definition validateName (name : jsstring) : option jsstring :=
  if decide (trim name = []) then Some (js "Name is required")
  else if Z.of_nat (length (trim name)) <? 2
       then Some (js "Name must be at least 2 characters")
  else if Z.of_nat (length (trim name)) >? 50
       then Some (js "Name must be less than 50 characters")
  else if negb (test nameRegex (trim name))
       then Some (js "Name can only contain letters and spaces")
  else None.

Definition validateEmail (email : jsstring) : option jsstring :=
  if decide (trim email = []) then Some (js "Email is required")
  else if negb (test emailRegex (trim email))
       then Some (js "Please enter a valid email address")
  else None.

Definition validateAge (age : jsstring) : option jsstring :=
  if decide (trim age = []) then Some (js "Age is required")
  else match parseInt (trim age) with
       | None => Some (js "Age must be a number")
       | Some ageNum =>
           if (ageNum <? 1) || (ageNum >? 120)
           then Some (js "Age must be between 1 and 120")
           else None
       end.

(** Truthiness of a [string | undefined]: [undefined] and the empty string
    are falsy. *)
Definition truthy (v : option jsstring) : bool :=
  match v with
  | Some (_ :: _) => true
  | _ => false
  end.

(** [if (e) newErrors[field] = e] *)
Definition setIfTruthy (field : string) (e : option jsstring)
    (o : gmap string jsstring) : gmap string jsstring :=
  match e with
  | Some msg => if truthy e then <[field := msg]> o else o
  | None => o
  end.

(** The object [newErrors] that validateForm builds. *)
Definition formErrors (name email age : jsstring) : gmap string jsstring :=
  setIfTruthy "age" (validateAge age)
    (setIfTruthy "email" (validateEmail email)
       (setIfTruthy "name" (validateName name) ∅)).

(** [Object.keys(o).length === 0] *)
Definition noKeys (o : gmap string jsstring) : bool :=
  bool_decide (size o = 0%nat).

(** The specification's word "numeric", read on the string itself:
    trimmed, it is an optional sign followed by one or more decimal digits. *)
Definition isDecimalDigit (c : N) : bool := ((48 <=? c) && (c <=? 57))%N.

Definition spec_numeric (s : jsstring) : bool :=
  match snd (stripSign (trim s)) with
  | [] => false
  | ds => forallb isDecimalDigit ds
  end.

(** The value the specification's words give such a string: its sign
    times its digits read in base 10. *)
Definition spec_decimalValue (s : jsstring) : Z :=
  let '(sign, ds) := stripSign (trim s) in
  sign * mathInt 10 (map (fun c => Z.of_N (c - 48)) ds).

Definition isSome {A} (v : option A) : bool :=
  match v with Some _ => true | None => false end.

(** ** Data model (App.tsx, the interfaces) *)

(** [createdAt]: the store's server-timestamp sentinel, or the client's
    clock. *)
Inductive Timestamp : Type :=
| ServerTimestamp
| ClientDate (ms : N).

Module User.
Record t : Type := mk {
  id : jsstring;
  name : jsstring;
  email : jsstring;
  age : jsstring;
  createdAt : option Timestamp;
  fcmToken : option jsstring;
}.
End User.

Inductive Severity : Type := success | info | warning.

Module Notif.
Record t : Type := mk {
  id : jsstring;
  message : jsstring;
  type : Severity;
  timestamp : N;
}.
End Notif.

(** ** In-app notification feed: the two state updaters *)

(** [prev => [notification, ...prev.slice(0, 4)]] *)
Definition pushFeed (notification : Notif.t) (prev : list Notif.t) : list Notif.t :=
  notification :: take 4 prev.

(** [prev => prev.filter(n => n.id !== id)], the updater of
    removeInAppNotification and of the 5 second timer. *)
Definition removeFeed (id : jsstring) (prev : list Notif.t) : list Notif.t :=
  filter (fun n => Notif.id n <> id) prev.

(** What can happen to the feed: a push (addInAppNotification), a dismissal
    (removeInAppNotification) and a timer firing. *)
Inductive FeedEvent : Type :=
| Push (notification : Notif.t)
| Dismiss (id : jsstring)
| Expire (id : jsstring).

Definition feedStep (prev : list Notif.t) (e : FeedEvent) : list Notif.t :=
  match e with
  | Push n => pushFeed n prev
  | Dismiss id => removeFeed id prev
  | Expire id => removeFeed id prev
  end.

(** The feed after a sequence of events, from [useState([])]. *)
Definition feedAfter (es : list FeedEvent) : list Notif.t :=
  fold_left feedStep es [].

(** ** Component state and the outside world *)

(** The [useState] cells of [App] that the handlers read or write. *)
Record AppState : Type := mkApp {
  users : list User.t;
  submitting : bool;
  name : jsstring;
  email : jsstring;
  age : jsstring;
  editingUser : option User.t;
  errors : gmap string jsstring;
  inAppNotifications : list Notif.t;
  fcmToken : jsstring;
  db : bool;                        (* the Firestore handle is not null *)
}.

(** The private fields of the [NotificationService] singleton. *)
Record NotificationService : Type := mkService {
  messagingAvailable : bool;
  permissionsGranted : bool;
  notificationChannelCreated : bool;
}.

Inductive Operation : Type := CREATE | UPDATE | DELETE.

(** The [userData] objects handed to notifyCRUDOperation. *)
Inductive Payload : Type :=
| PUser (u : User.t)
| PUpdate (id name email age fcmToken : jsstring) (oldData : option User.t)
| PDelete (id : jsstring) (deletedUser : User.t).

(** [userData.name] *)
Definition payloadName (userData : Payload) : option jsstring :=
  match userData with
  | PUser u => Some (User.name u)
  | PUpdate _ name _ _ _ _ => Some name
  | PDelete _ _ => None
  end.

(** A [string | undefined] inside a template literal. *)
Definition tpl (v : option jsstring) : jsstring :=
  match v with
  | Some s => s
  | None => js "undefined"
  end.

Inductive Method : Type :=
| showSystemNotification_ (title message : jsstring) (type : Severity)
| showFallbackNotification_ (title message : jsstring)
| sendPushNotification_ (action : Operation) (userData : Payload)
| sendEmailNotification_ (action : Operation) (userData : Payload)
| notifyCRUDOperation_ (operation : Operation) (userData : Payload) (isLocalAction : bool)
| addInAppNotification_ (message : jsstring) (type : Severity).

(** What a handler does that is visible outside it, in order: calls into
    the platform, the store and the callable functions (each may throw),
    entries into the service's methods and into addInAppNotification, and
    updates of the user list. *)
Inductive Event : Type :=
| ToastShow (text : jsstring)
| AlertAlert (title message : jsstring) (buttons : list jsstring)
| Vibrate (ms : Z)
| DisplayNotification (title body color : jsstring)
| DbAdd (name email age fcmToken : jsstring) (createdAt : Timestamp)
| DbUpdate (id name email age fcmToken : jsstring)
| DbDelete (id : jsstring)
| HttpsCallable (fn : jsstring) (action : Operation) (userData : Payload)
| SetTimeout (id : jsstring) (ms : Z)
| Enter (m : Method)
| SetUsers (users : list User.t)
| Snapshot (userList : list User.t).

(** A thrown value, or the reason of a rejected promise. *)
Inductive Thrown : Type :=
| nullish                          (* null or undefined *)
| thrown (message : jsstring).     (* any other value; of an Error, its message *)

(** What reading a property of null or undefined throws. *)
Definition TypeError : Thrown := thrown (js "TypeError").

(** The environment of one handler run. Each external call gets an outcome
    of its own, by its position in the trace, and so do the snapshots the
    store's listener receives while a call is awaited. *)
Record Env : Type := mkEnv {
  functions : bool;                              (* the [functions] module loaded *)
  android : bool;                                (* Platform.OS === 'android' *)
  throws : Event -> nat -> option Thrown;        (* the call throws or rejects *)
  docId : nat -> jsstring;                       (* docRef.id *)
  now : nat -> N;                                (* Date.now() *)
  uniqueId : nat -> jsstring;                    (* generateUniqueId() *)
  snapshots : nat -> list (list User.t);         (* onSnapshot callbacks meanwhile *)
}.

Record World : Type := mkWorld {
  app : AppState;
  service : NotificationService;
  trace : list Event;
}.

(** ** A monad for handlers: state, trace and exceptions *)

Inductive Res (A : Type) : Type :=
| Ok (a : A)
| Throw (error : Thrown).
Arguments Ok {A} a.
Arguments Throw {A} error.

Definition M (A : Type) : Type := Env -> World -> Res A * World.

Definition ret {A} (a : A) : M A := fun _ w => (Ok a, w).

Definition bind {A B} (c : M A) (k : A -> M B) : M B :=
  fun e w =>
    match c e w with
    | (Ok a, w1) => k a e w1
    | (Throw err, w1) => (Throw err, w1)
    end.

Notation "x <- c ;; k" := (bind c (fun x => k))
  (at level 100, c at next level, right associativity).
Notation "c ;; k" := (bind c (fun _ => k))
  (at level 100, right associativity).

(** [try { body } catch (error) { handler }] *)
Definition tryCatch {A} (body : M A) (handler : Thrown -> M A) : M A :=
  fun e w =>
    match body e w with
    | (Ok a, w1) => (Ok a, w1)
    | (Throw err, w1) => handler err e w1
    end.

(** [try { body } finally { fin }] *)
Definition tryFinally {A} (body : M A) (fin : M unit) : M A :=
  fun e w =>
    let '(r, w1) := body e w in
    match fin e w1 with
    | (Ok _, w2) => (r, w2)
    | (Throw err, w2) => (Throw err, w2)
    end.

Definition log (ev : Event) (w : World) : World :=
  mkWorld (app w) (service w) (trace w ++ [ev]).

(** A call that cannot fail (a marker, a timer registration, a state
    update that is recorded). *)
Definition emit (ev : Event) : M unit := fun _ w => (Ok tt, log ev w).

(** A call into the platform, the store or a callable function. *)
Definition external (ev : Event) : M unit :=
  fun e w =>
    match throws e ev (length (trace w)) with
    | None => (Ok tt, log ev w)
    | Some err => (Throw err, log ev w)
    end.

(** [throw error] *)
Definition raise {A} (error : Thrown) : M A := fun _ w => (Throw error, w).

(** [console.log(..., (error as Error).message)] in a catch block: reading a
    property of null or undefined throws. *)
Definition logMessage (error : Thrown) : M unit :=
  match error with
  | nullish => raise TypeError
  | thrown _ => ret tt
  end.

(** [console.error(..., error)] in a catch block. *)
Definition logError (error : Thrown) : M unit := ret tt.

Definition ask {A} (f : Env -> nat -> A) : M A :=
  fun e w => (Ok (f e (length (trace w))), w).

Definition env {A} (f : Env -> A) : M A := fun e w => (Ok (f e), w).

Definition this {A} (f : NotificationService -> A) : M A :=
  fun _ w => (Ok (f (service w)), w).

Definition modify (f : AppState -> AppState) : M unit :=
  fun _ w => (Ok tt, mkWorld (f (app w)) (service w) (trace w)).

Definition when (b : bool) (c : M unit) : M unit := if b then c else ret tt.

(** Record updates of the component state. *)
Definition withUsers (v : list User.t) (s : AppState) : AppState :=
  mkApp v (submitting s) (name s) (email s) (age s) (editingUser s)
    (errors s) (inAppNotifications s) (fcmToken s) (db s).

Definition withSubmitting (v : bool) (s : AppState) : AppState :=
  mkApp (users s) v (name s) (email s) (age s) (editingUser s)
    (errors s) (inAppNotifications s) (fcmToken s) (db s).

Definition withName (v : jsstring) (s : AppState) : AppState :=
  mkApp (users s) (submitting s) v (email s) (age s) (editingUser s)
    (errors s) (inAppNotifications s) (fcmToken s) (db s).

Definition withEmail (v : jsstring) (s : AppState) : AppState :=
  mkApp (users s) (submitting s) (name s) v (age s) (editingUser s)
    (errors s) (inAppNotifications s) (fcmToken s) (db s).

Definition withAge (v : jsstring) (s : AppState) : AppState :=
  mkApp (users s) (submitting s) (name s) (email s) v (editingUser s)
    (errors s) (inAppNotifications s) (fcmToken s) (db s).

Definition withEditingUser (v : option User.t) (s : AppState) : AppState :=
  mkApp (users s) (submitting s) (name s) (email s) (age s) v
    (errors s) (inAppNotifications s) (fcmToken s) (db s).

Definition withErrors (v : gmap string jsstring) (s : AppState) : AppState :=
  mkApp (users s) (submitting s) (name s) (email s) (age s) (editingUser s)
    v (inAppNotifications s) (fcmToken s) (db s).

Definition withInAppNotifications (v : list Notif.t) (s : AppState) : AppState :=
  mkApp (users s) (submitting s) (name s) (email s) (age s) (editingUser s)
    (errors s) v (fcmToken s) (db s).

(** The [useState] setters. An update of the user list is also recorded in
    the trace. *)
Definition setUsers (f : list User.t -> list User.t) : M unit :=
  fun _ w =>
    let us := f (users (app w)) in
    (Ok tt, mkWorld (withUsers us (app w)) (service w) (trace w ++ [SetUsers us])).

Definition setSubmitting (v : bool) : M unit := modify (withSubmitting v).
Definition setName (v : jsstring) : M unit := modify (withName v).
Definition setEmail (v : jsstring) : M unit := modify (withEmail v).
Definition setAge (v : jsstring) : M unit := modify (withAge v).
Definition setEditingUser (v : option User.t) : M unit := modify (withEditingUser v).
Definition setErrors (v : gmap string jsstring) : M unit := modify (withErrors v).

Definition setInAppNotifications (f : list Notif.t -> list Notif.t) : M unit :=
  modify (fun s => withInAppNotifications (f (inAppNotifications s)) s).

(** The callback of the store's snapshot listener (App.tsx 805-831), which
    is registered while db is set: [setUsers(userList)]. *)
Definition onSnapshot (w : World) (userList : list User.t) : World :=
  mkWorld (withUsers userList (app w)) (service w) (trace w ++ [Snapshot userList]).

(** The snapshots the listener receives while a call made after [n] events
    is pending. *)
Definition deliver (e : Env) (n : nat) (w : World) : World :=
  if db (app w) then fold_left onSnapshot (snapshots e n) w else w.

(** [await c] in a handler, where [c] calls the store or the notification
    service: the listener's callbacks run while [c] is pending. The service
    neither reads nor writes the component state, so the callbacks that run
    inside it are recorded when it returns. *)
Definition awaiting {A} (c : M A) : M A :=
  fun e w =>
    let '(r, w1) := c e w in
    (r, deliver e (length (trace w)) w1).

(** Characters of the source's literals that are not ASCII letters. *)
Definition dquote : jsstring := [34%N].
Definition crossMark : jsstring := [10060%N].                (* U+274C *)
Definition loudspeaker : jsstring := [55357%N; 56546%N].     (* U+1F4E2 *)

(** ** NotificationService (App.tsx, the methods the handlers use)

    console output is not part of the model. *)

(** showFallbackNotification: a toast on Android, then an alert, each in a
    try/catch of its own whose catch logs [error.message]. *)
Definition showFallbackNotification (title message : jsstring) : M unit :=
  emit (Enter (showFallbackNotification_ title message)) ;;
  isAndroid <- env android ;;
  when isAndroid
    (tryCatch (external (ToastShow (title ++ js ": " ++ message))) logMessage) ;;
  tryCatch (external (AlertAlert title message [])) logMessage.

Definition vibrationMs (type : Severity) : Z :=
  match type with success => 100 | warning => 200 | info => 50 end.

Definition notificationColor (type : Severity) : jsstring :=
  match type with
  | success => js "#28a745"
  | warning => js "#ffc107"
  | info => js "#17a2b8"
  end.

Definition showSystemNotification (title message : jsstring) (type : Severity) : M unit :=
  emit (Enter (showSystemNotification_ title message type)) ;;
  granted <- this permissionsGranted ;;
  if negb granted then showFallbackNotification title message
  else
    tryCatch
      (isAndroid <- env android ;;
       when isAndroid
         (tryCatch (external (Vibrate (vibrationMs type))) logMessage) ;;
       external (DisplayNotification title message (notificationColor type)))
      (fun error => logError error ;; showFallbackNotification title message).

(** sendPushNotification: getting the functions instance, making the
    callable and calling it are one guarded step. *)
Definition sendPushNotification (action : Operation) (userData : Payload) : M unit :=
  emit (Enter (sendPushNotification_ action userData)) ;;
  hasFunctions <- env functions ;;
  available <- this messagingAvailable ;;
  if negb hasFunctions || negb available then ret tt
  else
    tryCatch (external (HttpsCallable (js "sendNotificationToAllUsers") action userData))
      logMessage.

Definition sendEmailNotification (action : Operation) (userData : Payload) : M unit :=
  emit (Enter (sendEmailNotification_ action userData)) ;;
  hasFunctions <- env functions ;;
  if negb hasFunctions then ret tt
  else
    tryCatch (external (HttpsCallable (js "sendEmailNotification") action userData))
      logMessage.

(** [operationMessages[operation].system] *)
Definition systemMessage (operation : Operation) (userData : Payload) : jsstring :=
  let n := tpl (payloadName userData) in
  match operation with
  | CREATE => js "New user " ++ dquote ++ n ++ dquote ++ js " added to the system"
  | UPDATE => js "User " ++ dquote ++ n ++ dquote ++ js " information has been updated"
  | DELETE => js "User " ++ dquote ++ n ++ dquote ++ js " has been removed from the system"
  end.

Definition systemTitle (operation : Operation) : jsstring :=
  match operation with
  | CREATE => js "User Added"
  | UPDATE => js "User Updated"
  | DELETE => js "User Deleted"
  end.

Definition notifyCRUDOperation (operation : Operation) (userData : Payload)
    (isLocalAction : bool) : M unit :=
  emit (Enter (notifyCRUDOperation_ operation userData isLocalAction)) ;;
  showSystemNotification (systemTitle operation) (systemMessage operation userData) success ;;
  available <- this messagingAvailable ;;
  when (negb isLocalAction && available)
    (sendPushNotification operation userData ;;
     sendEmailNotification operation userData).

(** ** The handlers of [App]

    A handler is a closure of one render: [cl] holds the values it captured;
    the setters act on the state of the moment. *)

Definition addInAppNotification (message : jsstring) (type : Severity) : M unit :=
  emit (Enter (addInAppNotification_ message type)) ;;
  id <- ask uniqueId ;;
  timestamp <- ask now ;;
  let notification := Notif.mk id message type timestamp in
  setInAppNotifications (pushFeed notification) ;;
  emit (SetTimeout id 5000).

Definition removeInAppNotification (id : jsstring) : M unit :=
  setInAppNotifications (removeFeed id).

(** The callback the timer of addInAppNotification runs. *)
Definition timerFires (id : jsstring) : M unit :=
  setInAppNotifications (removeFeed id).

Definition validateForm (cl : AppState) : M bool :=
  let newErrors := formErrors (name cl) (email cl) (age cl) in
  setErrors newErrors ;;
  ret (noKeys newErrors).

Definition validationFailed : M unit :=
  showFallbackNotification (js "Validation Error") (js "Please fix the validation errors") ;;
  addInAppNotification (js "Please fix the validation errors") warning.

Definition addUser (cl : AppState) : M unit :=
  valid <- validateForm cl ;;
  if negb valid then validationFailed
  else
    setSubmitting true ;;
    tryFinally
      (tryCatch
         (createdAt <- (if db cl then ret ServerTimestamp
                        else (ms <- ask now ;; ret (ClientDate ms))) ;;
          let mkNew id :=
            User.mk id (trim (name cl)) (trim (email cl)) (trim (age cl))
              (Some createdAt) (Some (fcmToken cl)) in
          newUser <-
            (if db cl then
               awaiting (external (DbAdd (trim (name cl)) (trim (email cl)) (trim (age cl))
                                     (fcmToken cl) createdAt)) ;;
               id <- ask docId ;;
               awaiting (notifyCRUDOperation CREATE (PUser (mkNew id)) false) ;;
               ret (mkNew id)
             else
               id <- ask uniqueId ;;
               awaiting (notifyCRUDOperation CREATE (PUser (mkNew id)) true) ;;
               ret (mkNew id)) ;;
          setUsers (fun prev => newUser :: prev) ;;
          setName [] ;;
          setEmail [] ;;
          setAge [] ;;
          setErrors ∅ ;;
          when (0 <? Z.of_nat (length (users cl)))
            (addInAppNotification
               (loudspeaker ++ js " Notification: New user " ++ dquote ++ trim (name cl)
                  ++ dquote ++ js " added to the system") info))
         (fun error =>
            logError error ;;
            showFallbackNotification (js "Error") (js "Failed to add user. Please try again.") ;;
            addInAppNotification (crossMark ++ js " Failed to add user. Please try again.")
              warning))
      (setSubmitting false).

(** [{ ...user, ...updatedData }] *)
Definition patchUser (user : User.t) (name email age fcmToken : jsstring) : User.t :=
  User.mk (User.id user) name email age (User.createdAt user) (Some fcmToken).

Definition updateUser (cl : AppState) : M unit :=
  match editingUser cl with
  | None => ret tt
  | Some editing =>
      valid <- validateForm cl ;;
      if negb valid then validationFailed
      else
        setSubmitting true ;;
        tryFinally
          (tryCatch
             ((if db cl then
                 awaiting (external (DbUpdate (User.id editing) (trim (name cl))
                                       (trim (email cl)) (trim (age cl)) (fcmToken cl))) ;;
                 awaiting (notifyCRUDOperation UPDATE
                             (PUpdate (User.id editing) (trim (name cl)) (trim (email cl))
                                (trim (age cl)) (fcmToken cl) (Some editing)) false)
               else
                 setUsers (map (fun user =>
                                  if decide (User.id user = User.id editing)
                                  then patchUser user (trim (name cl)) (trim (email cl))
                                         (trim (age cl)) (fcmToken cl)
                                  else user)) ;;
                 awaiting (notifyCRUDOperation UPDATE
                             (PUpdate (User.id editing) (trim (name cl)) (trim (email cl))
                                (trim (age cl)) (fcmToken cl) None) true)) ;;
              setEditingUser None ;;
              setName [] ;;
              setEmail [] ;;
              setAge [] ;;
              setErrors ∅ ;;
              when (1 <? Z.of_nat (length (users cl)))
                (addInAppNotification
                   (loudspeaker ++ js " Notification: User " ++ dquote ++ trim (name cl)
                      ++ dquote ++ js " information has been updated") info))
             (fun error =>
                logError error ;;
                showFallbackNotification (js "Error")
                  (js "Failed to update user. Please try again.") ;;
                addInAppNotification
                  (crossMark ++ js " Failed to update user. Please try again.") warning))
          (setSubmitting false)
  end.

(** [users.find(user => user.id === userId)] *)
Definition findUser (userId : jsstring) (us : list User.t) : option User.t :=
  List.find (fun user => bool_decide (User.id user = userId)) us.

(** [userToDelete?.name || 'User'] *)
Definition deletedName (userToDelete : option User.t) : jsstring :=
  match userToDelete with
  | Some u => if truthy (Some (User.name u)) then User.name u else js "User"
  | None => js "User"
  end.

(** The [onPress] of the modal's Delete button. *)
Definition onPressDelete (cl : AppState) (userId : jsstring) : M unit :=
  tryCatch
    (let userToDelete := findUser userId (users cl) in
     (if db cl then
        awaiting (external (DbDelete userId)) ;;
        match userToDelete with
        | Some u => awaiting (notifyCRUDOperation DELETE (PDelete userId u) false)
        | None => ret tt
        end
      else
        setUsers (filter (fun user => User.id user <> userId)) ;;
        match userToDelete with
        | Some u => awaiting (notifyCRUDOperation DELETE (PDelete userId u) true)
        | None => ret tt
        end) ;;
     when (1 <? Z.of_nat (length (users cl)))
       (addInAppNotification
          (loudspeaker ++ js " Notification: User " ++ dquote ++ deletedName userToDelete
             ++ dquote ++ js " has been removed from the system") info))
    (fun error =>
       logError error ;;
       showFallbackNotification (js "Error") (js "Failed to delete user. Please try again.") ;;
       addInAppNotification (crossMark ++ js " Failed to delete user. Please try again.")
         warning).

(** A button of [Alert.alert]. *)
Record Button : Type := mkButton {
  text : jsstring;
  onPress : option (M unit);
}.

(** deleteUser shows the modal and returns; its buttons are the result. *)
Definition deleteUser (cl : AppState) (userId : jsstring) : M (list Button) :=
  external (AlertAlert (js "Confirm Delete") (js "Are you sure you want to delete this user?")
              [js "Cancel"; js "Delete"]) ;;
  ret [ mkButton (js "Cancel") None;
        mkButton (js "Delete") (Some (onPressDelete cl userId)) ].

(** The user presses the button labelled [label] of a modal. *)
Definition press (label : jsstring) (buttons : list Button) : M unit :=
  match List.find (fun b => bool_decide (text b = label)) buttons with
  | Some b => match onPress b with Some h => h | None => ret tt end
  | None => ret tt
  end.

(** A handler run from the render of the current state. *)
Definition fromRender {A} (handler : AppState -> M A) : M A :=
  fun e w => handler (app w) e w.

Definition startWorld (s : AppState) (svc : NotificationService) : World :=
  mkWorld s svc [].

(** ** The push fan-out handler (functions/src/index.ts,
       sendNotificationToAllUsers) *)

Module Functions.

(** What the handler reads of [data.userData]: [name], [id], and
    [deletedUser.name] ([deletedUser] is [None] when the field is missing). *)
Record UserData : Type := mkUserData {
  name : option jsstring;
  id : option jsstring;
  deletedUser : option (option jsstring);
}.

(** The request: [{ action, userData, senderToken }]. *)
Record Data : Type := mkData {
  action : jsstring;
  userData : option UserData;
  senderToken : option jsstring;
}.

(** The multicast message; its timestamp is left out. *)
Record Message : Type := mkMessage {
  title : jsstring;
  body : jsstring;
  dataAction : jsstring;
  userId : jsstring;
  tokens : list jsstring;
}.

(** The two awaited calls: the read of the users collection, which yields
    the [fcmToken] field of every document, and the multicast send, which
    yields [(successCount, failureCount)]. *)
Record Backend : Type := mkBackend {
  usersGet : Res (list (option jsstring));
  sendMulticast : Message -> Res (Z * Z);
}.

Inductive Reply : Type :=
| NoUsers (message : jsstring)                 (* { success: false, message } *)
| Sent (successCount failureCount : Z).        (* { success: true, ... } *)

Inductive Outcome : Type :=
| Returns (r : Reply)
| HttpsError (code message : jsstring).

(** [if (userData.fcmToken && userData.fcmToken !== senderToken) tokens.push(..)],
    over the documents in order. *)
Fixpoint collectTokens (docs : list (option jsstring)) (senderToken : option jsstring)
    : list jsstring :=
  match docs with
  | [] => []
  | fcmToken :: rest =>
      match fcmToken with
      | Some t =>
          if truthy fcmToken && negb (bool_decide (fcmToken = senderToken))
          then t :: collectTokens rest senderToken
          else collectTokens rest senderToken
      | None => collectTokens rest senderToken
      end
  end.

Definition typeError : Thrown := TypeError.

(** The [switch (action)]: reading a property of [undefined] throws. *)
Definition notificationText (action : jsstring) (userData : option UserData)
    : Res (jsstring * jsstring) :=
  if decide (action = js "CREATE") then
    match userData with
    | Some u => Ok (js "New User Added", tpl (name u) ++ js " has been added to the system")
    | None => Throw typeError
    end
  else if decide (action = js "UPDATE") then
    match userData with
    | Some u => Ok (js "User Updated", tpl (name u) ++ js "'s information has been updated")
    | None => Throw typeError
    end
  else if decide (action = js "DELETE") then
    match userData with
    | Some u =>
        match deletedUser u with
        | Some n => Ok (js "User Deleted", tpl n ++ js " has been removed from the system")
        | None => Throw typeError
        end
    | None => Throw typeError
    end
  else Ok (js "System Update", js "A change has been made to the user database").

(** [userData.id || ''] *)
Definition userIdOf (userData : option UserData) : Res jsstring :=
  match userData with
  | Some u => Ok (if truthy (id u) then tpl (id u) else [])
  | None => Throw typeError
  end.

(** The message the handler builds once tokens remain. *)
Definition buildMessage (data : Data) (tokens : list jsstring) : Res Message :=
  match notificationText (action data) (userData data) with
  | Throw err => Throw err
  | Ok (title, body) =>
      match userIdOf (userData data) with
      | Throw err => Throw err
      | Ok userId => Ok (mkMessage title body (action data) userId tokens)
      end
  end.

Definition internalError : Outcome :=
  HttpsError (js "internal") (js "Failed to send notification").

(** The handler: its outcome and the multicasts it sent. The whole body is
    inside one try/catch that rethrows an internal error. *)
Definition sendNotificationToAllUsers (b : Backend) (data : Data)
    : Outcome * list Message :=
  match usersGet b with
  | Throw _ => (internalError, [])
  | Ok docs =>
      match collectTokens docs (senderToken data) with
      | [] => (Returns (NoUsers (js "No users to notify")), [])
      | tokens =>
          match buildMessage data tokens with
          | Throw _ => (internalError, [])
          | Ok message =>
              match sendMulticast b message with
              | Ok (successCount, failureCount) =>
                  (Returns (Sent successCount failureCount), [message])
              | Throw _ => (internalError, [message])
              end
          end
      end
  end.

(** Two registered devices; the read succeeds, the multicast rejects. *)
Definition sendFails : Backend :=
  mkBackend (Ok [Some (js "token-A"); Some (js "token-G")])
    (fun _ => Throw (thrown (js "messaging/unavailable"))).

Definition createdAda : Data :=
  mkData (js "CREATE")
    (Some (mkUserData (Some (js "Ada Lovelace")) (Some (js "doc-1")) None))
    (Some (js "token-A")).

End Functions.

(** * Vocabulary of the properties *)

(** ** The traces of the service's methods

    An external call is recorded whether it throws or not, and every throw
    inside the service is caught inside it, so what a method adds to the
    trace is a function of the environment alone. *)

Definition extend (w : World) (tr : list Event) : World :=
  mkWorld (app w) (service w) (trace w ++ tr).

Definition fallbackTrace (e : Env) (title message : jsstring) : list Event :=
  Enter (showFallbackNotification_ title message)
    :: (if android e then [ToastShow (title ++ js ": " ++ message)] else [])
    ++ [AlertAlert title message []].

(** [n] is the length of the trace when the method is entered. *)
Definition systemTrace (e : Env) (svc : NotificationService) (n : nat)
    (title message : jsstring) (type : Severity) : list Event :=
  Enter (showSystemNotification_ title message type)
    :: (if permissionsGranted svc then
          let vib := if android e then [Vibrate (vibrationMs type)] else [] in
          let display := DisplayNotification title message (notificationColor type) in
          vib ++ [display]
            ++ (match throws e display (S n + length vib) with
                | Some _ => fallbackTrace e title message
                | None => []
                end)
        else fallbackTrace e title message).

Definition pushTrace (e : Env) (svc : NotificationService)
    (action : Operation) (userData : Payload) : list Event :=
  Enter (sendPushNotification_ action userData)
    :: (if functions e && messagingAvailable svc
        then [HttpsCallable (js "sendNotificationToAllUsers") action userData]
        else []).

Definition emailTrace (e : Env) (action : Operation) (userData : Payload) : list Event :=
  Enter (sendEmailNotification_ action userData)
    :: (if functions e
        then [HttpsCallable (js "sendEmailNotification") action userData]
        else []).

Definition notifyTrace (e : Env) (svc : NotificationService) (n : nat)
    (operation : Operation) (userData : Payload) (isLocalAction : bool) : list Event :=
  Enter (notifyCRUDOperation_ operation userData isLocalAction)
    :: systemTrace e svc (S n) (systemTitle operation) (systemMessage operation userData) success
    ++ (if negb isLocalAction && messagingAvailable svc
        then pushTrace e svc operation userData ++ emailTrace e operation userData
        else []).

(** Kinds of events. *)
Definition isStoreCall (ev : Event) : bool :=
  match ev with
  | DbAdd _ _ _ _ _ | DbUpdate _ _ _ _ _ | DbDelete _ => true
  | _ => false
  end.

Definition isSetUsers (ev : Event) : bool :=
  match ev with SetUsers _ => true | _ => false end.

Definition isBanner (ev : Event) : bool :=
  match ev with Enter (addInAppNotification_ _ _) => true | _ => false end.

Definition isEnterNotify (ev : Event) : bool :=
  match ev with Enter (notifyCRUDOperation_ _ _ _) => true | _ => false end.

Definition isEnterSystem (ev : Event) : bool :=
  match ev with Enter (showSystemNotification_ _ _ _) => true | _ => false end.

Definition isEnterPush (ev : Event) : bool :=
  match ev with Enter (sendPushNotification_ _ _) => true | _ => false end.

Definition isEnterEmail (ev : Event) : bool :=
  match ev with Enter (sendEmailNotification_ _ _) => true | _ => false end.

(** What the notification service emits: platform calls, callable
    functions and entries into its own methods. *)
Definition isNotificationEvent (ev : Event) : bool :=
  match ev with
  | ToastShow _ | AlertAlert _ _ [] | Vibrate _ | DisplayNotification _ _ _
  | HttpsCallable _ _ _ => true
  | Enter (addInAppNotification_ _ _) => false
  | Enter _ => true
  | _ => false
  end.

Definition isSnapshot (ev : Event) : bool :=
  match ev with Snapshot _ => true | _ => false end.

(** An update of the user list, by a handler or by the listener. *)
Definition isListUpdate (ev : Event) : bool :=
  match ev with SetUsers _ | Snapshot _ => true | _ => false end.

(** ** Thrown values

    The catch blocks of showFallbackNotification (toast, alert), of the
    vibration in showSystemNotification and of the two dispatchers (callable
    functions) read [error.message]; the other catch blocks log the value
    itself. *)

Definition isFallbackCall (ev : Event) : bool :=
  match ev with ToastShow _ | AlertAlert _ _ _ => true | _ => false end.

Definition readsMessage (ev : Event) : bool :=
  match ev with
  | ToastShow _ | AlertAlert _ _ _ | Vibrate _ | HttpsCallable _ _ _ => true
  | _ => false
  end.

(** No call of the kind [P] throws null or undefined. *)
Definition neverNullish (P : Event -> bool) (e : Env) : Prop :=
  forall ev n, P ev = true -> throws e ev n <> Some nullish.

(** What a toast or an alert throws, if anything, has a [message] to read. *)
Definition fallbackTame (e : Env) : Prop := neverNullish isFallbackCall e.

(** So has what a vibration or a callable function throws. *)
Definition tame (e : Env) : Prop := neverNullish readsMessage e.

(** The outcome of a call whose catch block reads [error.message]. *)
Definition caught (e : Env) (ev : Event) (n : nat) : Res unit :=
  match throws e ev n with
  | Some nullish => Throw TypeError
  | _ => Ok tt
  end.

(** showFallbackNotification in any environment: the calls it makes after
    its entry and what it returns. The alert is not reached when the toast
    throws null or undefined. [n] is the length of the trace at the entry. *)
Definition fallbackCalls (e : Env) (n : nat) (title message : jsstring) : list Event :=
  if android e then
    ToastShow (title ++ js ": " ++ message)
      :: match caught e (ToastShow (title ++ js ": " ++ message)) (S n) with
         | Ok _ => [AlertAlert title message []]
         | Throw _ => []
         end
  else [AlertAlert title message []].

Definition fallbackResult (e : Env) (n : nat) (title message : jsstring) : Res unit :=
  if android e then
    match caught e (ToastShow (title ++ js ": " ++ message)) (S n) with
    | Ok _ => caught e (AlertAlert title message []) (S (S n))
    | Throw err => Throw err
    end
  else caught e (AlertAlert title message []) (S n).

(** What a dispatcher returns: it throws only when its callable function
    rejects with null or undefined. [n] is the length of the trace when the
    dispatcher is entered. *)
Definition pushResult (e : Env) (svc : NotificationService) (n : nat)
    (action : Operation) (userData : Payload) : Res unit :=
  if functions e && messagingAvailable svc
  then caught e (HttpsCallable (js "sendNotificationToAllUsers") action userData) (S n)
  else Ok tt.

Definition emailResult (e : Env) (n : nat) (action : Operation) (userData : Payload)
    : Res unit :=
  if functions e
  then caught e (HttpsCallable (js "sendEmailNotification") action userData) (S n)
  else Ok tt.

(** What showSystemNotification emits after its entry: the platform calls
    and the entry into the fallback. *)
Definition isGatewayEvent (ev : Event) : bool :=
  match ev with
  | ToastShow _ | AlertAlert _ _ [] | Vibrate _ | DisplayNotification _ _ _
  | Enter (showFallbackNotification_ _ _) => true
  | _ => false
  end.

(** What notifyCRUDOperation emits after its entry. *)
Definition isServiceEvent (ev : Event) : bool :=
  isNotificationEvent ev && negb (isEnterNotify ev).

(** A computation of the service: it adds events of the kind [Q] to the
    trace and leaves the component state and the flags alone, however it
    ends. *)
Definition appends {A} (Q : Event -> bool) (c : M A) : Prop :=
  forall e w, exists r tr, c e w = (r, extend w tr) /\ forallb Q tr = true.

(** What addInAppNotification emits. *)
Definition isBannerEvent (ev : Event) : bool :=
  match ev with
  | Enter (addInAppNotification_ _ _) | SetTimeout _ _ => true
  | _ => false
  end.

(** What a failure path emits after the entry into the fallback. *)
Definition isFailureEvent (ev : Event) : bool := isFallbackCall ev || isBannerEvent ev.

Definition anyEvent (ev : Event) : bool := true.

(** ** The snapshot listener *)

(** The user list after the snapshots delivered while the call made after
    [n] events was pending. *)
Definition delivered (e : Env) (n : nat) (us : list User.t) : list User.t :=
  List.last (snapshots e n) us.

(** ** Names for what the handlers construct *)

(** The banner a call of addInAppNotification creates when the trace has
    [n] events. *)
Definition bannerOf (e : Env) (n : nat) (message : jsstring) (type : Severity) : Notif.t :=
  Notif.mk (uniqueId e (S n)) message type (now e (S n)).

(** The record addUser constructs. *)
Definition newUserOf (s : AppState) (id : jsstring) (createdAt : Timestamp) : User.t :=
  User.mk id (trim (name s)) (trim (email s)) (trim (age s))
    (Some createdAt) (Some (fcmToken s)).

(** The banner texts of addUser and of updateUser's failure path. *)
Definition addedBanner (s : AppState) : jsstring :=
  loudspeaker ++ js " Notification: New user " ++ dquote ++ trim (name s)
    ++ dquote ++ js " added to the system".

Definition updateFailedBanner : jsstring :=
  crossMark ++ js " Failed to update user. Please try again.".

(** The store call of updateUser. *)
Definition updateCall (s : AppState) (editing : User.t) : Event :=
  DbUpdate (User.id editing) (trim (name s)) (trim (email s)) (trim (age s)) (fcmToken s).

(** The store call of addUser when there is a store. *)
Definition addCall (s : AppState) : Event :=
  DbAdd (trim (name s)) (trim (email s)) (trim (age s)) (fcmToken s) ServerTimestamp.

(** The payload updateUser notifies with when there is a store. *)
Definition updatePayload (s : AppState) (editing : User.t) : Payload :=
  PUpdate (User.id editing) (trim (name s)) (trim (email s)) (trim (age s))
    (fcmToken s) (Some editing).

(** ** The banner of a failure path *)

Definition isFailureBanner (ev : Event) : bool :=
  match ev with Enter (addInAppNotification_ _ warning) => true | _ => false end.

(** ** The Delete button *)

(** The Delete button pressed in the render it was created in. *)
Definition pressDelete (userId : jsstring) : M unit :=
  fromRender (fun cl => onPressDelete cl userId).

(** The modal of deleteUser. *)
Definition confirmModal : Event :=
  AlertAlert (js "Confirm Delete") (js "Are you sure you want to delete this user?")
    [js "Cancel"; js "Delete"].

(** The banner of a removal. *)
Definition removedBanner (cl : AppState) (userId : jsstring) : jsstring :=
  loudspeaker ++ js " Notification: User " ++ dquote
    ++ deletedName (findUser userId (users cl))
    ++ dquote ++ js " has been removed from the system".

(** The buttons deleteUser puts on the modal of the render [cl]. *)
Definition modalButtons (cl : AppState) (userId : jsstring) : list Button :=
  [ mkButton (js "Cancel") None;
    mkButton (js "Delete") (Some (onPressDelete cl userId)) ].

(** The entry into notifyCRUDOperation the Delete button makes, if any. *)
Definition deleteNotification (userId : jsstring) (us : list User.t)
    (isLocalAction : bool) : list Event :=
  match findUser userId us with
  | Some u => [Enter (notifyCRUDOperation_ DELETE (PDelete userId u) isLocalAction)]
  | None => []
  end.

(** ** An invariant of the component state *)

(** [c] keeps [P]: whatever the environment answers and however [c] ends. *)
Definition preserves {A} (P : World -> Prop) (c : M A) : Prop :=
  forall e w r w', P w -> c e w = (r, w') -> P w'.

Definition feedBounded (w : World) : Prop :=
  (length (inAppNotifications (app w)) <= 5)%nat.

(** ** Concrete runs *)

(** An environment in which no call fails. *)
Definition quietEnv : Env :=
  mkEnv true true (fun _ _ => None) (fun _ => js "doc-1")
    (fun _ => 1700000000000%N) (fun _ => js "1700000000000_k3j9x0a1b") (fun _ => []).

Definition readyService : NotificationService := mkService true true true.

(** The service when the messaging transport could not be set up. *)
Definition localOnlyService : NotificationService := mkService false true true.

Definition grace : User.t :=
  User.mk (js "doc-0") (js "Grace Hopper") (js "grace@navy.mil") (js "85")
    (Some ServerTimestamp) (Some (js "token-G")).

(** The form filled in for a new user, one user already listed, a store. *)
Definition adaForm : AppState :=
  mkApp [grace] false (js "Ada Lovelace") (js "ada@x.com") (js "36") None ∅ []
    (js "token-A") true.

(** The form while [grace] is being edited. *)
Definition editForm : AppState :=
  mkApp [grace] false (js "Grace B Hopper") (js "grace@navy.mil") (js "85")
    (Some grace) ∅ [] (js "token-A") true.

(** An environment in which exactly the store's update rejects. *)
Definition updateFailsEnv : Env :=
  mkEnv true true
    (fun ev _ =>
       match ev with DbUpdate _ _ _ _ _ => Some (thrown (js "unavailable")) | _ => None end)
    (fun _ => js "doc-1") (fun _ => 1700000000000%N)
    (fun _ => js "1700000000000_k3j9x0a1b") (fun _ => []).

(** The service as it is without the messaging transport, one user listed. *)
Definition adaLocalOnly : World := startWorld adaForm localOnlyService.

(** * The rest of the code *)

(** ** App.tsx: startEditing and cancelEditing *)

Definition pencil : jsstring := [9999%N; 65039%N].          (* U+270F U+FE0F *)

Definition startEditing (user : User.t) : M unit :=
  setEditingUser (Some user) ;;
  setName (User.name user) ;;
  setEmail (User.email user) ;;
  setAge (User.age user) ;;
  setErrors ∅ ;;
  addInAppNotification (pencil ++ js " Editing user: " ++ User.name user) info.

Definition cancelEditing : M unit :=
  setEditingUser None ;;
  setName [] ;;
  setEmail [] ;;
  setAge [] ;;
  setErrors ∅ ;;
  addInAppNotification (crossMark ++ js " Edit cancelled") info.

(** ** App.tsx: NotificationService.initialize and getStatus

    The three steps of initialize write the service's flags; each is a
    try/catch of its own. What the platform answers is a record of its own,
    and a step returns the new flags with the platform calls it made. *)

Module Init.

Inductive PermissionResult : Type := granted | denied | never_ask_again.

Inductive Call : Type :=
| CreateChannel (id : jsstring)
| CheckPermission
| RequestPermission
| DenialAlert
| MessagingInstance.

Record Platform : Type := mkPlatform {
  isAndroid : bool;                       (* Platform.OS === 'android' *)
  createChannel : jsstring -> bool;       (* notifee.createChannel returns *)
  check : Res bool;                       (* PermissionsAndroid.check *)
  request : Res PermissionResult;         (* PermissionsAndroid.request *)
  messaging : bool;                       (* the messaging module loaded *)
  messagingInstance : bool;               (* messaging(getApp()) returns *)
}.

Definition withChannels (v : bool) (this : NotificationService) : NotificationService :=
  mkService (messagingAvailable this) (permissionsGranted this) v.

Definition withPermissions (v : bool) (this : NotificationService) : NotificationService :=
  mkService (messagingAvailable this) v (notificationChannelCreated this).

Definition withMessaging (v : bool) (this : NotificationService) : NotificationService :=
  mkService v (permissionsGranted this) (notificationChannelCreated this).

(** [new NotificationService()] *)
Definition fresh : NotificationService := mkService false false false.

Definition createNotificationChannels (p : Platform) (this : NotificationService)
    : NotificationService * list Call :=
  if isAndroid p then
    if createChannel p (js "default") then
      if createChannel p (js "high_priority") then
        if createChannel p (js "crud_operations") then
          (withChannels true this,
           [CreateChannel (js "default"); CreateChannel (js "high_priority");
            CreateChannel (js "crud_operations")])
        else
          (this,
           [CreateChannel (js "default"); CreateChannel (js "high_priority");
            CreateChannel (js "crud_operations")])
      else (this, [CreateChannel (js "default"); CreateChannel (js "high_priority")])
    else (this, [CreateChannel (js "default")])
  else (this, []).

Definition requestPermissions (p : Platform) (this : NotificationService)
    : NotificationService * list Call :=
  if isAndroid p then
    match check p with
    | Throw _ => (withPermissions false this, [CheckPermission])
    | Ok true => (withPermissions true this, [CheckPermission])
    | Ok false =>
        match request p with
        | Throw _ => (withPermissions false this, [CheckPermission; RequestPermission])
        | Ok granted => (withPermissions true this, [CheckPermission; RequestPermission])
        | Ok _ =>
            (* the flag is false; a throwing alert sets it to false again *)
            (withPermissions false this, [CheckPermission; RequestPermission; DenialAlert])
        end
    end
  else (withPermissions true this, []).

Definition setupFirebaseMessaging (p : Platform) (this : NotificationService)
    : NotificationService * list Call :=
  if negb (messaging p) then (this, [])
  else (withMessaging (messagingInstance p) this, [MessagingInstance]).

Definition initialize (p : Platform) (this : NotificationService)
    : NotificationService * list Call :=
  let '(s1, c1) := createNotificationChannels p this in
  let '(s2, c2) := requestPermissions p s1 in
  let '(s3, c3) := setupFirebaseMessaging p s2 in
  (s3, c1 ++ c2 ++ c3).

Record Status : Type := mkStatus {
  statusPermissionsGranted : bool;
  statusMessagingAvailable : bool;
  statusNotificationChannelCreated : bool;
  canSendPushNotifications : bool;
}.

Definition getStatus (this : NotificationService) : Status :=
  mkStatus (permissionsGranted this) (messagingAvailable this)
    (notificationChannelCreated this)
    (permissionsGranted this && messagingAvailable this).

Definition bell : jsstring := [55357%N; 56596%N].              (* U+1F514 *)
Definition phone : jsstring := [55357%N; 56561%N].             (* U+1F4F1 *)

(** The status line of the header; [notificationStatus] is null until
    initialize has finished. *)
Definition statusLine (notificationStatus : option Status) : jsstring :=
  match notificationStatus with
  | Some st =>
      if statusNotificationChannelCreated st then
        if statusPermissionsGranted st
        then bell ++ js " System Notifications Enabled"
        else phone ++ js " System Notifications Ready (Permission Needed)"
      else phone ++ js " Setting up notifications..."
  | None => phone ++ js " Setting up notifications..."
  end.

End Init.

(** ** index.ts: sendEmailNotification *)

Module Email.

(** The fields the templates read of a user object. *)
Record Person : Type := mkPerson {
  personName : option jsstring;
  personEmail : option jsstring;
  personAge : option jsstring;
}.

Record UserData : Type := mkUserData {
  name : option jsstring;
  email : option jsstring;
  age : option jsstring;
  deletedUser : option Person;
}.

(** The request: [{ action, userData, userEmail }]. *)
Record Data : Type := mkData {
  action : jsstring;
  userData : option UserData;
  userEmail : option jsstring;
}.

Record MailOptions : Type := mkMail {
  from : jsstring;
  to : jsstring;
  subject : jsstring;
  html : jsstring;
}.

(** The read of the users collection yields the [email] field of every
    document; [sendMail] tells whether the promise of one mail is fulfilled. *)
Record Backend : Type := mkBackend {
  usersGet : Res (list (option jsstring));
  configUser : option jsstring;           (* functions.config().email?.user *)
  sendMail : MailOptions -> bool;
}.

(** [if (userData.email && userData.email !== userEmail) emails.push(..)] *)
Fixpoint collectEmails (docs : list (option jsstring)) (userEmail : option jsstring)
    : list jsstring :=
  match docs with
  | [] => []
  | email :: rest =>
      match email with
      | Some a =>
          if truthy email && negb (bool_decide (email = userEmail))
          then a :: collectEmails rest userEmail
          else collectEmails rest userEmail
      | None => collectEmails rest userEmail
      end
  end.

Definition nl : jsstring := [10%N].

Definition footer : jsstring :=
  js "          <p>This notification was sent automatically by the Firebase CRUD Demo app.</p>"
    ++ nl ++ js "        ".

Definition htmlCreate (u : UserData) : jsstring :=
  nl
    ++ js "          <h2>New User Added</h2>" ++ nl
    ++ js "          <p>A new user has been added to the system:</p>" ++ nl
    ++ js "          <ul>" ++ nl
    ++ js "            <li><strong>Name:</strong> " ++ tpl (name u) ++ js "</li>" ++ nl
    ++ js "            <li><strong>Email:</strong> " ++ tpl (email u) ++ js "</li>" ++ nl
    ++ js "            <li><strong>Age:</strong> " ++ tpl (age u) ++ js "</li>" ++ nl
    ++ js "          </ul>" ++ nl
    ++ footer.

Definition htmlUpdate (u : UserData) : jsstring :=
  nl
    ++ js "          <h2>User Information Updated</h2>" ++ nl
    ++ js "          <p>A user's information has been updated:</p>" ++ nl
    ++ js "          <ul>" ++ nl
    ++ js "            <li><strong>Name:</strong> " ++ tpl (name u) ++ js "</li>" ++ nl
    ++ js "            <li><strong>Email:</strong> " ++ tpl (email u) ++ js "</li>" ++ nl
    ++ js "            <li><strong>Age:</strong> " ++ tpl (age u) ++ js "</li>" ++ nl
    ++ js "          </ul>" ++ nl
    ++ footer.

Definition htmlDelete (d : Person) : jsstring :=
  nl
    ++ js "          <h2>User Removed</h2>" ++ nl
    ++ js "          <p>A user has been removed from the system:</p>" ++ nl
    ++ js "          <ul>" ++ nl
    ++ js "            <li><strong>Name:</strong> " ++ tpl (personName d) ++ js "</li>" ++ nl
    ++ js "            <li><strong>Email:</strong> " ++ tpl (personEmail d) ++ js "</li>" ++ nl
    ++ js "            <li><strong>Age:</strong> " ++ tpl (personAge d) ++ js "</li>" ++ nl
    ++ js "          </ul>" ++ nl
    ++ footer.

Definition htmlDefault : jsstring :=
  nl
    ++ js "          <h2>System Update</h2>" ++ nl
    ++ js "          <p>A change has been made to the user database.</p>" ++ nl
    ++ footer.

(** The [switch (action)]: subject and HTML body. Reading a property of
    [undefined] throws. *)
Definition emailContent (action : jsstring) (userData : option UserData)
    : Res (jsstring * jsstring) :=
  if decide (action = js "CREATE") then
    match userData with
    | Some u => Ok (js "New User Added - Firebase CRUD Demo", htmlCreate u)
    | None => Throw Functions.typeError
    end
  else if decide (action = js "UPDATE") then
    match userData with
    | Some u => Ok (js "User Updated - Firebase CRUD Demo", htmlUpdate u)
    | None => Throw Functions.typeError
    end
  else if decide (action = js "DELETE") then
    match userData with
    | Some u =>
        match deletedUser u with
        | Some d => Ok (js "User Deleted - Firebase CRUD Demo", htmlDelete d)
        | None => Throw Functions.typeError
        end
    | None => Throw Functions.typeError
    end
  else Ok (js "System Update - Firebase CRUD Demo", htmlDefault).

(** [functions.config().email?.user || 'your-email@gmail.com'] *)
Definition sender (b : Backend) : jsstring :=
  if truthy (configUser b) then tpl (configUser b) else js "your-email@gmail.com".

Definition internalError : Functions.Outcome :=
  Functions.HttpsError (js "internal") (js "Failed to send email notification").

(** [results.filter(result => result.status === ...).length] *)
Definition countStatus (fulfilled : bool) (results : list bool) : Z :=
  Z.of_nat (length (List.filter (fun r => Bool.eqb r fulfilled) results)).

(** The handler: its outcome and the mails it handed to the transport, one
    per recipient; the promises are awaited with Promise.allSettled. *)
Definition sendEmailNotification (b : Backend) (data : Data)
    : Functions.Outcome * list MailOptions :=
  match usersGet b with
  | Throw _ => (internalError, [])
  | Ok docs =>
      match collectEmails docs (userEmail data) with
      | [] => (Functions.Returns (Functions.NoUsers (js "No users to email")), [])
      | emails =>
          match emailContent (action data) (userData data) with
          | Throw _ => (internalError, [])
          | Ok (subject, htmlContent) =>
              let mails := map (fun email => mkMail (sender b) email subject htmlContent) emails in
              let results := map (sendMail b) mails in
              (Functions.Returns
                 (Functions.Sent (countStatus true results) (countStatus false results)),
               mails)
          end
      end
  end.

End Email.

(** ** From the app to the push handler

    sendPushNotification hands [{ action, userData, senderToken, timestamp }]
    to the callable; notifyCRUDOperation, its only caller, passes no
    senderToken. *)

Definition operationName (operation : Operation) : jsstring :=
  match operation with
  | CREATE => js "CREATE"
  | UPDATE => js "UPDATE"
  | DELETE => js "DELETE"
  end.

(** The fields of a payload that the push handler reads. *)
Definition requestUserData (userData : Payload) : Functions.UserData :=
  match userData with
  | PUser u => Functions.mkUserData (Some (User.name u)) (Some (User.id u)) None
  | PUpdate id name _ _ _ _ => Functions.mkUserData (Some name) (Some id) None
  | PDelete id deletedUser =>
      Functions.mkUserData None (Some id) (Some (Some (User.name deletedUser)))
  end.

Definition pushRequest (operation : Operation) (userData : Payload)
    (senderToken : option jsstring) : Functions.Data :=
  Functions.mkData (operationName operation) (Some (requestUserData userData)) senderToken.

(** The pairs of operation and payload the handlers notify with. *)
Definition asHandlersNotify (operation : Operation) (userData : Payload) : bool :=
  match operation, userData with
  | CREATE, PUser _ => true
  | UPDATE, PUpdate _ _ _ _ _ _ => true
  | DELETE, PDelete _ _ => true
  | _, _ => false
  end.

(** ** Vocabulary of the further properties *)

Definition noLeadingSpace (s : jsstring) : Prop :=
  match s with
  | c :: _ => isWhiteSpace c = false
  | [] => True
  end.

(** The form as startEditing fills it. *)
Definition editingForm (user : User.t) (s : AppState) : AppState :=
  withErrors ∅ (withAge (User.age user) (withEmail (User.email user)
    (withName (User.name user) (withEditingUser (Some user) s)))).

(** More kinds of events. *)
Definition isAlert (ev : Event) : bool :=
  match ev with AlertAlert _ _ _ => true | _ => false end.

Definition isToast (ev : Event) : bool :=
  match ev with ToastShow _ => true | _ => false end.

Definition isDisplay (ev : Event) : bool :=
  match ev with DisplayNotification _ _ _ => true | _ => false end.

Definition isVibrate (ev : Event) : bool :=
  match ev with Vibrate _ => true | _ => false end.

Definition isEnterFallback (ev : Event) : bool :=
  match ev with Enter (showFallbackNotification_ _ _) => true | _ => false end.

Definition isCallable (ev : Event) : bool :=
  match ev with HttpsCallable _ _ _ => true | _ => false end.

(** The message the system notification of a delete carries. *)
Definition deletedMessage : jsstring :=
  js "User " ++ dquote ++ js "undefined" ++ dquote ++ js " has been removed from the system".

(** What a delete lets the user read: every display, alert and toast of
    the service carries the one message. *)
Definition saysDeleted (ev : Event) : bool :=
  match ev with
  | DisplayNotification _ body _ => bool_decide (body = deletedMessage)
  | AlertAlert _ body _ => bool_decide (body = deletedMessage)
  | ToastShow text => bool_decide (text = js "User Deleted: " ++ deletedMessage)
  | _ => true
  end.

(** A computation that returns normally from every state, in the
    environment [e]. *)
Definition neverThrows {A} (e : Env) (c : M A) : Prop :=
  forall w, exists a w', c e w = (Ok a, w').

(** A computation whose events, however it ends, all satisfy [Q]. *)
Definition emitsOnly {A} (Q : Event -> bool) (c : M A) : Prop :=
  forall e w, exists tr, trace (snd (c e w)) = trace w ++ tr /\ forallb Q tr = true.

(** An event that is neither a call of the store nor of a callable function. *)
Definition offline (ev : Event) : bool := negb (isStoreCall ev) && negb (isCallable ev).

(** The banners and the messages of the failure paths. *)
Definition validationMessage : jsstring := js "Please fix the validation errors".
Definition addFailedMessage : jsstring := js "Failed to add user. Please try again.".
Definition deleteFailedMessage : jsstring := js "Failed to delete user. Please try again.".

(** ** Further concrete states *)

(** [grace] as the form of [editForm] would leave her. *)
Definition graceEdited : User.t :=
  User.mk (js "doc-0") (js "Grace B Hopper") (js "grace@navy.mil") (js "85")
    (Some ServerTimestamp) (Some (js "token-A")).

(** The store's update rejects; while it is pending the listener receives
    the local write (latency compensation), as it does for any write. *)
Definition updateEchoedEnv : Env :=
  mkEnv true true
    (fun ev _ =>
       match ev with DbUpdate _ _ _ _ _ => Some (thrown (js "unavailable")) | _ => None end)
    (fun _ => js "doc-1") (fun _ => 1700000000000%N)
    (fun _ => js "1700000000000_k3j9x0a1b")
    (fun n => match n with O => [[graceEdited]] | _ => [] end).

(** The record addUser builds from [adaForm] once the store has named it. *)
Definition ada : User.t := newUserOf adaForm (js "doc-1") ServerTimestamp.

(** Every call succeeds; while the store's add is pending the listener
    receives the collection with the new record in it. *)
Definition addEchoedEnv : Env :=
  mkEnv true true (fun _ _ => None) (fun _ => js "doc-1") (fun _ => 1700000000000%N)
    (fun _ => js "1700000000000_k3j9x0a1b")
    (fun n => match n with O => [[ada; grace]] | _ => [] end).

(** Every call of the platform, the store and the functions fails with an
    Error. *)
Definition everythingFailsEnv : Env :=
  mkEnv true true (fun _ _ => Some (thrown (js "unavailable"))) (fun _ => js "doc-1")
    (fun _ => 1700000000000%N) (fun _ => js "1700000000000_k3j9x0a1b") (fun _ => []).

(** The toast throws null; every other call succeeds. *)
Definition nullToastEnv : Env :=
  mkEnv true true
    (fun ev _ => match ev with ToastShow _ => Some nullish | _ => None end)
    (fun _ => js "doc-1") (fun _ => 1700000000000%N)
    (fun _ => js "1700000000000_k3j9x0a1b") (fun _ => []).

(** The callable functions reject with null; every other call succeeds. *)
Definition nullCallableEnv : Env :=
  mkEnv true true
    (fun ev _ => match ev with HttpsCallable _ _ _ => Some nullish | _ => None end)
    (fun _ => js "doc-1") (fun _ => 1700000000000%N)
    (fun _ => js "1700000000000_k3j9x0a1b") (fun _ => []).

(** The form filled in for a new user, one user listed, no store. *)
Definition localForm : AppState :=
  mkApp [grace] false (js " Ada Lovelace ") (js "ada@x.com") (js "36") None ∅ [] [] false.


(** A form whose name is too short and whose age is not a number. *)
Definition badForm : AppState :=
  mkApp [grace] false (js "A") (js "ada@x.com") (js "old") None ∅ [] (js "token-A") true.

(** An environment in which every call of the store rejects. *)
Definition storeFailsEnv : Env :=
  mkEnv true true
    (fun ev _ => if isStoreCall ev then Some (thrown (js "unavailable")) else None)
    (fun _ => js "doc-1") (fun _ => 1700000000000%N)
    (fun _ => js "1700000000000_k3j9x0a1b") (fun _ => []).



Definition updatedBanner (s : AppState) : jsstring :=
  loudspeaker ++ js " Notification: User " ++ dquote ++ trim (name s)
    ++ dquote ++ js " information has been updated".

(** What the platform lets initialize achieve. *)
Definition allChannels (p : Init.Platform) : bool :=
  Init.createChannel p (js "default") && Init.createChannel p (js "high_priority")
    && Init.createChannel p (js "crud_operations").

Definition permissionObtained (p : Init.Platform) : bool :=
  match Init.check p with
  | Ok true => true
  | Ok false => match Init.request p with Ok Init.granted => true | _ => false end
  | Throw _ => false
  end.

(** A phone that refuses the permission, and a platform that is not Android. *)
Definition refusingPhone : Init.Platform :=
  Init.mkPlatform true (fun _ => true) (Ok false) (Ok Init.denied) true true.

Definition otherPlatform : Init.Platform :=
  Init.mkPlatform false (fun _ => true) (Ok true) (Ok Init.granted) true true.

Definition bellEnabled : jsstring := Init.bell ++ js " System Notifications Enabled".

(** sendEmailNotification hands [{ action, userData, timestamp }] to the
    callable: no userEmail. The fields of a payload the email handler reads. *)
Definition emailUserData (userData : Payload) : Email.UserData :=
  match userData with
  | PUser u =>
      Email.mkUserData (Some (User.name u)) (Some (User.email u)) (Some (User.age u)) None
  | PUpdate _ name email age _ _ => Email.mkUserData (Some name) (Some email) (Some age) None
  | PDelete _ deletedUser =>
      Email.mkUserData None None None
        (Some (Email.mkPerson (Some (User.name deletedUser)) (Some (User.email deletedUser))
                 (Some (User.age deletedUser))))
  end.

Definition emailRequest (operation : Operation) (userData : Payload) : Email.Data :=
  Email.mkData (operationName operation) (Some (emailUserData userData)) None.

(** The non-empty values of a field over the documents, in order. *)
Definition nonEmpty (docs : list (option jsstring)) : list jsstring :=
  filter (fun t => t <> []) (omap (fun field => field) docs).

(* ================================================================== *)
(** * Properties *)

(** ** Validation *)

Example validateAge_36 : validateAge (js "36") = None.
Proof. vm_compute. reflexivity. Qed.

Example validateAge_121 :
  validateAge (js " 121 ") = Some (js "Age must be between 1 and 120").
Proof. vm_compute. reflexivity. Qed.

Example validateEmail_ada : validateEmail (js "ada@x.com") = None.
Proof. vm_compute. reflexivity. Qed.

Example validateEmail_two_at :
  validateEmail (js "a@b@x.com") = Some (js "Please enter a valid email address").
Proof. vm_compute. reflexivity. Qed.

Example validateName_ada : validateName (js "Ada Lovelace") = None.
Proof. vm_compute. reflexivity. Qed.

Example noKeys_formErrors :
  noKeys (formErrors (js "Ada Lovelace") (js "ada@x.com") (js "36")) = true.
Proof. vm_compute. reflexivity. Qed.

(** The validators' messages are never the empty string. *)

Lemma validateName_truthy name : truthy (validateName name) = isSome (validateName name).
Proof. unfold validateName. repeat case_match; reflexivity. Qed.

Lemma validateEmail_truthy email : truthy (validateEmail email) = isSome (validateEmail email).
Proof. unfold validateEmail. repeat case_match; reflexivity. Qed.

Lemma validateAge_truthy age : truthy (validateAge age) = isSome (validateAge age).
Proof. unfold validateAge. repeat case_match; reflexivity. Qed.

Lemma setIfTruthy_lookup field e o :
  truthy e = isSome e -> setIfTruthy field e o !! field = match e with Some m => Some m | None => o !! field end.
Proof.
  intros T. unfold setIfTruthy. destruct e as [m|]; [|reflexivity].
  rewrite T. simpl. apply lookup_insert_eq.
Qed.

Lemma setIfTruthy_lookup_ne field field' e o :
  field <> field' -> setIfTruthy field e o !! field' = o !! field'.
Proof.
  intros Hne. unfold setIfTruthy. destruct e as [m|]; [|reflexivity].
  destruct (truthy (Some m)); [|reflexivity]. by apply lookup_insert_ne.
Qed.

Lemma formErrors_name name email age :
  formErrors name email age !! "name" = validateName name.
Proof.
  unfold formErrors.
  rewrite !setIfTruthy_lookup_ne by discriminate.
  rewrite setIfTruthy_lookup by apply validateName_truthy.
  destruct (validateName name); reflexivity.
Qed.

Lemma formErrors_email name email age :
  formErrors name email age !! "email" = validateEmail email.
Proof.
  unfold formErrors.
  rewrite setIfTruthy_lookup_ne by discriminate.
  rewrite setIfTruthy_lookup by apply validateEmail_truthy.
  rewrite setIfTruthy_lookup_ne by discriminate.
  destruct (validateEmail email); reflexivity.
Qed.

Lemma formErrors_age name email age :
  formErrors name email age !! "age" = validateAge age.
Proof.
  unfold formErrors.
  rewrite setIfTruthy_lookup by apply validateAge_truthy.
  rewrite !setIfTruthy_lookup_ne by discriminate.
  destruct (validateAge age); reflexivity.
Qed.

Lemma formErrors_other name email age field :
  field <> "name" -> field <> "email" -> field <> "age" ->
  formErrors name email age !! field = None.
Proof.
  intros. unfold formErrors. by rewrite !setIfTruthy_lookup_ne.
Qed.

Lemma noKeys_formErrors_iff name email age :
  noKeys (formErrors name email age) = true <->
  validateName name = None /\ validateEmail email = None /\ validateAge age = None.
Proof.
  unfold noKeys. rewrite bool_decide_eq_true, map_size_empty_iff. split.
  - intros E.
    rewrite <- (formErrors_name name email age), <- (formErrors_email name email age),
      <- (formErrors_age name email age), E.
    repeat split; apply lookup_empty.
  - intros (Hn & He & Ha). unfold formErrors. rewrite Hn, He, Ha. reflexivity.
Qed.

(** ** The patterns: [test] decides membership in the language *)

Lemma nullable_matches r : nullable r = true <-> matches r [].
Proof.
  split.
  - induction r; cbn [nullable]; intros H; try discriminate.
    + constructor.
    + apply andb_true_iff in H as [H1 H2].
      apply (MSeq r1 r2 [] []); auto.
    + apply orb_true_iff in H as [H|H]; [apply MAltL|apply MAltR]; auto.
    + constructor.
  - intros H. remember [] as s eqn:Es.
    induction H; cbn [nullable]; try reflexivity; try discriminate.
    + apply app_eq_nil in Es as [-> ->]. rewrite IHmatches1, IHmatches2; reflexivity.
    + rewrite IHmatches by exact Es. reflexivity.
    + rewrite IHmatches by exact Es. apply orb_true_r.
Qed.

Lemma deriv_sound c r : forall s, matches (deriv c r) s -> matches r (c :: s).
Proof.
  induction r as [| |p|r1 IH1 r2 IH2|r1 IH1 r2 IH2|r1 IH1]; cbn [deriv]; intros s H.
  - inversion H.
  - inversion H.
  - destruct (p c) eqn:Hp; inversion H; subst. constructor. exact Hp.
  - destruct (nullable r1) eqn:Hn.
    + inversion H as [| | | ? ? ? H'| ? ? ? H'| |]; subst.
      * inversion H' as [| | ? ? s1 s2 Ha Hb | | | |]; subst.
        apply (MSeq r1 r2 (c :: s1) s2); auto.
      * apply (MSeq r1 r2 [] (c :: s)); [apply nullable_matches, Hn|auto].
    + inversion H as [| | ? ? s1 s2 Ha Hb | | | |]; subst.
      apply (MSeq r1 r2 (c :: s1) s2); auto.
  - inversion H; subst; [apply MAltL|apply MAltR]; auto.
  - inversion H as [| | ? ? s1 s2 Ha Hb | | | |]; subst.
    apply (MStarApp r1 (c :: s1) s2); auto.
Qed.

Lemma deriv_complete c r cs :
  matches r cs -> forall s, cs = c :: s -> matches (deriv c r) s.
Proof.
  induction 1 as [|p c' Hp|r1 r2 s1 s2 H1 IH1 H2 IH2|r1 r2 s' H IH|r1 r2 s' H IH
                 |r|r s1 s2 H1 IH1 H2 IH2]; intros s E; cbn [deriv].
  - discriminate.
  - injection E as -> <-. rewrite Hp. constructor.
  - destruct s1 as [|c1 s1]; cbn in E.
    + subst s2. rewrite (proj2 (nullable_matches r1) H1). apply MAltR. auto.
    + injection E as -> <-.
      destruct (nullable r1); [apply MAltL|]; apply MSeq; auto.
  - apply MAltL. auto.
  - apply MAltR. auto.
  - discriminate.
  - destruct s1 as [|c1 s1]; cbn in E.
    + subst s2. apply IH2. reflexivity.
    + injection E as -> <-. apply MSeq; auto.
Qed.

Lemma test_matches r s : test r s = true <-> matches r s.
Proof.
  unfold test. revert r. induction s as [|c s IH]; intros r; cbn [fold_left].
  - apply nullable_matches.
  - rewrite IH. split; [apply deriv_sound|]. intros H. apply (deriv_complete c r _ H s eq_refl).
Qed.

Lemma matches_star_class p s :
  matches (Star (Class p)) s <-> Forall (fun c => p c = true) s.
Proof.
  split.
  - intros H. remember (Star (Class p)) as r eqn:Er.
    induction H as [| | | | | |r s1 s2 H1 _ H2 IH2]; try discriminate; [constructor|].
    injection Er as ->. inversion H1; subst. constructor; auto.
  - induction 1 as [|c s' Hc _ IH]; [constructor|].
    apply (MStarApp (Class p) [c] s'); [constructor; exact Hc|exact IH].
Qed.

Lemma matches_plus_class p s :
  matches (Plus (Class p)) s <-> s <> [] /\ Forall (fun c => p c = true) s.
Proof.
  unfold Plus. split.
  - intros H. inversion H as [| | ? ? s1 s2 Ha Hb | | | |]; subst.
    inversion Ha; subst. apply matches_star_class in Hb.
    split; [discriminate|constructor; assumption].
  - intros [Hne HF]. destruct HF as [|c s' Hc HF]; [contradiction|].
    apply (MSeq (Class p) (Star (Class p)) [c] s'); [constructor; exact Hc|].
    apply matches_star_class, HF.
Qed.

Lemma matches_chr a s : matches (Chr a) s <-> s = [N_of_ascii a].
Proof.
  unfold Chr. split.
  - intros H. inversion H as [|? c Hc| | | | |]; subst.
    apply N.eqb_eq in Hc. subst. reflexivity.
  - intros ->. constructor. apply N.eqb_refl.
Qed.

(** What validateName accepts: 2 to 50 code units after trimming, letters
    and white space only. *)
Lemma validateName_accepts_iff (s : jsstring) :
  validateName s = None <->
  (2 <= length (trim s) <= 50)%nat /\
  Forall (fun c => isLetter c || isWhiteSpace c = true) (trim s).
Proof.
  unfold validateName.
  destruct (decide (trim s = [])) as [E|E].
  { rewrite E. split; [discriminate|]. cbn. lia. }
  destruct (Z.ltb_spec (Z.of_nat (length (trim s))) 2).
  { split; [discriminate|]. lia. }
  destruct (Z.gtb_spec (Z.of_nat (length (trim s))) 50).
  { split; [discriminate|]. lia. }
  destruct (test nameRegex (trim s)) eqn:Ht; cbn [negb].
  - apply test_matches, matches_plus_class in Ht as [_ Ht].
    split; [|reflexivity]. intros _. split; [lia|exact Ht].
  - split; [discriminate|]. intros [_ HF]. exfalso.
    assert (test nameRegex (trim s) = true) as Ht'.
    { apply test_matches, matches_plus_class. split; assumption. }
    congruence.
Qed.

(** A digit or a symbol anywhere in the trimmed name is rejected. *)
Lemma validateName_rejects_other_characters (s : jsstring) (c : N) :
  c ∈ trim s -> isLetter c = false -> isWhiteSpace c = false -> validateName s <> None.
Proof.
  intros Hin Hl Hw Hv. apply validateName_accepts_iff in Hv as [_ HF].
  rewrite Forall_forall in HF. specialize (HF c Hin).
  rewrite Hl, Hw in HF. discriminate.
Qed.

(** What validateEmail accepts: a local part, one at sign, and a domain
    with a dot that is neither its first nor its last character; no white
    space and no other at sign anywhere. *)
Lemma validateEmail_accepts_iff (s : jsstring) :
  validateEmail s = None <->
  exists localPart d1 d2,
    trim s = localPart ++ [64%N] ++ d1 ++ [46%N] ++ d2 /\
    localPart <> [] /\ d1 <> [] /\ d2 <> [] /\
    Forall (fun c => notSpaceAt c = true) (localPart ++ d1 ++ d2).
Proof.
  assert (test emailRegex (trim s) = true <->
          exists localPart d1 d2,
            trim s = localPart ++ [64%N] ++ d1 ++ [46%N] ++ d2 /\
            localPart <> [] /\ d1 <> [] /\ d2 <> [] /\
            Forall (fun c => notSpaceAt c = true) (localPart ++ d1 ++ d2)) as Hre.
  { rewrite test_matches. unfold emailRegex. split.
    - intros H.
      inversion H as [| | ? ? a r1 Ha M1 | | | |]; subst.
      inversion M1 as [| | ? ? at1 r2 Hat M2 | | | |]; subst.
      inversion M2 as [| | ? ? b r3 Hb M3 | | | |]; subst.
      inversion M3 as [| | ? ? dot c Hdot Hc | | | |]; subst.
      apply matches_plus_class in Ha as [Hane Ha], Hb as [Hbne Hb], Hc as [Hcne Hc].
      apply matches_chr in Hat, Hdot. subst at1 dot.
      exists a, b, c. repeat split; try assumption.
      rewrite !Forall_app. auto.
    - intros (a & b & c & -> & Hane & Hbne & Hcne & HF).
      rewrite !Forall_app in HF. destruct HF as (Ha & Hb & Hc).
      repeat apply MSeq; try (apply matches_plus_class; split; assumption);
        apply matches_chr; reflexivity. }
  unfold validateEmail. destruct (decide (trim s = [])) as [E|E].
  { split; [discriminate|]. intros (a & b & c & H & _). rewrite E in H.
    destruct a; discriminate. }
  destruct (test emailRegex (trim s)) eqn:Ht; cbn [negb].
  - split; [|reflexivity]. intros _. apply Hre. reflexivity.
  - split; [discriminate|]. intros H. apply Hre in H. discriminate.
Qed.

(** validateForm, as the handlers run it. *)

(** C9: validateForm returns true exactly when validateName, validateEmail
    and validateAge each return undefined on the current field values, and it
    stores the recomputed error object: one message per failing field, no
    other key, nothing else of the state touched. *)
Theorem validateForm_iff_all_validators (cl : AppState) (e : Env) (w : World) :
  exists (b : bool) (w' : World),
    validateForm cl e w = (Ok b, w') /\
    (b = true <->
       validateName (name cl) = None /\
       validateEmail (email cl) = None /\
       validateAge (age cl) = None) /\
    errors (app w') !! "name" = validateName (name cl) /\
    errors (app w') !! "email" = validateEmail (email cl) /\
    errors (app w') !! "age" = validateAge (age cl) /\
    (forall field, field <> "name" -> field <> "email" -> field <> "age" ->
       errors (app w') !! field = None) /\
    users (app w') = users (app w) /\
    inAppNotifications (app w') = inAppNotifications (app w) /\
    submitting (app w') = submitting (app w) /\
    trace w' = trace w.
Proof.
  eexists _, _. split; [reflexivity|]. simpl.
  split; [apply noKeys_formErrors_iff|].
  split; [apply formErrors_name|].
  split; [apply formErrors_email|].
  split; [apply formErrors_age|].
  split; [apply formErrors_other|].
  repeat split.
Qed.

(** ** validateAge and parseInt *)

Ltac cmpN :=
  repeat match goal with
    | H : context [(?a <=? ?b)%N] |- _ => destruct (N.leb_spec a b)
    | H : context [(?a =? ?b)%N] |- _ => destruct (N.eqb_spec a b)
    | |- context [(?a <=? ?b)%N] => destruct (N.leb_spec a b)
    | |- context [(?a =? ?b)%N] => destruct (N.eqb_spec a b)
    end;
  simpl in *; try discriminate; try reflexivity; try lia.

Lemma digit_not_space c : isDecimalDigit c = true -> isWhiteSpace c = false.
Proof.
  unfold isDecimalDigit. intros [H1 H2]%andb_true_iff. apply N.leb_le in H1, H2.
  unfold isWhiteSpace.
  repeat match goal with
    | |- context [(c <=? ?k)%N] => rewrite (proj2 (N.leb_gt c k)) by lia
    | |- context [(?k <=? c)%N] => rewrite (proj2 (N.leb_gt k c)) by lia
    | |- context [(c =? ?k)%N] => rewrite (proj2 (N.eqb_neq c k)) by lia
    end.
  rewrite ?andb_false_r. reflexivity.
Qed.

Lemma digit_radix10 c :
  isDecimalDigit c = true -> radixDigit 10 c = Some (Z.of_N (c - 48)).
Proof.
  unfold isDecimalDigit, radixDigit, digitValue. intros H.
  rewrite H. destruct (Z.ltb_spec (Z.of_N (c - 48)) 10); [reflexivity|].
  cmpN.
Qed.

Lemma digitsPrefix_digits ds :
  forallb isDecimalDigit ds = true ->
  digitsPrefix 10 ds = map (fun c => Z.of_N (c - 48)) ds.
Proof.
  induction ds as [|c ds IH]; simpl; [reflexivity|].
  intros [Hc Hds]%andb_true_iff.
  rewrite (digit_radix10 c Hc), IH by exact Hds. reflexivity.
Qed.

Lemma stripPrefix_digits ds :
  forallb isDecimalDigit ds = true -> stripPrefix ds = (10, ds).
Proof.
  destruct ds as [|c [|x r]]; [reflexivity| |].
  { intros _. unfold stripPrefix. repeat case_match; reflexivity. }
  simpl. intros [Hc [Hx _]%andb_true_iff]%andb_true_iff.
  unfold stripPrefix.
  assert (((x =? 120) || (x =? 88))%N = false) as ->.
  { unfold isDecimalDigit in Hx. cmpN. }
  repeat case_match; reflexivity.
Qed.

(** Exactly what the code accepts. *)
Lemma validateAge_accepts_iff (age : jsstring) :
  validateAge age = None <->
  trim age <> [] /\ exists ageNum, parseInt (trim age) = Some ageNum /\ 1 <= ageNum <= 120.
Proof.
  unfold validateAge. destruct (decide (trim age = [])) as [E|E].
  - split; [discriminate|]. intros [H _]. contradiction.
  - destruct (parseInt (trim age)) as [n|].
    + destruct (Z.ltb_spec n 1), (Z.gtb_spec n 120); simpl; split;
        try discriminate; try (intros (_ & m & [= <-] & ?); lia);
        try (intros _; reflexivity).
      intros _. split; [exact E|]. exists n. split; [reflexivity|lia].
    + split; [discriminate|]. intros (_ & m & [=] & _).
Qed.

Lemma stripSign_unsigned c r :
  c <> 45%N -> c <> 43%N -> stripSign (c :: r) = (1, c :: r).
Proof.
  intros H1 H2. unfold stripSign. repeat case_match; subst; try reflexivity; contradiction.
Qed.

Lemma stripSign_numeric_trimStart (x : jsstring) :
  snd (stripSign x) <> [] ->
  forallb isDecimalDigit (snd (stripSign x)) = true ->
  trimStart x = x.
Proof.
  destruct x as [|c r]; [reflexivity|]. intros Hne Hds. simpl.
  destruct (N.eq_dec c 45%N) as [->|H1]; [reflexivity|].
  destruct (N.eq_dec c 43%N) as [->|H2]; [reflexivity|].
  rewrite (stripSign_unsigned c r H1 H2) in Hds. simpl in Hds.
  apply andb_true_iff in Hds as [Hc _].
  rewrite (digit_not_space c Hc). reflexivity.
Qed.

(** On a numeric string parseInt reads the whole string in base 10. *)
Lemma parseInt_numeric (s : jsstring) :
  spec_numeric s = true -> parseInt (trim s) = Some (spec_decimalValue s).
Proof.
  unfold spec_numeric, spec_decimalValue, parseInt. intros H.
  assert (snd (stripSign (trim s)) <> [] /\
          forallb isDecimalDigit (snd (stripSign (trim s))) = true) as [Hne Hds].
  { destruct (snd (stripSign (trim s))); [discriminate|]. split; [discriminate|exact H]. }
  rewrite (stripSign_numeric_trimStart _ Hne Hds).
  destruct (stripSign (trim s)) as [sg ds]. simpl in Hne, Hds.
  rewrite (stripPrefix_digits ds Hds), (digitsPrefix_digits ds Hds).
  destruct ds; [contradiction|reflexivity].
Qed.

(** On numeric strings the code does what the specification says: it
    accepts exactly the values from 1 to 120. *)
Lemma validateAge_numeric (s : jsstring) :
  spec_numeric s = true -> (validateAge s = None <-> 1 <= spec_decimalValue s <= 120).
Proof.
  intros H. rewrite validateAge_accepts_iff, (parseInt_numeric s H). split.
  - intros (_ & n & [= <-] & Hn). exact Hn.
  - intros Hn. split.
    + unfold spec_numeric in H. intros E. rewrite E in H. discriminate.
    + eexists. split; [reflexivity|exact Hn].
Qed.

(** Whenever the code rejects, one of the specification's three reasons
    holds. *)
Lemma validateAge_rejects_only_for_reason (s : jsstring) :
  validateAge s <> None ->
  trim s = [] \/ spec_numeric s = false \/
  exists ageNum, parseInt (trim s) = Some ageNum /\ (ageNum < 1 \/ 120 < ageNum).
Proof.
  intros H. destruct (decide (trim s = [])) as [E|E]; [left; exact E|]. right.
  destruct (spec_numeric s) eqn:Hnum; [|left; reflexivity]. right.
  exists (spec_decimalValue s). split; [apply parseInt_numeric, Hnum|].
  destruct (Z.le_gt_cases 1 (spec_decimalValue s)), (Z.le_gt_cases (spec_decimalValue s) 120);
    try lia.
  exfalso. apply H. apply validateAge_numeric; [exact Hnum|lia].
Qed.

(** C1: the code accepts a string that is not numeric. parseInt reads the
    leading digits and ignores what follows them, so the ages 12abc and
    12-3 (typed on a numeric keypad) pass validation although the message of
    that branch is "Age must be a number". *)
Theorem validateAge_accepts_non_numeric :
  spec_numeric (js "12abc") = false /\
  parseInt (trim (js "12abc")) = Some 12 /\
  validateAge (js "12abc") = None /\
  spec_numeric (js "12-3") = false /\
  validateAge (js "12-3") = None.
Proof. vm_compute. repeat split. Qed.

Example validateAge_abc : validateAge (js "abc") = Some (js "Age must be a number").
Proof. vm_compute. reflexivity. Qed.

Example validateAge_blank : validateAge (js "   ") = Some (js "Age is required").
Proof. vm_compute. reflexivity. Qed.

Example validateAge_hex : validateAge (js "0x10") = None.
Proof. vm_compute. reflexivity. Qed.

Example validateAge_fraction : validateAge (js "1.5") = None.
Proof. vm_compute. reflexivity. Qed.

(** ** The in-app notification feed *)

Lemma pushFeed_length n prev : (length (pushFeed n prev) <= 5)%nat.
Proof. unfold pushFeed. simpl. rewrite length_take. lia. Qed.

Lemma removeFeed_length id prev :
  (length (removeFeed id prev) <= length prev)%nat.
Proof. apply length_filter. Qed.

Lemma feedStep_bounded prev ev :
  (length prev <= 5)%nat -> (length (feedStep prev ev) <= 5)%nat.
Proof.
  intros H. destruct ev as [n|i|i]; unfold feedStep.
  - apply pushFeed_length.
  - pose proof (removeFeed_length i prev). lia.
  - pose proof (removeFeed_length i prev). lia.
Qed.

Lemma feedAfter_snoc es ev : feedAfter (es ++ [ev]) = feedStep (feedAfter es) ev.
Proof. unfold feedAfter. rewrite fold_left_app. reflexivity. Qed.

Lemma feedAfter_bounded es : (length (feedAfter es) <= 5)%nat.
Proof.
  induction es as [|ev es IH] using rev_ind.
  - simpl. lia.
  - rewrite feedAfter_snoc. apply feedStep_bounded, IH.
Qed.

(** C2: after any sequence of pushes, dismissals and timer expiries the
    feed holds at most 5 entries; a push puts the new entry first, keeps the
    4 most recent of the old ones in their order and drops what is behind
    them, which is at most one entry, the oldest. *)
Theorem feed_never_exceeds_5 (es : list FeedEvent) :
  (length (feedAfter es) <= 5)%nat /\
  forall n : Notif.t,
    feedAfter (es ++ [Push n]) = n :: take 4 (feedAfter es) /\
    feedAfter es = take 4 (feedAfter es) ++ drop 4 (feedAfter es) /\
    (length (drop 4 (feedAfter es)) <= 1)%nat /\
    (length (feedAfter (es ++ [Push n])) <= 5)%nat.
Proof.
  pose proof (feedAfter_bounded es) as Hb.
  split; [exact Hb|]. intros n.
  split; [apply feedAfter_snoc|].
  split; [symmetry; apply take_drop|].
  split; [rewrite length_drop; lia|].
  apply feedAfter_bounded.
Qed.

Lemma removeFeed_maximal id prev l :
  l `sublist_of` prev ->
  Forall (fun n => Notif.id n <> id) l ->
  l `sublist_of` removeFeed id prev.
Proof.
  unfold removeFeed. intros Hsub. induction Hsub as [|x l1 l2 _ IH|x l1 l2 _ IH]; intros HF.
  - constructor.
  - apply Forall_cons in HF as [Hx HF].
    rewrite filter_cons_True by exact Hx. apply sublist_skip, IH, HF.
  - rewrite filter_cons. destruct (decide (Notif.id x <> id)).
    + apply sublist_cons, IH, HF.
    + apply IH, HF.
Qed.

Lemma removeFeed_absent id prev :
  (forall n, n ∈ prev -> Notif.id n <> id) -> removeFeed id prev = prev.
Proof.
  unfold removeFeed. induction prev as [|x prev IH]; intros H; [reflexivity|].
  rewrite filter_cons_True by (apply H; left).
  f_equal. apply IH. intros n Hn. apply H. right. exact Hn.
Qed.

(** The updater of a dismissal keeps a sublist of the feed (so the order
    of what stays is unchanged), namely the entries whose identifier is not
    [id], all of them: every sublist of the feed free of [id] is a sublist of
    the result. When no entry carries [id] nothing changes, and removing
    twice is removing once. *)
Lemma removeFeed_spec (id : jsstring) (prev : list Notif.t) :
  removeFeed id prev `sublist_of` prev /\
  (forall n, n ∈ removeFeed id prev <-> n ∈ prev /\ Notif.id n <> id) /\
  (forall l, l `sublist_of` prev -> Forall (fun n => Notif.id n <> id) l ->
             l `sublist_of` removeFeed id prev) /\
  ((forall n, n ∈ prev -> Notif.id n <> id) -> removeFeed id prev = prev) /\
  removeFeed id (removeFeed id prev) = removeFeed id prev.
Proof.
  split; [apply sublist_filter|].
  split; [intros n; unfold removeFeed; rewrite list_elem_of_filter; tauto|].
  split; [apply removeFeed_maximal|].
  split; [apply removeFeed_absent|].
  apply removeFeed_absent. intros n Hn.
  unfold removeFeed in Hn. apply list_elem_of_filter in Hn. tauto.
Qed.

Example removeFeed_keeps_order :
  removeFeed (js "b")
    [Notif.mk (js "a") (js "one") info 1; Notif.mk (js "b") (js "two") warning 2;
     Notif.mk (js "c") (js "three") success 3; Notif.mk (js "b") (js "four") info 4]
  = [Notif.mk (js "a") (js "one") info 1; Notif.mk (js "c") (js "three") success 3].
Proof. vm_compute. reflexivity. Qed.

(** ** Running the notification service *)

Lemma extend_extend w a b : extend (extend w a) b = extend w (a ++ b).
Proof. unfold extend. simpl. rewrite <- app_assoc. reflexivity. Qed.

Lemma log_extend ev w : log ev w = extend w [ev].
Proof. reflexivity. Qed.

Lemma extend_nil w : extend w [] = w.
Proof. destruct w. unfold extend. simpl. rewrite app_nil_r. reflexivity. Qed.

Lemma bind_ok {A B} (c : M A) (k : A -> M B) e w a w1 :
  c e w = (Ok a, w1) -> bind c k e w = k a e w1.
Proof. unfold bind. intros ->. reflexivity. Qed.

Lemma bind_throw {A B} (c : M A) (k : A -> M B) e w err w1 :
  c e w = (Throw err, w1) -> bind c k e w = (Throw err, w1).
Proof. unfold bind. intros ->. reflexivity. Qed.

(** An external call inside a try/catch whose catch reads [error.message]. *)
Lemma guarded_external ev e w :
  tryCatch (external ev) logMessage e w = (caught e ev (length (trace w)), extend w [ev]).
Proof.
  unfold tryCatch, external, caught, logMessage.
  destruct (throws e ev (length (trace w))) as [[|m]|]; reflexivity.
Qed.

Lemma caught_ok P e ev n : neverNullish P e -> P ev = true -> caught e ev n = Ok tt.
Proof.
  intros H Hev. unfold caught. specialize (H ev n Hev).
  destruct (throws e ev n) as [[|m]|]; congruence.
Qed.

Lemma guarded_ok P ev e w :
  neverNullish P e -> P ev = true ->
  tryCatch (external ev) logMessage e w = (Ok tt, extend w [ev]).
Proof. intros H Hev. rewrite guarded_external, (caught_ok P) by assumption. reflexivity. Qed.

Lemma tame_fallbackTame e : tame e -> fallbackTame e.
Proof.
  intros H ev n Hev. apply H. destruct ev; try discriminate; reflexivity.
Qed.

Lemma showFallbackNotification_run title message e w :
  fallbackTame e ->
  showFallbackNotification title message e w =
    (Ok tt, extend w (fallbackTrace e title message)).
Proof.
  intros H. unfold showFallbackNotification, fallbackTrace.
  erewrite bind_ok by reflexivity. erewrite bind_ok by reflexivity.
  rewrite log_extend. destruct (android e); simpl.
  - erewrite bind_ok by (apply (guarded_ok isFallbackCall); [exact H|reflexivity]).
    rewrite (guarded_ok isFallbackCall), !extend_extend by (exact H || reflexivity).
    reflexivity.
  - erewrite bind_ok by reflexivity.
    rewrite (guarded_ok isFallbackCall), !extend_extend by (exact H || reflexivity).
    reflexivity.
Qed.

Lemma length_extend w tr : length (trace (extend w tr)) = (length (trace w) + length tr)%nat.
Proof. unfold extend. simpl. apply length_app. Qed.

Lemma showSystemNotification_run title message type e w :
  tame e ->
  showSystemNotification title message type e w =
    (Ok tt, extend w (systemTrace e (service w) (length (trace w)) title message type)).
Proof.
  intros H. pose proof (tame_fallbackTame e H) as Hf.
  unfold showSystemNotification, systemTrace.
  erewrite bind_ok by reflexivity. erewrite bind_ok by reflexivity.
  rewrite log_extend.
  change (service (extend w [Enter (showSystemNotification_ title message type)]))
    with (service w).
  destruct (permissionsGranted (service w)); cbv [negb].
  - unfold tryCatch at 1.
    erewrite bind_ok by reflexivity.
    destruct (android e); cbv [when].
    + erewrite bind_ok by (apply (guarded_ok readsMessage); [exact H|reflexivity]).
      rewrite extend_extend. unfold external at 1.
      rewrite length_extend. cbn [Datatypes.length Datatypes.app].
      replace (length (trace w) + 2)%nat with (S (length (trace w)) + 1)%nat by lia.
      destruct (throws e _ _).
      * rewrite log_extend. unfold logError. erewrite bind_ok by reflexivity.
        rewrite showFallbackNotification_run, !extend_extend by exact Hf. reflexivity.
      * rewrite log_extend, !extend_extend. reflexivity.
    + erewrite bind_ok by reflexivity. unfold external at 1.
      rewrite length_extend. cbn [Datatypes.length Datatypes.app].
      replace (length (trace w) + 1)%nat with (S (length (trace w)) + 0)%nat by lia.
      destruct (throws e _ _).
      * rewrite log_extend. unfold logError. erewrite bind_ok by reflexivity.
        rewrite showFallbackNotification_run, !extend_extend by exact Hf. reflexivity.
      * rewrite log_extend, !extend_extend. reflexivity.
  - rewrite showFallbackNotification_run, extend_extend by exact Hf. reflexivity.
Qed.

Lemma sendPushNotification_run action userData e w :
  tame e ->
  sendPushNotification action userData e w =
    (Ok tt, extend w (pushTrace e (service w) action userData)).
Proof.
  intros H. unfold sendPushNotification, pushTrace.
  erewrite bind_ok by reflexivity. erewrite bind_ok by reflexivity.
  erewrite bind_ok by reflexivity. rewrite log_extend.
  change (service (extend w [Enter (sendPushNotification_ action userData)]))
    with (service w).
  destruct (functions e), (messagingAvailable (service w)); cbv [negb orb andb];
    try (rewrite (guarded_ok readsMessage), extend_extend by (exact H || reflexivity));
    reflexivity.
Qed.

Lemma sendEmailNotification_run action userData e w :
  tame e ->
  sendEmailNotification action userData e w =
    (Ok tt, extend w (emailTrace e action userData)).
Proof.
  intros H. unfold sendEmailNotification, emailTrace.
  erewrite bind_ok by reflexivity. erewrite bind_ok by reflexivity.
  rewrite log_extend.
  destruct (functions e); cbv [negb];
    try (rewrite (guarded_ok readsMessage), extend_extend by (exact H || reflexivity));
    reflexivity.
Qed.

Lemma notifyCRUDOperation_run operation userData isLocalAction e w :
  tame e ->
  notifyCRUDOperation operation userData isLocalAction e w =
    (Ok tt, extend w (notifyTrace e (service w) (length (trace w))
                        operation userData isLocalAction)).
Proof.
  intros H. unfold notifyCRUDOperation, notifyTrace.
  erewrite bind_ok by reflexivity. rewrite log_extend.
  erewrite bind_ok by (apply showSystemNotification_run; exact H).
  erewrite bind_ok by reflexivity.
  rewrite extend_extend, length_extend.
  change (service (extend w [Enter (notifyCRUDOperation_ operation userData isLocalAction)]))
    with (service w).
  cbn [Datatypes.length].
  replace (length (trace w) + 1)%nat with (S (length (trace w))) by lia.
  match goal with |- context [service (extend w ?t)] =>
    change (service (extend w t)) with (service w) end.
  destruct (negb isLocalAction && messagingAvailable (service w)); cbv [when].
  - erewrite bind_ok by (apply sendPushNotification_run; exact H).
    rewrite sendEmailNotification_run, !extend_extend by exact H.
    match goal with |- context [service (extend w ?t)] =>
      change (service (extend w t)) with (service w) end.
    rewrite <- !app_assoc. reflexivity.
  - unfold ret. rewrite app_nil_r. reflexivity.
Qed.

(** ** The service in any environment

    Whatever is thrown, a method of the service only adds events to the
    trace. *)

Section Appends.

Variable Q : Event -> bool.

Lemma appends_ret {A} (a : A) : appends Q (ret a).
Proof. intros e w. exists (Ok a), []. rewrite extend_nil. split; reflexivity. Qed.

Lemma appends_raise {A} err : appends Q (@raise A err).
Proof. intros e w. exists (Throw err), []. rewrite extend_nil. split; reflexivity. Qed.

Lemma appends_bind {A B} (c : M A) (k : A -> M B) :
  appends Q c -> (forall a, appends Q (k a)) -> appends Q (bind c k).
Proof.
  intros Hc Hk e w. destruct (Hc e w) as (r1 & t1 & E1 & Q1). unfold bind. rewrite E1.
  destruct r1 as [a|err].
  - destruct (Hk a e (extend w t1)) as (r2 & t2 & E2 & Q2).
    exists r2, (t1 ++ t2). rewrite E2, extend_extend, forallb_app, Q1, Q2. split; reflexivity.
  - exists (Throw err), t1. split; [reflexivity|exact Q1].
Qed.

Lemma appends_tryCatch {A} (body : M A) handler :
  appends Q body -> (forall err, appends Q (handler err)) -> appends Q (tryCatch body handler).
Proof.
  intros Hb Hh e w. destruct (Hb e w) as (r1 & t1 & E1 & Q1). unfold tryCatch. rewrite E1.
  destruct r1 as [a|err].
  - exists (Ok a), t1. split; [reflexivity|exact Q1].
  - destruct (Hh err e (extend w t1)) as (r2 & t2 & E2 & Q2).
    exists r2, (t1 ++ t2). rewrite E2, extend_extend, forallb_app, Q1, Q2. split; reflexivity.
Qed.

Lemma appends_when b (c : M unit) : appends Q c -> appends Q (when b c).
Proof. intros Hc. destruct b; [exact Hc|apply appends_ret]. Qed.

Lemma appends_emit ev : Q ev = true -> appends Q (emit ev).
Proof.
  intros H e w. exists (Ok tt), [ev]. cbn [forallb]. rewrite H. split; reflexivity.
Qed.

Lemma appends_external ev : Q ev = true -> appends Q (external ev).
Proof.
  intros H e w. unfold external.
  destruct (throws e ev (length (trace w))) as [err|];
    [exists (Throw err), [ev]|exists (Ok tt), [ev]];
    cbn [forallb]; rewrite H; split; reflexivity.
Qed.

Lemma appends_env {A} (f : Env -> A) : appends Q (env f).
Proof. intros e w. exists (Ok (f e)), []. rewrite extend_nil. split; reflexivity. Qed.

Lemma appends_this {A} (f : NotificationService -> A) : appends Q (this f).
Proof.
  intros e w. exists (Ok (f (service w))), []. rewrite extend_nil. split; reflexivity.
Qed.

Lemma appends_logMessage err : appends Q (logMessage err).
Proof. destruct err; [apply appends_raise|apply appends_ret]. Qed.

Lemma appends_logError err : appends Q (logError err).
Proof. apply appends_ret. Qed.

End Appends.

Ltac appends_only :=
  repeat first
    [ apply appends_ret
    | apply appends_logMessage
    | apply appends_logError
    | apply appends_env
    | apply appends_this
    | apply appends_bind; [|intros ?]
    | apply appends_tryCatch; [|intros ?]
    | apply appends_when
    | apply appends_emit; reflexivity
    | apply appends_external; reflexivity
    | match goal with
      | |- appends _ (if ?b then _ else _) => destruct b
      end ].

Lemma appends_showFallbackNotification title message :
  appends isNotificationEvent (showFallbackNotification title message).
Proof. unfold showFallbackNotification. appends_only. Qed.

Lemma appends_notifyCRUDOperation operation userData isLocalAction :
  appends isNotificationEvent (notifyCRUDOperation operation userData isLocalAction).
Proof.
  unfold notifyCRUDOperation, showSystemNotification, sendPushNotification,
    sendEmailNotification.
  appends_only; apply appends_showFallbackNotification.
Qed.

Lemma notifyTrace_entries e svc n operation userData isLocalAction :
  List.filter isEnterSystem (notifyTrace e svc n operation userData isLocalAction) =
    [Enter (showSystemNotification_ (systemTitle operation)
              (systemMessage operation userData) success)] /\
  List.filter isEnterPush (notifyTrace e svc n operation userData isLocalAction) =
    (if negb isLocalAction && messagingAvailable svc
     then [Enter (sendPushNotification_ operation userData)] else []) /\
  List.filter isEnterEmail (notifyTrace e svc n operation userData isLocalAction) =
    (if negb isLocalAction && messagingAvailable svc
     then [Enter (sendEmailNotification_ operation userData)] else []).
Proof.
  unfold notifyTrace, systemTrace, pushTrace, emailTrace, fallbackTrace.
  destruct isLocalAction, (messagingAvailable svc),
    (permissionsGranted svc), (android e), (functions e);
    cbn [negb andb Datatypes.app]; repeat case_match; repeat split.
Qed.

Lemma filter_disjoint (f g : Event -> bool) (tr : list Event) :
  (forall ev, g ev = true -> f ev = false) ->
  forallb g tr = true -> List.filter f tr = [].
Proof.
  intros Hfg. induction tr as [|ev tr IH]; [reflexivity|].
  cbn [forallb List.filter]. intros [Hev Htr]%andb_true_iff.
  rewrite (Hfg ev Hev). apply IH, Htr.
Qed.

Lemma extend_inj w a b : extend w a = extend w b -> a = b.
Proof. unfold extend. intros [= H]. exact (app_inv_head _ _ _ H). Qed.

Lemma sendPushNotification_any action userData e w :
  sendPushNotification action userData e w =
    (pushResult e (service w) (length (trace w)) action userData,
     extend w (pushTrace e (service w) action userData)).
Proof.
  unfold sendPushNotification, pushTrace, pushResult.
  erewrite bind_ok by reflexivity. erewrite bind_ok by reflexivity.
  erewrite bind_ok by reflexivity. rewrite log_extend.
  change (service (extend w [Enter (sendPushNotification_ action userData)]))
    with (service w).
  destruct (functions e), (messagingAvailable (service w)); cbv [negb orb andb];
    try reflexivity.
  rewrite guarded_external, extend_extend, length_extend. cbn [Datatypes.length].
  replace (length (trace w) + 1)%nat with (S (length (trace w))) by lia. reflexivity.
Qed.

Lemma sendEmailNotification_any action userData e w :
  sendEmailNotification action userData e w =
    (emailResult e (length (trace w)) action userData,
     extend w (emailTrace e action userData)).
Proof.
  unfold sendEmailNotification, emailTrace, emailResult.
  erewrite bind_ok by reflexivity. erewrite bind_ok by reflexivity.
  rewrite log_extend.
  destruct (functions e); cbv [negb]; try reflexivity.
  rewrite guarded_external, extend_extend, length_extend. cbn [Datatypes.length].
  replace (length (trace w) + 1)%nat with (S (length (trace w))) by lia. reflexivity.
Qed.

Lemma showFallbackNotification_any title message e w :
  showFallbackNotification title message e w =
    (fallbackResult e (length (trace w)) title message,
     extend w (Enter (showFallbackNotification_ title message)
                 :: fallbackCalls e (length (trace w)) title message)).
Proof.
  unfold showFallbackNotification, fallbackCalls, fallbackResult.
  erewrite bind_ok by reflexivity. erewrite bind_ok by reflexivity.
  rewrite log_extend. destruct (android e); cbv [when].
  - unfold bind at 1. rewrite guarded_external, length_extend. cbn [Datatypes.length].
    replace (length (trace w) + 1)%nat with (S (length (trace w))) by lia.
    destruct (caught e (ToastShow _) _) as [[]|err]; rewrite extend_extend; [|reflexivity].
    rewrite guarded_external, length_extend, extend_extend.
    cbn [Datatypes.length Datatypes.app].
    replace (length (trace w) + 2)%nat with (S (S (length (trace w)))) by lia.
    reflexivity.
  - erewrite bind_ok by reflexivity.
    rewrite guarded_external, length_extend, extend_extend. cbn [Datatypes.length].
    replace (length (trace w) + 1)%nat with (S (length (trace w))) by lia.
    reflexivity.
Qed.

Lemma fallback_tame e n title message :
  fallbackTame e ->
  fallbackResult e n title message = Ok tt /\
  Enter (showFallbackNotification_ title message) :: fallbackCalls e n title message
    = fallbackTrace e title message.
Proof.
  intros H. unfold fallbackResult, fallbackCalls, fallbackTrace.
  rewrite !(caught_ok isFallbackCall) by (exact H || reflexivity).
  destruct (android e); split; reflexivity.
Qed.

Lemma fallbackCalls_kind e n title message :
  forallb isFallbackCall (fallbackCalls e n title message) = true.
Proof.
  unfold fallbackCalls. destruct (android e); [|reflexivity].
  destruct (caught e _ _); reflexivity.
Qed.

Lemma appends_gateway_fallback title message :
  appends isGatewayEvent (showFallbackNotification title message).
Proof. unfold showFallbackNotification. appends_only. Qed.

Lemma showSystemNotification_any title message type e w :
  exists r tr,
    showSystemNotification title message type e w =
      (r, extend w (Enter (showSystemNotification_ title message type) :: tr)) /\
    forallb isGatewayEvent tr = true.
Proof.
  unfold showSystemNotification. erewrite bind_ok by reflexivity. rewrite log_extend.
  match goal with |- context [bind ?c ?k _ (extend w ?t)] =>
    assert (appends isGatewayEvent (bind c k)) as H end.
  { appends_only; apply appends_gateway_fallback. }
  destruct (H e (extend w [Enter (showSystemNotification_ title message type)]))
    as (r & tr & E & Hq).
  exists r, tr. rewrite E, extend_extend. split; [reflexivity|exact Hq].
Qed.

Lemma notifyCRUDOperation_enters operation userData isLocalAction e w :
  exists r tr,
    notifyCRUDOperation operation userData isLocalAction e w =
      (r, extend w (Enter (notifyCRUDOperation_ operation userData isLocalAction) :: tr)) /\
    forallb isServiceEvent tr = true.
Proof.
  unfold notifyCRUDOperation. erewrite bind_ok by reflexivity. rewrite log_extend.
  match goal with |- context [bind ?c ?k _ (extend w ?t)] =>
    assert (appends isServiceEvent (bind c k)) as H end.
  { assert (forall title message,
              appends isServiceEvent (showFallbackNotification title message)) as Hf.
    { intros. unfold showFallbackNotification. appends_only. }
    unfold showSystemNotification, sendPushNotification, sendEmailNotification.
    appends_only; apply Hf. }
  destruct (H e (extend w [Enter (notifyCRUDOperation_ operation userData isLocalAction)]))
    as (r & tr & E & Hq).
  exists r, tr. rewrite E, extend_extend. split; [reflexivity|exact Hq].
Qed.

(** The shape of every run of notifyCRUDOperation: its entry, the entry of
    the system notification and what that does; then, only when isLocalAction
    is false and messagingAvailable is true, and only if the system
    notification returned, the push dispatcher; then, only if that returned,
    the email dispatcher. *)
Lemma notifyCRUDOperation_any operation userData isLocalAction e w :
  exists r t1 rest,
    notifyCRUDOperation operation userData isLocalAction e w =
      (r, extend w
            (Enter (notifyCRUDOperation_ operation userData isLocalAction)
               :: Enter (showSystemNotification_ (systemTitle operation)
                           (systemMessage operation userData) success)
               :: t1 ++ rest)) /\
    forallb isGatewayEvent t1 = true /\
    (rest = [] \/
     negb isLocalAction && messagingAvailable (service w) = true /\
     (rest = pushTrace e (service w) operation userData \/
      rest = pushTrace e (service w) operation userData
               ++ emailTrace e operation userData)) /\
    (r = Ok tt ->
     rest = if negb isLocalAction && messagingAvailable (service w)
            then pushTrace e (service w) operation userData
                   ++ emailTrace e operation userData
            else []).
Proof.
  unfold notifyCRUDOperation. erewrite bind_ok by reflexivity. rewrite log_extend.
  destruct (showSystemNotification_any (systemTitle operation)
              (systemMessage operation userData) success e
              (extend w [Enter (notifyCRUDOperation_ operation userData isLocalAction)]))
    as (r1 & t1 & E1 & Q1).
  rewrite extend_extend in E1. cbn [Datatypes.app] in E1.
  destruct r1 as [[]|err].
  - erewrite bind_ok by exact E1. erewrite bind_ok by reflexivity.
    match goal with |- context [service (extend w ?t)] =>
      change (service (extend w t)) with (service w) end.
    destruct (negb isLocalAction && messagingAvailable (service w)) eqn:C; cbv [when].
    + rewrite ?bind_assoc.
      match goal with |- context [bind _ _ e ?w1] =>
        pose proof (sendPushNotification_any operation userData e w1) as E2 end.
      match type of E2 with context [service (extend w ?t)] =>
        change (service (extend w t)) with (service w) in E2 end.
      destruct (pushResult _ _ _ _ _) as [[]|err2].
      * erewrite bind_ok by exact E2.
        rewrite sendEmailNotification_any, !extend_extend. cbn [Datatypes.app].
        eexists _, t1, _. split; [rewrite <- !app_assoc; reflexivity|].
        split; [exact Q1|].
        split; [right; split; [reflexivity|]; right; reflexivity|].
        intros _. reflexivity.
      * erewrite bind_throw by exact E2. rewrite !extend_extend. cbn [Datatypes.app].
        eexists _, t1, _. split; [reflexivity|].
        split; [exact Q1|].
        split; [right; split; [reflexivity|]; left; reflexivity|].
        intros [=].
    + exists (Ok tt), t1, []. rewrite app_nil_r.
      split; [reflexivity|]. split; [exact Q1|]. split; [left; reflexivity|].
      intros _. reflexivity.
  - erewrite bind_throw by exact E1.
    exists (Throw err), t1, []. rewrite app_nil_r.
    split; [reflexivity|]. split; [exact Q1|]. split; [left; reflexivity|].
    intros [=].
Qed.

Lemma gateway_no_entries t1 :
  forallb isGatewayEvent t1 = true ->
  List.filter isEnterSystem t1 = [] /\ List.filter isEnterPush t1 = [] /\
  List.filter isEnterEmail t1 = [] /\ List.filter isCallable t1 = [].
Proof.
  intros H. repeat split; apply (filter_disjoint _ isGatewayEvent); try exact H.
  all: intros [| | | | | | | | |[]| |]; try reflexivity; discriminate.
Qed.

Lemma notifyCRUDOperation_dispatch_any operation userData isLocalAction e w :
  exists r tr,
    notifyCRUDOperation operation userData isLocalAction e w =
      (r, extend w (Enter (notifyCRUDOperation_ operation userData isLocalAction) :: tr)) /\
    List.filter isEnterSystem tr =
      [Enter (showSystemNotification_ (systemTitle operation)
                (systemMessage operation userData) success)].
Proof.
  destruct (notifyCRUDOperation_any operation userData isLocalAction e w)
    as (r & t1 & rest & E & Q1 & Hrest & Hok).
  eexists r, _. split; [exact E|].
  destruct (gateway_no_entries t1 Q1) as (G1 & _).
  cbn [List.filter isEnterSystem]. rewrite List.filter_app, G1.
  destruct Hrest as [->|[_ [->| ->]]]; unfold pushTrace, emailTrace;
    destruct (functions e), (messagingAvailable (service w)); reflexivity.
Qed.


(** An environment that throws nothing has nothing to catch. *)
Example quietEnv_tame : tame quietEnv.
Proof. intros ev n _. discriminate. Qed.

(** Nor has one in which every call fails with an Error. *)
Example everythingFailsEnv_tame : tame everythingFailsEnv.
Proof. intros ev n _. discriminate. Qed.

(** The one way out of the service: without the permission the fallback
    is entered at once, its toast throws null, the catch block's read of
    error.message throws, and notifyCRUDOperation throws before it reaches
    the dispatchers. *)
Example notifyCRUDOperation_null_toast :
  let '(r, w') := notifyCRUDOperation CREATE (PUser grace) false nullToastEnv
                    (startWorld adaForm (mkService true false true)) in
  r = Throw TypeError /\
  trace w' =
    [Enter (notifyCRUDOperation_ CREATE (PUser grace) false);
     Enter (showSystemNotification_ (systemTitle CREATE)
              (systemMessage CREATE (PUser grace)) success);
     Enter (showFallbackNotification_ (systemTitle CREATE)
              (systemMessage CREATE (PUser grace)));
     ToastShow (systemTitle CREATE ++ js ": " ++ systemMessage CREATE (PUser grace))].
Proof. vm_compute. split; reflexivity. Qed.

(** The remote calls themselves also need the functions module. *)
Lemma notifyCRUDOperation_remote_calls operation userData isLocalAction e w :
  List.filter (fun ev => match ev with HttpsCallable _ _ _ => true | _ => false end)
    (notifyTrace e (service w) (length (trace w)) operation userData isLocalAction) =
  if negb isLocalAction && messagingAvailable (service w) && functions e
  then [HttpsCallable (js "sendNotificationToAllUsers") operation userData;
        HttpsCallable (js "sendEmailNotification") operation userData]
  else [].
Proof.
  unfold notifyTrace, systemTrace, pushTrace, emailTrace, fallbackTrace.
  destruct isLocalAction, (messagingAvailable (service w)),
    (permissionsGranted (service w)), (android e), (functions e);
    cbn [negb andb Datatypes.app]; repeat case_match; reflexivity.
Qed.

(** What notifyCRUDOperation adds to the trace is made of notification
    events only: no store call, no update of the user list, no banner. *)
Lemma notifyTrace_only_notifications e svc n operation userData isLocalAction :
  forallb isNotificationEvent (notifyTrace e svc n operation userData isLocalAction) = true.
Proof.
  unfold notifyTrace, systemTrace, pushTrace, emailTrace, fallbackTrace.
  destruct isLocalAction, (messagingAvailable svc),
    (permissionsGranted svc), (android e), (functions e);
    cbn [negb andb Datatypes.app]; repeat case_match; reflexivity.
Qed.

(** ** Running the handlers *)

Lemma tryCatch_ok {A} (body : M A) handler e w a w1 :
  body e w = (Ok a, w1) -> tryCatch body handler e w = (Ok a, w1).
Proof. unfold tryCatch. intros ->. reflexivity. Qed.

Lemma tryCatch_throw {A} (body : M A) handler e w err w1 :
  body e w = (Throw err, w1) -> tryCatch body handler e w = handler err e w1.
Proof. unfold tryCatch. intros ->. reflexivity. Qed.

Lemma tryFinally_ok {A} (body : M A) fin e w r w1 w2 :
  body e w = (r, w1) -> fin e w1 = (Ok tt, w2) -> tryFinally body fin e w = (r, w2).
Proof. unfold tryFinally. intros -> ->. reflexivity. Qed.

Lemma external_ok ev e w :
  throws e ev (length (trace w)) = None -> external ev e w = (Ok tt, extend w [ev]).
Proof. unfold external. intros ->. reflexivity. Qed.

Lemma external_throw ev e w err :
  throws e ev (length (trace w)) = Some err -> external ev e w = (Throw err, extend w [ev]).
Proof. unfold external. intros ->. reflexivity. Qed.

Lemma addInAppNotification_run message type e w :
  addInAppNotification message type e w =
    (Ok tt,
     mkWorld
       (withInAppNotifications
          (pushFeed (bannerOf e (length (trace w)) message type)
             (inAppNotifications (app w))) (app w))
       (service w)
       (trace w ++ [Enter (addInAppNotification_ message type);
                    SetTimeout (uniqueId e (S (length (trace w)))) 5000])).
Proof.
  unfold addInAppNotification, bannerOf, bind, emit, ask, setInAppNotifications, modify, log.
  cbn [trace app service]. rewrite length_app. cbn [Datatypes.length].
  replace (length (trace w) + 1)%nat with (S (length (trace w))) by lia.
  rewrite <- app_assoc. reflexivity.
Qed.

Lemma validateForm_run cl e w :
  validateForm cl e w =
    (Ok (noKeys (formErrors (name cl) (email cl) (age cl))),
     mkWorld (withErrors (formErrors (name cl) (email cl) (age cl)) (app w))
       (service w) (trace w)).
Proof. reflexivity. Qed.

Lemma valid_noKeys (s : AppState) :
  validateName (name s) = None -> validateEmail (email s) = None ->
  validateAge (age s) = None ->
  noKeys (formErrors (name s) (email s) (age s)) = true.
Proof. intros. apply noKeys_formErrors_iff. auto. Qed.

Lemma bind_assoc {A B C} (c : M A) (k : A -> M B) (k' : B -> M C) e w :
  bind (bind c k) k' e w = bind c (fun a => bind (k a) k') e w.
Proof. unfold bind. destruct (c e w) as [[a|err] w1]; reflexivity. Qed.

Lemma notifyTrace_no_setUsers e svc n operation userData isLocalAction :
  List.filter isSetUsers (notifyTrace e svc n operation userData isLocalAction) = [].
Proof.
  apply (filter_disjoint _ isNotificationEvent), notifyTrace_only_notifications.
  intros [] H; try reflexivity; discriminate.
Qed.

Lemma notifyTrace_no_storeCall e svc n operation userData isLocalAction :
  List.filter isStoreCall (notifyTrace e svc n operation userData isLocalAction) = [].
Proof.
  apply (filter_disjoint _ isNotificationEvent), notifyTrace_only_notifications.
  intros [] H; try reflexivity; discriminate.
Qed.

Lemma notifyTrace_no_banner e svc n operation userData isLocalAction :
  List.filter isBanner (notifyTrace e svc n operation userData isLocalAction) = [].
Proof.
  apply (filter_disjoint _ isNotificationEvent), notifyTrace_only_notifications.
  intros [| | | | | | | | |m| |] H; try reflexivity; try discriminate.
  destruct m; try reflexivity; discriminate.
Qed.

Lemma banner_in_trace (tr : list Event) :
  (exists message type, Enter (addInAppNotification_ message type) ∈ tr) <->
  List.filter isBanner tr <> [].
Proof.
  induction tr as [|ev tr IH].
  - split; [intros (m & t & H); inversion H|intros H; contradiction].
  - cbn [List.filter]. destruct (isBanner ev) eqn:Hev.
    + split; [discriminate|]. intros _.
      destruct ev as [| | | | | | | | |[]| |]; try discriminate.
      eexists _, _. left.
    + rewrite <- IH. split; intros (m & t & H).
      * apply elem_of_cons in H as [Heq|H]; [subst ev; discriminate|]. eauto.
      * exists m, t. right. exact H.
Qed.

Lemma tryCatch_bind_ok {A B} (c : M A) (k : A -> M B) handler e w a w1 :
  c e w = (Ok a, w1) -> tryCatch (bind c k) handler e w = tryCatch (k a) handler e w1.
Proof. unfold tryCatch, bind. intros ->. reflexivity. Qed.

(** *** The listener at an await *)

Lemma last_cons {A} (x : A) (l : list A) (d : A) : List.last (x :: l) d = List.last l x.
Proof.
  revert x d. induction l as [|y l IH]; intros x d; [reflexivity|].
  change (List.last (x :: y :: l) d) with (List.last (y :: l) d).
  rewrite !IH. reflexivity.
Qed.

Lemma fold_onSnapshot (l : list (list User.t)) (w : World) :
  fold_left onSnapshot l w =
    mkWorld (withUsers (List.last l (users (app w))) (app w)) (service w)
      (trace w ++ map Snapshot l).
Proof.
  revert w. induction l as [|us l IH]; intros w.
  - destruct w as [[] svc tr]. cbn. rewrite app_nil_r. reflexivity.
  - cbn [fold_left]. rewrite IH, last_cons. unfold onSnapshot.
    cbn [app service trace users withUsers map].
    rewrite <- app_assoc. reflexivity.
Qed.

Lemma deliver_remote e n w :
  db (app w) = true ->
  deliver e n w =
    mkWorld (withUsers (delivered e n (users (app w))) (app w)) (service w)
      (trace w ++ map Snapshot (snapshots e n)).
Proof. intros H. unfold deliver, delivered. rewrite H. apply fold_onSnapshot. Qed.

Lemma deliver_local e n w : db (app w) = false -> deliver e n w = w.
Proof. intros H. unfold deliver. rewrite H. reflexivity. Qed.

Lemma deliver_trace e n w :
  exists snaps, trace (deliver e n w) = trace w ++ snaps /\
                forallb isSnapshot snaps = true.
Proof.
  unfold deliver. destruct (db (app w)).
  - rewrite fold_onSnapshot. eexists. split; [reflexivity|].
    induction (snapshots e n); [reflexivity|assumption].
  - exists []. rewrite app_nil_r. split; reflexivity.
Qed.

Lemma deliver_feed e n w :
  inAppNotifications (app (deliver e n w)) = inAppNotifications (app w).
Proof. unfold deliver. destruct (db (app w)); [rewrite fold_onSnapshot|]; reflexivity. Qed.

Lemma awaiting_run {A} (c : M A) e w r w1 :
  c e w = (r, w1) -> awaiting c e w = (r, deliver e (length (trace w)) w1).
Proof. unfold awaiting. intros ->. reflexivity. Qed.

Lemma delivered_none e n us : snapshots e n = [] -> delivered e n us = us.
Proof. unfold delivered. intros ->. reflexivity. Qed.

(** *** What a computation emits, however it ends *)

Section EmitsOnly.

Variable Q : Event -> bool.

Lemma emitsOnly_frame {A} (c : M A) :
  (forall e w, trace (snd (c e w)) = trace w) -> emitsOnly Q c.
Proof. intros H e w. exists []. rewrite H, app_nil_r. split; reflexivity. Qed.

Lemma emitsOnly_ret {A} (a : A) : emitsOnly Q (ret a).
Proof. apply emitsOnly_frame. reflexivity. Qed.

Lemma emitsOnly_bind {A B} (c : M A) (k : A -> M B) :
  emitsOnly Q c -> (forall a, emitsOnly Q (k a)) -> emitsOnly Q (bind c k).
Proof.
  intros Hc Hk e w. destruct (Hc e w) as (tr1 & E1 & Q1). unfold bind.
  destruct (c e w) as [[a|err] w1]; cbn [snd] in *.
  - destruct (Hk a e w1) as (tr2 & E2 & Q2). exists (tr1 ++ tr2).
    rewrite E2, E1, <- app_assoc, forallb_app, Q1, Q2. split; reflexivity.
  - exists tr1. split; assumption.
Qed.

Lemma emitsOnly_tryCatch {A} (body : M A) handler :
  emitsOnly Q body -> (forall err, emitsOnly Q (handler err)) ->
  emitsOnly Q (tryCatch body handler).
Proof.
  intros Hb Hh e w. destruct (Hb e w) as (tr1 & E1 & Q1). unfold tryCatch.
  destruct (body e w) as [[a|err] w1]; cbn [snd] in *.
  - exists tr1. split; assumption.
  - destruct (Hh err e w1) as (tr2 & E2 & Q2). exists (tr1 ++ tr2).
    rewrite E2, E1, <- app_assoc, forallb_app, Q1, Q2. split; reflexivity.
Qed.

Lemma emitsOnly_tryFinally {A} (body : M A) fin :
  emitsOnly Q body -> emitsOnly Q fin -> emitsOnly Q (tryFinally body fin).
Proof.
  intros Hb Hf e w. destruct (Hb e w) as (tr1 & E1 & Q1). unfold tryFinally.
  destruct (body e w) as [r w1]; cbn [snd] in *.
  destruct (Hf e w1) as (tr2 & E2 & Q2). exists (tr1 ++ tr2).
  destruct (fin e w1) as [[[]|err] w2]; cbn [snd] in *;
    rewrite E2, E1, <- app_assoc, forallb_app, Q1, Q2; split; reflexivity.
Qed.

Lemma emitsOnly_when b (c : M unit) : emitsOnly Q c -> emitsOnly Q (when b c).
Proof. intros Hc. destruct b; [exact Hc|apply emitsOnly_ret]. Qed.

Lemma emitsOnly_emit ev : Q ev = true -> emitsOnly Q (emit ev).
Proof. intros H e w. exists [ev]. cbn. rewrite H. split; reflexivity. Qed.

Lemma emitsOnly_external ev : Q ev = true -> emitsOnly Q (external ev).
Proof.
  intros H e w. exists [ev]. unfold external.
  destruct (throws e ev (length (trace w))); cbn; rewrite H; split; reflexivity.
Qed.

Lemma emitsOnly_setUsers f : (forall us, Q (SetUsers us) = true) -> emitsOnly Q (setUsers f).
Proof. intros H e w. eexists [_]. cbn. rewrite H. split; reflexivity. Qed.

Lemma emitsOnly_logMessage err : emitsOnly Q (logMessage err).
Proof. destruct err; apply emitsOnly_frame; reflexivity. Qed.

Lemma emitsOnly_appends {A} (c : M A) : appends Q c -> emitsOnly Q c.
Proof.
  intros H e w. destruct (H e w) as (r & tr & E & Hq). exists tr. rewrite E.
  split; [reflexivity|exact Hq].
Qed.

Lemma emitsOnly_awaiting {A} (c : M A) :
  (forall l, Q (Snapshot l) = true) -> emitsOnly Q c -> emitsOnly Q (awaiting c).
Proof.
  intros Hs Hc e w. destruct (Hc e w) as (tr1 & E1 & Q1). unfold awaiting.
  destruct (c e w) as [r w1]; cbn [snd] in *.
  destruct (deliver_trace e (length (trace w)) w1) as (snaps & E2 & Q2).
  exists (tr1 ++ snaps). rewrite E2, E1, <- app_assoc, forallb_app, Q1. split; [reflexivity|].
  cbn [andb]. clear E2. induction snaps as [|ev snaps IH]; [reflexivity|].
  cbn [forallb] in *. apply andb_true_iff in Q2 as [Hev Q2].
  destruct ev; try discriminate. rewrite Hs. apply IH, Q2.
Qed.

End EmitsOnly.

Ltac emits_only :=
  repeat first
    [ apply emitsOnly_ret
    | apply emitsOnly_bind; [|intros ?]
    | apply emitsOnly_tryCatch; [|intros ?]
    | apply emitsOnly_tryFinally
    | apply emitsOnly_when
    | apply emitsOnly_emit; reflexivity
    | apply emitsOnly_external; reflexivity
    | apply emitsOnly_setUsers; reflexivity
    | apply emitsOnly_logMessage
    | apply emitsOnly_awaiting; [reflexivity|]
    | apply emitsOnly_frame; reflexivity
    | match goal with
      | |- emitsOnly _ (if ?b then _ else _) => destruct b
      | |- emitsOnly _ (match ?x with _ => _ end) => destruct x
      end ].


Ltac run_step :=
  rewrite ?bind_assoc;
  first [ erewrite bind_ok by (apply awaiting_run; apply notifyCRUDOperation_run; assumption)
        | erewrite bind_ok by apply addInAppNotification_run
        | erewrite bind_ok by (apply showFallbackNotification_run; assumption)
        | erewrite bind_ok by apply validateForm_run
        | erewrite bind_ok by reflexivity ];
  cbn [app service trace extend].

(** notifyCRUDOperation as a handler awaits it. *)
Lemma notify_awaited operation userData isLocalAction e w :
  exists r nt,
    awaiting (notifyCRUDOperation operation userData isLocalAction) e w =
      (r, deliver e (length (trace w))
            (extend w (Enter (notifyCRUDOperation_ operation userData isLocalAction) :: nt))) /\
    forallb isServiceEvent nt = true /\
    List.filter isEnterSystem nt =
      [Enter (showSystemNotification_ (systemTitle operation)
                (systemMessage operation userData) success)] /\
    (tame e ->
     r = Ok tt /\
     Enter (notifyCRUDOperation_ operation userData isLocalAction) :: nt =
       notifyTrace e (service w) (length (trace w)) operation userData isLocalAction).
Proof.
  destruct (notifyCRUDOperation_enters operation userData isLocalAction e w)
    as (r & nt & E & Q).
  exists r, nt. split; [apply awaiting_run, E|]. split; [exact Q|].
  split.
  - destruct (notifyCRUDOperation_dispatch_any operation userData isLocalAction e w)
      as (r' & tr & E' & Hsys).
    rewrite E in E'. injection E' as _ E'. apply app_inv_head in E'.
    injection E' as <-. exact Hsys.
  - intros H. pose proof (notifyCRUDOperation_run operation userData isLocalAction e w H) as R.
    rewrite E in R. injection R as -> R. apply app_inv_head in R. split; [reflexivity|exact R].
Qed.

(** *** The failure path: fallback, then a warning banner *)

Lemma tryCatch_first_throw {A B} (c : M A) (k : A -> M B) handler e w err w1 :
  c e w = (Throw err, w1) -> tryCatch (bind c k) handler e w = handler err e w1.
Proof. unfold tryCatch, bind. intros ->. reflexivity. Qed.

Lemma tryFinally_setSubmitting {A} (body : M A) e w :
  tryFinally body (setSubmitting false) e w =
    (fst (body e w),
     mkWorld (withSubmitting false (app (snd (body e w)))) (service (snd (body e w)))
       (trace (snd (body e w)))).
Proof. unfold tryFinally. destruct (body e w) as [r w1]. reflexivity. Qed.

Lemma withInAppNotifications_same s : withInAppNotifications (inAppNotifications s) s = s.
Proof. destruct s. reflexivity. Qed.

(** The fallback followed by a warning banner, in any environment: the
    banner is pushed exactly when the fallback returns. *)
Lemma failure_shown title message banner e w :
  exists r ft feed',
    (showFallbackNotification title message ;; addInAppNotification banner warning) e w =
      (r, mkWorld (withInAppNotifications feed' (app w)) (service w)
            (trace w ++ Enter (showFallbackNotification_ title message) :: ft)) /\
    forallb isFailureEvent ft = true /\
    (fallbackTame e ->
     r = Ok tt /\
     List.filter isAlert ft = [AlertAlert title message []] /\
     List.filter isBanner ft = [Enter (addInAppNotification_ banner warning)] /\
     exists b, feed' = b :: take 4 (inAppNotifications (app w)) /\
               Notif.message b = banner /\ Notif.type b = warning).
Proof.
  unfold bind at 1. rewrite showFallbackNotification_any.
  pose proof (fallbackCalls_kind e (length (trace w)) title message) as Hk.
  destruct (fallbackResult e (length (trace w)) title message) as [[]|err] eqn:R.
  - rewrite addInAppNotification_run. cbn [app service trace extend].
    eexists (Ok tt), _, _. split; [rewrite <- app_assoc; reflexivity|].
    split.
    { rewrite forallb_app. apply andb_true_iff. split; [|reflexivity].
      clear R. induction (fallbackCalls _ _ _ _) as [|ev l IH]; [reflexivity|].
      cbn [forallb] in *. apply andb_true_iff in Hk as [Hev Hk].
      unfold isFailureEvent at 1. rewrite Hev. apply IH, Hk. }
    intros H. split; [reflexivity|].
    rewrite !List.filter_app.
    unfold fallbackCalls. rewrite !(caught_ok isFallbackCall) by (exact H || reflexivity).
    destruct (android e); repeat split; eexists; repeat split.
  - exists (Throw err), (fallbackCalls e (length (trace w)) title message),
      (inAppNotifications (app w)).
    rewrite withInAppNotifications_same. split; [reflexivity|].
    split.
    { clear R. induction (fallbackCalls _ _ _ _) as [|ev l IH]; [reflexivity|].
      cbn [forallb] in *. apply andb_true_iff in Hk as [Hev Hk].
      unfold isFailureEvent at 1. rewrite Hev. apply IH, Hk. }
    intros H. destruct (fallback_tame e (length (trace w)) title message H) as [R' _].
    rewrite R in R'. discriminate.
Qed.

Lemma failure_filters ft :
  forallb isFailureEvent ft = true ->
  List.filter isStoreCall ft = [] /\ List.filter isSetUsers ft = [] /\
  List.filter isEnterNotify ft = [] /\ List.filter isCallable ft = [] /\
  List.filter isSnapshot ft = [] /\ List.filter isEnterFallback ft = [] /\
  List.filter isEnterSystem ft = [].
Proof.
  intros H. repeat split; apply (filter_disjoint _ isFailureEvent); try exact H.
  all: intros [| | | | | | | | |[]| |]; try reflexivity; discriminate.
Qed.

Lemma snapshots_filters (f : Event -> bool) (l : list (list User.t)) :
  (forall us, f (Snapshot us) = false) -> List.filter f (map Snapshot l) = [].
Proof.
  intros H. induction l as [|us l IH]; [reflexivity|]. cbn [map List.filter].
  rewrite H. exact IH.
Qed.

Lemma snapshots_kept (l : list (list User.t)) :
  List.filter isSnapshot (map Snapshot l) = map Snapshot l.
Proof. induction l as [|us l IH]; [reflexivity|]. cbn [map List.filter isSnapshot]. f_equal. exact IH. Qed.

(** Every handler only ever extends the trace. *)
Lemma emitsOnly_any_service operation userData isLocalAction :
  emitsOnly anyEvent (notifyCRUDOperation operation userData isLocalAction).
Proof.
  unfold notifyCRUDOperation, showSystemNotification, sendPushNotification,
    sendEmailNotification, showFallbackNotification.
  emits_only.
Qed.

Lemma emitsOnly_any_failure title message banner type :
  emitsOnly anyEvent (showFallbackNotification title message ;;
                      addInAppNotification banner type).
Proof. unfold showFallbackNotification, addInAppNotification. emits_only. Qed.

Lemma emitsOnly_any_banner message type : emitsOnly anyEvent (addInAppNotification message type).
Proof. unfold addInAppNotification. emits_only. Qed.

Ltac emits_any :=
  emits_only;
  first [ apply emitsOnly_any_service
        | apply emitsOnly_any_failure
        | apply emitsOnly_any_banner ].

Ltac filters :=
  repeat (cbn [List.filter Datatypes.app isSetUsers isStoreCall isEnterNotify isSnapshot
                 isEnterFallback isAlert isBanner isCallable isEnterSystem isEnterPush
                 isEnterEmail isListUpdate isFailureBanner isToast];
          rewrite ?List.filter_app).

Ltac snap_filters :=
  repeat match goal with
         | |- context [List.filter ?f (map Snapshot ?l)] =>
             first [ rewrite (snapshots_kept l)
                   | rewrite (snapshots_filters f l) by (intros; reflexivity) ]
         end.

Ltac trace_eq :=
  cbn [trace]; repeat first [rewrite <- app_assoc | progress cbn [Datatypes.app]];
  reflexivity.

(** ** updateUser: a rejected store update *)

Lemma updateUser_emits cl : emitsOnly anyEvent (updateUser cl).
Proof.
  unfold updateUser, validateForm, validationFailed, setSubmitting, setName, setEmail,
    setAge, setErrors, setEditingUser.
  emits_any.
Qed.

(** C4, as the code has it: a run of updateUser from the current render
    that reaches the guarded body (a user is being edited and validation
    passes) ends with the submitting flag false, in every environment. When
    there is a store and its update rejects, the handler makes that one store
    call, never sets the user list and sends no CRUD notification; the edit
    target and the form fields are kept; the list at exit is what the
    snapshot listener delivered while the update was pending, the list of
    before when it delivered nothing; and the handler enters the error
    fallback. When what the toast or the alert throws, if anything, is not
    null or undefined, it returns normally, the alert with title Error is
    shown, and the warning banner is the first entry of the feed, ahead of
    the four newest of before. *)
Theorem updateUser_remote_failure (e : Env) (w : World) (editing : User.t) :
  editingUser (app w) = Some editing ->
  validateName (name (app w)) = None ->
  validateEmail (email (app w)) = None ->
  validateAge (age (app w)) = None ->
  exists (r : Res unit) (tr : list Event) (w' : World),
    fromRender updateUser e w = (r, w') /\
    trace w' = trace w ++ tr /\
    submitting (app w') = false /\
    (db (app w) = true ->
     throws e (updateCall (app w) editing) (length (trace w)) <> None ->
     List.filter isSetUsers tr = [] /\
     List.filter isStoreCall tr = [updateCall (app w) editing] /\
     List.filter isEnterNotify tr = [] /\
     List.filter isSnapshot tr = map Snapshot (snapshots e (length (trace w))) /\
     users (app w') = delivered e (length (trace w)) (users (app w)) /\
     (snapshots e (length (trace w)) = [] -> users (app w') = users (app w)) /\
     editingUser (app w') = Some editing /\
     name (app w') = name (app w) /\
     email (app w') = email (app w) /\
     age (app w') = age (app w) /\
     List.filter isEnterFallback tr =
       [Enter (showFallbackNotification_ (js "Error")
                 (js "Failed to update user. Please try again."))] /\
     (fallbackTame e ->
      r = Ok tt /\
      List.filter isAlert tr =
        [AlertAlert (js "Error") (js "Failed to update user. Please try again.") []] /\
      List.filter isBanner tr = [Enter (addInAppNotification_ updateFailedBanner warning)] /\
      exists banner,
        inAppNotifications (app w') = banner :: take 4 (inAppNotifications (app w)) /\
        Notif.message banner = updateFailedBanner /\
        Notif.type banner = warning)).
Proof.
  intros Hed Hn He Ha.
  destruct (updateUser_emits (app w) e w) as (tr & Etr & _).
  exists (fst (fromRender updateUser e w)), tr, (snd (fromRender updateUser e w)).
  split; [apply surjective_pairing|]. split; [exact Etr|].
  unfold fromRender in *. destruct w as [s svc tr0]. cbn [app trace] in *.
  revert Etr. unfold updateUser. rewrite Hed.
  run_step. rewrite (valid_noKeys s Hn He Ha). cbv [negb].
  run_step. rewrite tryFinally_setSubmitting. cbn [fst snd app submitting withSubmitting].
  intros Etr. split; [reflexivity|].
  intros Hdb Hthrow. unfold updateCall in *. rewrite Hdb in *.
  destruct (throws e (DbUpdate (User.id editing) (trim (name s)) (trim (email s))
                        (trim (age s)) (fcmToken s)) (length tr0)) as [err|] eqn:Hw;
    [clear Hthrow|contradiction].
  revert Etr. rewrite ?bind_assoc.
  erewrite tryCatch_first_throw
    by (erewrite bind_throw by (apply awaiting_run, external_throw; exact Hw); reflexivity).
  cbn [trace]. rewrite deliver_remote by exact Hdb. cbn [app service trace extend users].
  unfold logError. erewrite bind_ok by reflexivity.
  match goal with |- context [bind _ _ e ?W] =>
    destruct (failure_shown (js "Error") (js "Failed to update user. Please try again.")
                (crossMark ++ js " Failed to update user. Please try again.") e W)
      as (r & ft & feed' & Eh & Qf & Hf) end.
  rewrite Eh. cbn [fst snd app service trace users name email age editingUser
                     inAppNotifications withInAppNotifications withUsers withSubmitting
                     withErrors].
  rewrite <- !app_assoc. intros Etr. apply app_inv_head in Etr. subst tr.
  destruct (failure_filters ft Qf) as (F1 & F2 & F3 & _ & F5 & F6 & _).
  filters. snap_filters. rewrite F1, F2, F3, F5, F6, ?app_nil_r.
  repeat (split; [reflexivity|]).
  split; [intros Hs; apply delivered_none, Hs|].
  repeat (split; [first [reflexivity|exact Hed]|]).
  intros H. destruct (Hf H) as (-> & A & B & b & -> & Hm & Ht).
  split; [reflexivity|]. rewrite A, B. split; [reflexivity|]. split; [reflexivity|].
  exists b. repeat split; assumption.
Qed.

Lemma updateUser_remote_failure_witness :
  exists (r : Res unit) (tr : list Event) (w' : World),
    fromRender updateUser updateFailsEnv (startWorld editForm readyService) = (r, w') /\
    r = Ok tt /\
    submitting (app w') = false /\
    users (app w') = [grace] /\
    editingUser (app w') = Some grace /\
    List.filter isSetUsers tr = [] /\
    List.filter isBanner tr = [Enter (addInAppNotification_ updateFailedBanner warning)] /\
    map Notif.message (inAppNotifications (app w')) = [updateFailedBanner] /\
    map Notif.type (inAppNotifications (app w')) = [warning].
Proof.
  destruct (updateUser_remote_failure updateFailsEnv (startWorld editForm readyService) grace)
    as (r & tr & w' & Hrun & _ & Hsub & Hfail); try (vm_compute; reflexivity).
  destruct Hfail as (Hset & _ & _ & _ & Hus & _ & Hed & _ & _ & _ & _ & Hshown);
    [reflexivity|vm_compute; discriminate|].
  destruct Hshown as (Hr & _ & Hban & banner & Hfeed & Hm & Ht).
  { intros ev n _. destruct ev; discriminate. }
  exists r, tr, w'. rewrite Hfeed. cbn [map take inAppNotifications]. rewrite Hm, Ht.
  repeat split; assumption.
Defined.

(** C4 as the specification words it fails: the store rejects the update,
    and the list on the screen is not the list of before, because while the
    update was pending the listener received the local write. *)
Lemma updateUser_failure_shows_pending_write :
  let '(r, w') := fromRender updateUser updateEchoedEnv (startWorld editForm readyService) in
  users editForm = [grace] /\
  r = Ok tt /\
  List.filter isStoreCall (trace w') = [updateCall editForm grace] /\
  List.filter isListUpdate (trace w') = [Snapshot [graceEdited]] /\
  users (app w') = [graceEdited] /\
  List.filter isAlert (trace w') =
    [AlertAlert (js "Error") (js "Failed to update user. Please try again.") []].
Proof. vm_compute. repeat split. Qed.

(** ** addUser *)

Lemma tryCatch_assoc {A B C} (c : M A) (k : A -> M B) (k' : B -> M C) handler e w :
  tryCatch (bind (bind c k) k') handler e w =
  tryCatch (bind c (fun a => bind (k a) k')) handler e w.
Proof. unfold tryCatch. rewrite bind_assoc. reflexivity. Qed.

Lemma notifyTrace_callables e svc n operation userData :
  List.filter isCallable (notifyTrace e svc n operation userData false) =
  if messagingAvailable svc && functions e
  then [HttpsCallable (js "sendNotificationToAllUsers") operation userData;
        HttpsCallable (js "sendEmailNotification") operation userData]
  else [].
Proof.
  unfold notifyTrace, systemTrace, pushTrace, emailTrace, fallbackTrace.
  destruct (messagingAvailable svc), (permissionsGranted svc), (android e), (functions e);
    cbn [negb andb Datatypes.app]; repeat case_match; reflexivity.
Qed.

Lemma service_filters nt :
  forallb isServiceEvent nt = true ->
  List.filter isStoreCall nt = [] /\ List.filter isSetUsers nt = [] /\
  List.filter isEnterNotify nt = [] /\ List.filter isSnapshot nt = [] /\
  List.filter isBanner nt = [] /\ List.filter isListUpdate nt = [].
Proof.
  intros H. repeat split; apply (filter_disjoint _ isServiceEvent); try exact H.
  all: intros [| | |? ? []| | | | | |[]| |]; try reflexivity; discriminate.
Qed.

(** addUser with a store whose add returns. *)
(** What notifyCRUDOperation enters after a store call, once its trace is
    the one of an environment that throws no null or undefined. *)
Lemma notified_entries e svc n operation userData nt :
  Enter (notifyCRUDOperation_ operation userData false) :: nt =
    notifyTrace e svc n operation userData false ->
  List.filter isEnterPush nt =
    (if messagingAvailable svc
     then [Enter (sendPushNotification_ operation userData)] else []) /\
  List.filter isEnterEmail nt =
    (if messagingAvailable svc
     then [Enter (sendEmailNotification_ operation userData)] else []) /\
  List.filter isCallable nt =
    (if messagingAvailable svc && functions e
     then [HttpsCallable (js "sendNotificationToAllUsers") operation userData;
           HttpsCallable (js "sendEmailNotification") operation userData]
     else []).
Proof.
  intros H.
  pose proof (notifyTrace_entries e svc n operation userData false) as (_ & P1 & P2).
  pose proof (notifyTrace_callables e svc n operation userData) as P3.
  rewrite <- H in P1, P2, P3.
  cbn [List.filter isEnterPush isEnterEmail isCallable negb andb] in P1, P2, P3.
  repeat split; assumption.
Qed.

Lemma addUser_remote (e : Env) (w : World) :
  db (app w) = true ->
  validateName (name (app w)) = None ->
  validateEmail (email (app w)) = None ->
  validateAge (age (app w)) = None ->
  throws e (addCall (app w)) (length (trace w)) = None ->
  exists (id : jsstring) (current : list User.t) (r : Res unit)
         (nt rest : list Event) (w' : World),
    fromRender addUser e w = (r, w') /\
    trace w' = trace w
      ++ addCall (app w) :: map Snapshot (snapshots e (length (trace w)))
      ++ Enter (notifyCRUDOperation_ CREATE
                  (PUser (newUserOf (app w) id ServerTimestamp)) false) :: nt ++ rest /\
    forallb isServiceEvent nt = true /\
    List.filter isEnterSystem nt =
      [Enter (showSystemNotification_ (systemTitle CREATE)
                (systemMessage CREATE (PUser (newUserOf (app w) id ServerTimestamp)))
                success)] /\
    List.filter isStoreCall rest = [] /\
    List.filter isEnterNotify rest = [] /\
    submitting (app w') = false /\
    (tame e ->
     r = Ok tt /\
     List.filter isEnterPush nt =
       (if messagingAvailable (service w)
        then [Enter (sendPushNotification_ CREATE
                       (PUser (newUserOf (app w) id ServerTimestamp)))] else []) /\
     List.filter isEnterEmail nt =
       (if messagingAvailable (service w)
        then [Enter (sendEmailNotification_ CREATE
                       (PUser (newUserOf (app w) id ServerTimestamp)))] else []) /\
     List.filter isSetUsers rest =
       [SetUsers (newUserOf (app w) id ServerTimestamp :: current)] /\
     List.filter isFailureBanner rest = [] /\
     users (app w') = newUserOf (app w) id ServerTimestamp :: current /\
     name (app w') = [] /\ email (app w') = [] /\ age (app w') = [] /\
     errors (app w') = ∅ /\
     List.filter isBanner rest =
       (if decide (users (app w) = []) then []
        else [Enter (addInAppNotification_ (addedBanner (app w)) info)]) /\
     if decide (users (app w) = [])
     then inAppNotifications (app w') = inAppNotifications (app w)
     else exists banner,
            inAppNotifications (app w') = banner :: take 4 (inAppNotifications (app w)) /\
            Notif.message banner = addedBanner (app w) /\
            Notif.type banner = info) /\
    ((forall n, snapshots e n = []) -> current = users (app w)).
Proof.
  intros Hdb Hn He Ha Hw. destruct w as [s svc tr0]. cbn [app trace service] in *.
  unfold fromRender, addUser, addCall in *. cbn [app].
  run_step. rewrite (valid_noKeys s Hn He Ha). cbv [negb].
  run_step. rewrite tryFinally_setSubmitting. rewrite Hdb.
  erewrite tryCatch_bind_ok by reflexivity.
  rewrite !tryCatch_assoc.
  erewrite tryCatch_bind_ok by (apply awaiting_run, external_ok; exact Hw).
  cbn [trace]. rewrite deliver_remote by exact Hdb. cbn [app service trace extend users].
  rewrite !tryCatch_assoc.
  erewrite tryCatch_bind_ok by reflexivity. cbn [trace].
  rewrite ?tryCatch_assoc.
  match goal with
  | |- context [tryCatch (bind (awaiting (notifyCRUDOperation ?op ?ud ?loc)) _) _ e ?W] =>
      destruct (notify_awaited op ud loc e W) as (r1 & nt & E1 & Q1 & Hsys & Ht)
  end.
  destruct (service_filters nt Q1) as (S1 & S2 & S3 & S4 & S5 & S6).
  revert E1. cbn [trace]. rewrite deliver_remote by exact Hdb.
  cbn [app service trace extend users]. revert Hsys Ht.
  rewrite <- ?app_assoc. cbn [Datatypes.app]. intros Hsys Ht E1.
  destruct r1 as [[]|err].
  - erewrite tryCatch_bind_ok by exact E1.
    rewrite ?tryCatch_assoc.
    erewrite tryCatch_bind_ok by reflexivity.
    destruct (0 <? Z.of_nat (length (users s))) eqn:Hlen.
    + erewrite tryCatch_ok by (do 5 run_step; apply addInAppNotification_run).
      cbn [fst snd app service trace users withUsers withSubmitting withName withEmail
             withAge withErrors withInAppNotifications name email age errors submitting
             inAppNotifications].
      eexists _, _, (Ok tt), nt, _, _. split; [reflexivity|].
      split; [trace_eq|].
      split; [exact Q1|]. split; [exact Hsys|].
      filters. snap_filters.
      split; [reflexivity|]. split; [reflexivity|]. split; [reflexivity|].
      split.
      { intros H. destruct (Ht H) as (_ & Hnt).
        destruct (notified_entries _ _ _ _ _ _ Hnt) as (P1 & P2 & _).
        split; [reflexivity|]. split; [exact P1|]. split; [exact P2|].
        repeat (split; [reflexivity|]).
        destruct (users s); [discriminate Hlen|]. rewrite decide_False by discriminate.
        split; [reflexivity|]. eexists. repeat split. }
      intros Hs. rewrite !delivered_none by apply Hs. reflexivity.
    + erewrite tryCatch_ok by (do 5 run_step; reflexivity).
      cbn [fst snd app service trace users withUsers withSubmitting withName withEmail
             withAge withErrors withInAppNotifications name email age errors submitting
             inAppNotifications].
      eexists _, _, (Ok tt), nt, _, _. split; [reflexivity|].
      split; [trace_eq|].
      split; [exact Q1|]. split; [exact Hsys|].
      filters. snap_filters.
      split; [reflexivity|]. split; [reflexivity|]. split; [reflexivity|].
      split.
      { intros H. destruct (Ht H) as (_ & Hnt).
        destruct (notified_entries _ _ _ _ _ _ Hnt) as (P1 & P2 & _).
        split; [reflexivity|]. split; [exact P1|]. split; [exact P2|].
        repeat (split; [reflexivity|]).
        destruct (users s) as [|u us]; [|discriminate Hlen].
        rewrite decide_True by reflexivity. split; reflexivity. }
      intros Hs. rewrite !delivered_none by apply Hs. reflexivity.
  - erewrite tryCatch_first_throw by exact E1.
    unfold logError. erewrite bind_ok by reflexivity.
    match goal with |- context [bind _ _ e ?W] =>
      destruct (failure_shown (js "Error") (js "Failed to add user. Please try again.")
                  (crossMark ++ js " Failed to add user. Please try again.") e W)
        as (r & ft & feed' & Eh & Qf & Hf) end.
    rewrite Eh.
    destruct (failure_filters ft Qf) as (F1 & F2 & F3 & _).
    cbn [fst snd app service trace users withUsers withSubmitting withErrors
           withInAppNotifications submitting].
    eexists _, (users s), r, nt, _, _. split; [reflexivity|].
    split; [trace_eq|].
    split; [exact Q1|]. split; [exact Hsys|].
    filters. snap_filters. rewrite F1, F3.
    split; [reflexivity|]. split; [reflexivity|]. split; [reflexivity|].
    split; [|reflexivity].
    intros H. destruct (Ht H) as (Hr & _). discriminate Hr.
Qed.

(** ** updateUser with a store whose update returns *)

Lemma updateUser_remote (e : Env) (w : World) (editing : User.t) :
  db (app w) = true ->
  editingUser (app w) = Some editing ->
  validateName (name (app w)) = None ->
  validateEmail (email (app w)) = None ->
  validateAge (age (app w)) = None ->
  throws e (updateCall (app w) editing) (length (trace w)) = None ->
  exists (current : list User.t) (r : Res unit) (nt rest : list Event) (w' : World),
    fromRender updateUser e w = (r, w') /\
    trace w' = trace w
      ++ updateCall (app w) editing :: map Snapshot (snapshots e (length (trace w)))
      ++ Enter (notifyCRUDOperation_ UPDATE (updatePayload (app w) editing) false)
           :: nt ++ rest /\
    forallb isServiceEvent nt = true /\
    List.filter isEnterSystem nt =
      [Enter (showSystemNotification_ (systemTitle UPDATE)
                (systemMessage UPDATE (updatePayload (app w) editing)) success)] /\
    List.filter isStoreCall rest = [] /\
    List.filter isEnterNotify rest = [] /\
    List.filter isSetUsers rest = [] /\
    submitting (app w') = false /\
    users (app w') = current /\
    (tame e ->
     r = Ok tt /\
     List.filter isEnterPush nt =
       (if messagingAvailable (service w)
        then [Enter (sendPushNotification_ UPDATE (updatePayload (app w) editing))]
        else []) /\
     List.filter isEnterEmail nt =
       (if messagingAvailable (service w)
        then [Enter (sendEmailNotification_ UPDATE (updatePayload (app w) editing))]
        else []) /\
     List.filter isFailureBanner rest = [] /\
     editingUser (app w') = None /\
     name (app w') = [] /\ email (app w') = [] /\ age (app w') = [] /\
     errors (app w') = ∅ /\
     List.filter isBanner rest =
       (if 1 <? Z.of_nat (length (users (app w)))
        then [Enter (addInAppNotification_ (updatedBanner (app w)) info)] else [])) /\
    ((forall n, snapshots e n = []) -> current = users (app w)).
Proof.
  intros Hdb Hed Hn He Ha Hw. destruct w as [s svc tr0]. cbn [app trace service] in *.
  unfold fromRender, updateUser, updateCall, updatePayload in *. cbn [app]. rewrite Hed.
  run_step. rewrite (valid_noKeys s Hn He Ha). cbv [negb].
  run_step. rewrite tryFinally_setSubmitting. rewrite Hdb.
  rewrite !tryCatch_assoc.
  erewrite tryCatch_bind_ok by (apply awaiting_run, external_ok; exact Hw).
  cbn [trace]. rewrite deliver_remote by exact Hdb. cbn [app service trace extend users].
  rewrite ?tryCatch_assoc.
  match goal with
  | |- context [tryCatch (bind (awaiting (notifyCRUDOperation ?op ?ud ?loc)) _) _ e ?W] =>
      destruct (notify_awaited op ud loc e W) as (r1 & nt & E1 & Q1 & Hsys & Ht)
  end.
  destruct (service_filters nt Q1) as (S1 & S2 & S3 & S4 & S5 & S6).
  revert E1. cbn [trace]. rewrite deliver_remote by exact Hdb.
  cbn [app service trace extend users]. revert Hsys Ht.
  rewrite <- ?app_assoc. cbn [Datatypes.app]. intros Hsys Ht E1.
  destruct r1 as [[]|err].
  - erewrite tryCatch_bind_ok by exact E1.
    destruct (1 <? Z.of_nat (length (users s))) eqn:Hlen.
    + erewrite tryCatch_ok by (do 5 run_step; apply addInAppNotification_run).
      cbn [fst snd app service trace users withUsers withSubmitting withName withEmail
             withAge withErrors withInAppNotifications withEditingUser name email age errors
             submitting editingUser inAppNotifications].
      eexists _, (Ok tt), nt, _, _. split; [reflexivity|].
      split; [trace_eq|].
      split; [exact Q1|]. split; [exact Hsys|].
      filters. snap_filters.
      repeat (split; [reflexivity|]).
      split.
      { intros H. destruct (Ht H) as (_ & Hnt).
        destruct (notified_entries _ _ _ _ _ _ Hnt) as (P1 & P2 & _).
        split; [reflexivity|]. split; [exact P1|]. split; [exact P2|].
        repeat split. }
      intros Hs. rewrite !delivered_none by apply Hs. reflexivity.
    + erewrite tryCatch_ok by (do 5 run_step; reflexivity).
      cbn [fst snd app service trace users withUsers withSubmitting withName withEmail
             withAge withErrors withInAppNotifications withEditingUser name email age errors
             submitting editingUser inAppNotifications].
      eexists _, (Ok tt), nt, _, _. split; [reflexivity|].
      split; [trace_eq|].
      split; [exact Q1|]. split; [exact Hsys|].
      filters. snap_filters.
      repeat (split; [reflexivity|]).
      split.
      { intros H. destruct (Ht H) as (_ & Hnt).
        destruct (notified_entries _ _ _ _ _ _ Hnt) as (P1 & P2 & _).
        split; [reflexivity|]. split; [exact P1|]. split; [exact P2|].
        repeat split. }
      intros Hs. rewrite !delivered_none by apply Hs. reflexivity.
  - erewrite tryCatch_first_throw by exact E1.
    unfold logError. erewrite bind_ok by reflexivity.
    match goal with |- context [bind _ _ e ?W] =>
      destruct (failure_shown (js "Error") (js "Failed to update user. Please try again.")
                  (crossMark ++ js " Failed to update user. Please try again.") e W)
        as (r & ft & feed' & Eh & Qf & Hf) end.
    rewrite Eh.
    destruct (failure_filters ft Qf) as (F1 & F2 & F3 & _).
    cbn [fst snd app service trace users withUsers withSubmitting withErrors
           withInAppNotifications submitting].
    eexists _, r, nt, _, _. split; [reflexivity|].
    split; [trace_eq|].
    split; [exact Q1|]. split; [exact Hsys|].
    filters. snap_filters. rewrite F1, F2, F3.
    repeat (split; [reflexivity|]).
    split; [intros H; destruct (Ht H) as (Hr & _); discriminate Hr|].
    intros Hs. rewrite !delivered_none by apply Hs. reflexivity.
Qed.

(** ** deleteUser *)

Lemma findUser_Some userId us u :
  findUser userId us = Some u -> u ∈ us /\ User.id u = userId.
Proof.
  unfold findUser. intros [Hin Hid]%List.find_some.
  split; [apply list_elem_of_In, Hin|]. apply bool_decide_eq_true in Hid. exact Hid.
Qed.

Lemma findUser_None userId us :
  findUser userId us = None <-> forall u, u ∈ us -> User.id u <> userId.
Proof.
  unfold findUser. split.
  - intros H u Hin%list_elem_of_In.
    pose proof (List.find_none _ _ H u Hin) as Hf.
    apply bool_decide_eq_false in Hf. exact Hf.
  - induction us as [|x us IH]; [reflexivity|]. intros H. cbn [List.find].
    rewrite bool_decide_eq_false_2 by (apply H; left).
    apply IH. intros u Hu. apply H. right. exact Hu.
Qed.

(** The Delete button with a store whose delete returns. *)
Lemma onPressDelete_remote (e : Env) (cl : AppState) (w1 : World) (userId : jsstring) :
  db cl = true -> db (app w1) = true ->
  throws e (DbDelete userId) (length (trace w1)) = None ->
  exists (r : Res unit) (tr : list Event) (w' : World),
    onPressDelete cl userId e w1 = (r, w') /\
    trace w' = trace w1
      ++ DbDelete userId :: map Snapshot (snapshots e (length (trace w1))) ++ tr /\
    List.filter isStoreCall tr = [] /\
    List.filter isSetUsers tr = [] /\
    List.filter isEnterNotify tr = deleteNotification userId (users cl) false /\
    (forall u, findUser userId (users cl) = Some u ->
       exists nt rest,
         tr = Enter (notifyCRUDOperation_ DELETE (PDelete userId u) false) :: nt ++ rest /\
         forallb isServiceEvent nt = true /\
         List.filter isEnterSystem nt =
           [Enter (showSystemNotification_ (systemTitle DELETE)
                     (systemMessage DELETE (PDelete userId u)) success)] /\
         (tame e ->
          List.filter isEnterPush nt =
            (if messagingAvailable (service w1)
             then [Enter (sendPushNotification_ DELETE (PDelete userId u))] else []) /\
          List.filter isEnterEmail nt =
            (if messagingAvailable (service w1)
             then [Enter (sendEmailNotification_ DELETE (PDelete userId u))] else []))) /\
    ((forall n, snapshots e n = []) -> users (app w') = users (app w1)) /\
    (tame e ->
     r = Ok tt /\
     List.filter isFailureBanner tr = [] /\
     List.filter isBanner tr =
       (if 1 <? Z.of_nat (length (users cl))
        then [Enter (addInAppNotification_ (removedBanner cl userId) info)] else [])).
Proof.
  intros Hdb Hdb1 Hw. destruct w1 as [s svc tr0]. cbn [app trace service] in *.
  unfold onPressDelete, deleteNotification, removedBanner. rewrite Hdb.
  rewrite !tryCatch_assoc.
  erewrite tryCatch_bind_ok by (apply awaiting_run, external_ok; exact Hw).
  cbn [trace]. rewrite deliver_remote by exact Hdb1. cbn [app service trace extend users].
  rewrite ?tryCatch_assoc.
  destruct (findUser userId (users cl)) as [u|] eqn:Hfind.
  - match goal with
    | |- context [tryCatch (bind (awaiting (notifyCRUDOperation ?op ?ud ?loc)) _) _ e ?W] =>
        destruct (notify_awaited op ud loc e W) as (r1 & nt & E1 & Q1 & Hsys & Ht)
    end.
    destruct (service_filters nt Q1) as (S1 & S2 & S3 & S4 & S5 & S6).
    revert E1. cbn [trace]. rewrite deliver_remote by exact Hdb1.
    cbn [app service trace extend users]. revert Hsys Ht.
    rewrite <- ?app_assoc. cbn [Datatypes.app]. intros Hsys Ht E1.
    destruct r1 as [[]|err].
    + erewrite tryCatch_bind_ok by exact E1.
      destruct (1 <? Z.of_nat (length (users cl))) eqn:Hlen.
      * erewrite tryCatch_ok by apply addInAppNotification_run.
        eexists (Ok tt), _, _. split; [reflexivity|].
        split; [trace_eq|].
        filters. snap_filters. rewrite S1, S2, S3.
        repeat (split; [reflexivity|]).
        split.
        { intros u' [= <-]. eexists nt, _. split; [reflexivity|].
          split; [exact Q1|]. split; [exact Hsys|].
          intros H. destruct (Ht H) as (_ & Hnt).
          destruct (notified_entries _ _ _ _ _ _ Hnt) as (P1 & P2 & _).
          split; assumption. }
        split.
        { intros Hs. cbn [app users withUsers withInAppNotifications].
          rewrite !delivered_none by apply Hs. reflexivity. }
        intros H. split; [reflexivity|].
        assert (List.filter isFailureBanner nt = []) as ->.
        { apply (filter_disjoint _ isServiceEvent); [|exact Q1].
          intros [| | |? ? []| | | | | |[]| |]; try reflexivity; discriminate. }
        rewrite S5. split; reflexivity.
      * erewrite tryCatch_ok by reflexivity.
        eexists (Ok tt), _, _. split; [reflexivity|].
        split; [trace_eq|].
        filters. snap_filters. rewrite S1, S2, S3, ?app_nil_r.
        repeat (split; [reflexivity|]).
        split.
        { intros u' [= <-]. eexists nt, _. split; [reflexivity|].
          split; [exact Q1|]. split; [exact Hsys|].
          intros H. destruct (Ht H) as (_ & Hnt).
          destruct (notified_entries _ _ _ _ _ _ Hnt) as (P1 & P2 & _).
          split; assumption. }
        split.
        { intros Hs. cbn [app users withUsers withInAppNotifications].
          rewrite !delivered_none by apply Hs. reflexivity. }
        intros H. split; [reflexivity|].
        assert (List.filter isFailureBanner nt = []) as ->.
        { apply (filter_disjoint _ isServiceEvent); [|exact Q1].
          intros [| | |? ? []| | | | | |[]| |]; try reflexivity; discriminate. }
        rewrite S5. split; reflexivity.
    + erewrite tryCatch_first_throw by exact E1.
      unfold logError. erewrite bind_ok by reflexivity.
      match goal with |- context [bind _ _ e ?W] =>
        destruct (failure_shown (js "Error") (js "Failed to delete user. Please try again.")
                    (crossMark ++ js " Failed to delete user. Please try again.") e W)
          as (r & ft & feed' & Eh & Qf & Hf) end.
      rewrite Eh.
      destruct (failure_filters ft Qf) as (F1 & F2 & F3 & _).
      eexists r, _, _. split; [reflexivity|].
      split; [trace_eq|].
      filters. snap_filters. rewrite S1, S2, S3, F1, F2, F3.
      repeat (split; [reflexivity|]).
      split.
      { intros u' [= <-]. eexists nt, _. split; [reflexivity|].
        split; [exact Q1|]. split; [exact Hsys|].
        intros H. destruct (Ht H) as (Hr & _). discriminate Hr. }
      split.
      { intros Hs. cbn [app users withUsers withInAppNotifications].
        rewrite !delivered_none by apply Hs. reflexivity. }
      intros H. destruct (Ht H) as (Hr & _). discriminate Hr.
  - erewrite tryCatch_bind_ok by reflexivity.
    destruct (1 <? Z.of_nat (length (users cl))) eqn:Hlen.
    + erewrite tryCatch_ok by apply addInAppNotification_run.
      eexists (Ok tt), _, _. split; [reflexivity|].
      split; [trace_eq|].
      filters.
      repeat (split; [reflexivity|]).
      split; [intros u' [=]|].
      split.
      { intros Hs. cbn [app users withUsers withInAppNotifications].
        rewrite !delivered_none by apply Hs. reflexivity. }
      intros H. repeat split.
    + erewrite tryCatch_ok by reflexivity.
      eexists (Ok tt), [], _. split; [reflexivity|].
      split; [cbn [trace]; rewrite <- !app_assoc, app_nil_r; reflexivity|].
      repeat (split; [reflexivity|]).
      split; [intros u' [=]|].
      split.
      { intros Hs. cbn [app users withUsers withInAppNotifications].
        rewrite !delivered_none by apply Hs. reflexivity. }
      intros H. repeat split.
Qed.

(** The Delete button without a store. *)
Lemma onPressDelete_local (e : Env) (cl : AppState) (w1 : World) (userId : jsstring) :
  db cl = false -> db (app w1) = false ->
  exists (r : Res unit) (tr : list Event) (w' : World),
    onPressDelete cl userId e w1 = (r, w') /\
    users (app w') = filter (fun user => User.id user <> userId) (users (app w1)) /\
    trace w' = trace w1
      ++ SetUsers (filter (fun user => User.id user <> userId) (users (app w1))) :: tr /\
    List.filter isStoreCall tr = [] /\
    List.filter isSetUsers tr = [] /\
    List.filter isSnapshot tr = [] /\
    List.filter isEnterNotify tr = deleteNotification userId (users cl) true /\
    (forall u, findUser userId (users cl) = Some u ->
       exists nt rest,
         tr = Enter (notifyCRUDOperation_ DELETE (PDelete userId u) true) :: nt ++ rest /\
         forallb isServiceEvent nt = true /\
         List.filter isEnterSystem nt =
           [Enter (showSystemNotification_ (systemTitle DELETE)
                     (systemMessage DELETE (PDelete userId u)) success)]) /\
    (tame e ->
     r = Ok tt /\
     List.filter isFailureBanner tr = [] /\
     List.filter isBanner tr =
       (if 1 <? Z.of_nat (length (users cl))
        then [Enter (addInAppNotification_ (removedBanner cl userId) info)] else [])).
Proof.
  intros Hdb Hdb1. destruct w1 as [s svc tr0]. cbn [app trace service] in *.
  unfold onPressDelete, deleteNotification, removedBanner. rewrite Hdb.
  rewrite !tryCatch_assoc.
  erewrite tryCatch_bind_ok by reflexivity.
  cbn [app service trace extend users].
  rewrite ?tryCatch_assoc.
  destruct (findUser userId (users cl)) as [u|] eqn:Hfind.
  - match goal with
    | |- context [tryCatch (bind (awaiting (notifyCRUDOperation ?op ?ud ?loc)) _) _ e ?W] =>
        destruct (notify_awaited op ud loc e W) as (r1 & nt & E1 & Q1 & Hsys & Ht)
    end.
    destruct (service_filters nt Q1) as (S1 & S2 & S3 & S4 & S5 & S6).
    revert E1. cbn [trace]. rewrite deliver_local by exact Hdb1.
    unfold extend. cbn [app service trace users]. revert Hsys Ht.
    rewrite <- ?app_assoc. cbn [Datatypes.app]. intros Hsys Ht E1.
    assert (List.filter isFailureBanner nt = []) as S7.
    { apply (filter_disjoint _ isServiceEvent); [|exact Q1].
      intros [| | |? ? []| | | | | |[]| |]; try reflexivity; discriminate. }
    destruct r1 as [[]|err].
    + erewrite tryCatch_bind_ok by exact E1.
      destruct (1 <? Z.of_nat (length (users cl))) eqn:Hlen.
      * erewrite tryCatch_ok by apply addInAppNotification_run.
        eexists (Ok tt), _, _. split; [reflexivity|].
        split; [reflexivity|].
        split; [trace_eq|].
        filters. rewrite S1, S2, S3, S4, S5, S7.
        repeat (split; [reflexivity|]).
        split.
        { intros u' [= <-]. eexists nt, _. split; [reflexivity|].
          split; [exact Q1|exact Hsys]. }
        intros H. repeat split.
      * erewrite tryCatch_ok by reflexivity.
        eexists (Ok tt), _, _. split; [reflexivity|].
        split; [reflexivity|].
        split; [trace_eq|].
        filters. rewrite S1, S2, S3, S4, S5, S7, ?app_nil_r.
        repeat (split; [reflexivity|]).
        split.
        { intros u' [= <-]. eexists nt, []. split; [rewrite app_nil_r; reflexivity|].
          split; [exact Q1|exact Hsys]. }
        intros H. repeat split.
    + erewrite tryCatch_first_throw by exact E1.
      unfold logError. erewrite bind_ok by reflexivity.
      match goal with |- context [bind _ _ e ?W] =>
        destruct (failure_shown (js "Error") (js "Failed to delete user. Please try again.")
                    (crossMark ++ js " Failed to delete user. Please try again.") e W)
          as (r & ft & feed' & Eh & Qf & Hf) end.
      rewrite Eh.
      destruct (failure_filters ft Qf) as (F1 & F2 & F3 & F4 & F5 & _).
      eexists r, _, _. split; [reflexivity|].
      split; [reflexivity|].
      split; [trace_eq|].
      filters. rewrite S1, S2, S3, S4, F1, F2, F3, F5.
      repeat (split; [reflexivity|]).
      split.
      { intros u' [= <-]. eexists nt, _. split; [reflexivity|].
        split; [exact Q1|exact Hsys]. }
      intros H. destruct (Ht H) as (Hr & _). discriminate Hr.
  - erewrite tryCatch_bind_ok by reflexivity.
    destruct (1 <? Z.of_nat (length (users cl))) eqn:Hlen.
    + erewrite tryCatch_ok by apply addInAppNotification_run.
      eexists (Ok tt), _, _. split; [reflexivity|].
      split; [reflexivity|].
      split; [trace_eq|].
      filters.
      repeat (split; [reflexivity|]).
      split; [intros u' [=]|].
      intros H. repeat split.
    + erewrite tryCatch_ok by reflexivity.
      eexists (Ok tt), [], _. split; [reflexivity|].
      split; [reflexivity|].
      split; [reflexivity|].
      repeat (split; [reflexivity|]).
      split; [intros u' [=]|].
      intros H. repeat split.
Qed.

(** deleteUser itself: the modal, and its two buttons as the result. *)
Lemma deleteUser_modal (e : Env) (w : World) (userId : jsstring) :
  fromRender (fun cl => deleteUser cl userId) e w =
    (match throws e confirmModal (length (trace w)) with
     | None => Ok (modalButtons (app w) userId)
     | Some error => Throw error
     end, extend w [confirmModal]).
Proof.
  unfold fromRender, deleteUser, bind, external. fold confirmModal.
  destruct (throws e confirmModal (length (trace w))); reflexivity.
Qed.

(** C6: deleteUser only shows the modal. Whenever Alert.alert returns, the
    call returns the two buttons and the world is the old one with the modal
    as its only event: nothing is written and the component state is
    untouched. Cancel has no handler; Delete has the handler of this render.
    Pressed in any later state [w1]: with a store whose delete returns, the
    store's delete is the first event, then the snapshots the listener hears
    during that await, and then, when this render holds a record for the id,
    the entry into notifyCRUDOperation with that record (the snapshot from
    before the removal) followed by the service's own events, among them the
    entry into the system notification; when the render holds no record for
    the id, the delete is still called and notifyCRUDOperation is never
    entered. The handler calls the store once and never updates the list
    itself. Without a store it first filters the list of [w1] and then
    notifies in the same way. If no notification call throws null or
    undefined the handler returns normally and its only banner is the one of
    the removal, shown exactly when the render held more than one record. *)
Theorem deleteUser_confirm_remove_notify (e : Env) (w : World) (userId : jsstring) :
  fromRender (fun cl => deleteUser cl userId) e w =
    (match throws e confirmModal (length (trace w)) with
     | None => Ok (modalButtons (app w) userId)
     | Some error => Throw error
     end, extend w [confirmModal]) /\
  press (js "Cancel") (modalButtons (app w) userId) = ret tt /\
  press (js "Delete") (modalButtons (app w) userId) = onPressDelete (app w) userId /\
  (forall w1 : World,
   db (app w) = true -> db (app w1) = true ->
   throws e (DbDelete userId) (length (trace w1)) = None ->
   exists (r : Res unit) (tr : list Event) (w' : World),
     press (js "Delete") (modalButtons (app w) userId) e w1 = (r, w') /\
     trace w' = trace w1
       ++ DbDelete userId :: map Snapshot (snapshots e (length (trace w1))) ++ tr /\
     List.filter isStoreCall tr = [] /\
     List.filter isSetUsers tr = [] /\
     List.filter isEnterNotify tr = deleteNotification userId (users (app w)) false /\
     (forall u, findUser userId (users (app w)) = Some u ->
        exists nt rest,
          tr = Enter (notifyCRUDOperation_ DELETE (PDelete userId u) false) :: nt ++ rest /\
          forallb isServiceEvent nt = true /\
          List.filter isEnterSystem nt =
            [Enter (showSystemNotification_ (systemTitle DELETE)
                      (systemMessage DELETE (PDelete userId u)) success)] /\
          (tame e ->
           List.filter isEnterPush nt =
             (if messagingAvailable (service w1)
              then [Enter (sendPushNotification_ DELETE (PDelete userId u))] else []) /\
           List.filter isEnterEmail nt =
             (if messagingAvailable (service w1)
              then [Enter (sendEmailNotification_ DELETE (PDelete userId u))] else []))) /\
     ((forall n, snapshots e n = []) -> users (app w') = users (app w1)) /\
     (tame e ->
      r = Ok tt /\
      List.filter isFailureBanner tr = [] /\
      List.filter isBanner tr =
        (if 1 <? Z.of_nat (length (users (app w)))
         then [Enter (addInAppNotification_ (removedBanner (app w) userId) info)]
         else []))) /\
  (forall w1 : World,
   db (app w) = false -> db (app w1) = false ->
   exists (r : Res unit) (tr : list Event) (w' : World),
     press (js "Delete") (modalButtons (app w) userId) e w1 = (r, w') /\
     users (app w') = filter (fun user => User.id user <> userId) (users (app w1)) /\
     trace w' = trace w1
       ++ SetUsers (filter (fun user => User.id user <> userId) (users (app w1))) :: tr /\
     List.filter isStoreCall tr = [] /\
     List.filter isSetUsers tr = [] /\
     List.filter isSnapshot tr = [] /\
     List.filter isEnterNotify tr = deleteNotification userId (users (app w)) true /\
     (forall u, findUser userId (users (app w)) = Some u ->
        exists nt rest,
          tr = Enter (notifyCRUDOperation_ DELETE (PDelete userId u) true) :: nt ++ rest /\
          forallb isServiceEvent nt = true /\
          List.filter isEnterSystem nt =
            [Enter (showSystemNotification_ (systemTitle DELETE)
                      (systemMessage DELETE (PDelete userId u)) success)]) /\
     (tame e ->
      r = Ok tt /\
      List.filter isFailureBanner tr = [] /\
      List.filter isBanner tr =
        (if 1 <? Z.of_nat (length (users (app w)))
         then [Enter (addInAppNotification_ (removedBanner (app w) userId) info)]
         else []))) /\
  (forall u, findUser userId (users (app w)) = Some u ->
     u ∈ users (app w) /\ User.id u = userId) /\
  (findUser userId (users (app w)) = None <->
   forall u, u ∈ users (app w) -> User.id u <> userId).
Proof.
  split; [apply deleteUser_modal|].
  split; [reflexivity|].
  split; [reflexivity|].
  split.
  { intros w1 Hdb Hdb1 Hw.
    change (press (js "Delete") (modalButtons (app w) userId))
      with (onPressDelete (app w) userId).
    apply onPressDelete_remote; assumption. }
  split.
  { intros w1 Hdb Hdb1.
    change (press (js "Delete") (modalButtons (app w) userId))
      with (onPressDelete (app w) userId).
    apply onPressDelete_local; assumption. }
  split; [apply findUser_Some|apply findUser_None].
Qed.

Example deleteUser_unknown_id_remote :
  let '(r, w') := pressDelete (js "doc-9") quietEnv (startWorld adaForm readyService) in
  r = Ok tt /\ trace w' = [DbDelete (js "doc-9")] /\ users (app w') = [grace].
Proof. vm_compute. repeat split. Qed.

(** The scenario of the specification: the only user of a local list is
    deleted; the list becomes empty and no banner is emitted. *)
Example deleteUser_only_user_local :
  let s0 := mkApp [grace] false [] [] [] None ∅ [] (js "token-A") false in
  let '(r, w') := pressDelete (js "doc-0") quietEnv (startWorld s0 readyService) in
  r = Ok tt /\ users (app w') = [] /\
  List.filter isBanner (trace w') = [] /\
  List.filter isEnterNotify (trace w') =
    [Enter (notifyCRUDOperation_ DELETE (PDelete (js "doc-0") grace) true)].
Proof. vm_compute. repeat split. Qed.

(** ** The order of write, notifications and list update *)

(** C5, as the code has it. With a store whose write has returned, the write
    is the first event of the handler; the snapshots the listener hears
    while the write is pending come next, each replacing the visible list;
    only then is notifyCRUDOperation entered (by the Delete button only when
    the render holds a record for the id). Its events follow; among them is
    always the entry into the system notification. No store call follows the
    write, whatever the notification calls do. addUser's own list update, if
    it is reached, comes after the service has returned; updateUser and the
    Delete button never update the list themselves. If no notification call
    throws null or undefined: the handler returns normally, the push and the
    email dispatcher are entered exactly when messagingAvailable is true,
    addUser prepends the record to the list as it stands by then, and no
    failure banner is shown. *)
Theorem remote_write_then_notifications (e : Env) (w : World) :
  db (app w) = true ->
  (validateName (name (app w)) = None ->
   validateEmail (email (app w)) = None ->
   validateAge (age (app w)) = None ->
   throws e (addCall (app w)) (length (trace w)) = None ->
   exists (id : jsstring) (current : list User.t) (r : Res unit)
          (nt rest : list Event) (w' : World),
     fromRender addUser e w = (r, w') /\
     trace w' = trace w
       ++ addCall (app w) :: map Snapshot (snapshots e (length (trace w)))
       ++ Enter (notifyCRUDOperation_ CREATE
                   (PUser (newUserOf (app w) id ServerTimestamp)) false) :: nt ++ rest /\
     forallb isServiceEvent nt = true /\
     List.filter isEnterSystem nt =
       [Enter (showSystemNotification_ (systemTitle CREATE)
                 (systemMessage CREATE (PUser (newUserOf (app w) id ServerTimestamp)))
                 success)] /\
     List.filter isSetUsers nt = [] /\
     List.filter isStoreCall (nt ++ rest) = [] /\
     List.filter isEnterNotify (nt ++ rest) = [] /\
     (tame e ->
      r = Ok tt /\
      List.filter isEnterPush nt =
        (if messagingAvailable (service w)
         then [Enter (sendPushNotification_ CREATE
                        (PUser (newUserOf (app w) id ServerTimestamp)))] else []) /\
      List.filter isEnterEmail nt =
        (if messagingAvailable (service w)
         then [Enter (sendEmailNotification_ CREATE
                        (PUser (newUserOf (app w) id ServerTimestamp)))] else []) /\
      List.filter isSetUsers rest =
        [SetUsers (newUserOf (app w) id ServerTimestamp :: current)] /\
      List.filter isFailureBanner rest = [] /\
      users (app w') = newUserOf (app w) id ServerTimestamp :: current) /\
     ((forall n, snapshots e n = []) -> current = users (app w))) /\
  (forall editing : User.t,
   editingUser (app w) = Some editing ->
   validateName (name (app w)) = None ->
   validateEmail (email (app w)) = None ->
   validateAge (age (app w)) = None ->
   throws e (updateCall (app w) editing) (length (trace w)) = None ->
   exists (r : Res unit) (nt rest : list Event) (w' : World),
     fromRender updateUser e w = (r, w') /\
     trace w' = trace w
       ++ updateCall (app w) editing :: map Snapshot (snapshots e (length (trace w)))
       ++ Enter (notifyCRUDOperation_ UPDATE (updatePayload (app w) editing) false)
            :: nt ++ rest /\
     forallb isServiceEvent nt = true /\
     List.filter isEnterSystem nt =
       [Enter (showSystemNotification_ (systemTitle UPDATE)
                 (systemMessage UPDATE (updatePayload (app w) editing)) success)] /\
     List.filter isSetUsers (nt ++ rest) = [] /\
     List.filter isStoreCall (nt ++ rest) = [] /\
     List.filter isEnterNotify (nt ++ rest) = [] /\
     (tame e ->
      r = Ok tt /\
      List.filter isEnterPush nt =
        (if messagingAvailable (service w)
         then [Enter (sendPushNotification_ UPDATE (updatePayload (app w) editing))]
         else []) /\
      List.filter isEnterEmail nt =
        (if messagingAvailable (service w)
         then [Enter (sendEmailNotification_ UPDATE (updatePayload (app w) editing))]
         else []) /\
      List.filter isFailureBanner rest = [] /\
      editingUser (app w') = None) /\
     ((forall n, snapshots e n = []) -> users (app w') = users (app w))) /\
  (forall userId : jsstring,
   throws e (DbDelete userId) (length (trace w)) = None ->
   exists (r : Res unit) (tr : list Event) (w' : World),
     pressDelete userId e w = (r, w') /\
     trace w' = trace w
       ++ DbDelete userId :: map Snapshot (snapshots e (length (trace w))) ++ tr /\
     List.filter isSetUsers tr = [] /\
     List.filter isStoreCall tr = [] /\
     List.filter isEnterNotify tr = deleteNotification userId (users (app w)) false /\
     (forall u, findUser userId (users (app w)) = Some u ->
        exists nt rest,
          tr = Enter (notifyCRUDOperation_ DELETE (PDelete userId u) false) :: nt ++ rest /\
          forallb isServiceEvent nt = true /\
          List.filter isEnterSystem nt =
            [Enter (showSystemNotification_ (systemTitle DELETE)
                      (systemMessage DELETE (PDelete userId u)) success)] /\
          (tame e ->
           List.filter isEnterPush nt =
             (if messagingAvailable (service w)
              then [Enter (sendPushNotification_ DELETE (PDelete userId u))] else []) /\
           List.filter isEnterEmail nt =
             (if messagingAvailable (service w)
              then [Enter (sendEmailNotification_ DELETE (PDelete userId u))] else []))) /\
     (tame e -> r = Ok tt /\ List.filter isFailureBanner tr = []) /\
     ((forall n, snapshots e n = []) -> users (app w') = users (app w))).
Proof.
  intros Hdb. split; [|split].
  - intros Hn He Ha Hw.
    destruct (addUser_remote e w Hdb Hn He Ha Hw)
      as (id & current & r & nt & rest & w' & Hrun & Htr & Q & Hsys & Hs & Hnot & _
          & Ht & Hcur).
    destruct (service_filters nt Q) as (S1 & S2 & S3 & _).
    exists id, current, r, nt, rest, w'.
    split; [exact Hrun|]. split; [exact Htr|]. split; [exact Q|]. split; [exact Hsys|].
    split; [exact S2|].
    split; [rewrite List.filter_app, S1, Hs; reflexivity|].
    split; [rewrite List.filter_app, S3, Hnot; reflexivity|].
    split; [|exact Hcur].
    intros H. destruct (Ht H) as (E1 & E2 & E3 & E4 & E5 & E6 & _).
    repeat (split; [assumption|]). assumption.
  - intros editing Hed Hn He Ha Hw.
    destruct (updateUser_remote e w editing Hdb Hed Hn He Ha Hw)
      as (current & r & nt & rest & w' & Hrun & Htr & Q & Hsys & Hs & Hnot & Hset & _
          & Hus & Ht & Hcur).
    destruct (service_filters nt Q) as (S1 & S2 & S3 & _).
    exists r, nt, rest, w'.
    split; [exact Hrun|]. split; [exact Htr|]. split; [exact Q|]. split; [exact Hsys|].
    split; [rewrite List.filter_app, S2, Hset; reflexivity|].
    split; [rewrite List.filter_app, S1, Hs; reflexivity|].
    split; [rewrite List.filter_app, S3, Hnot; reflexivity|].
    split; [|intros Hno; rewrite Hus; apply Hcur, Hno].
    intros H. destruct (Ht H) as (E1 & E2 & E3 & E4 & E5 & _).
    repeat (split; [assumption|]). assumption.
  - intros userId Hw.
    destruct (onPressDelete_remote e (app w) w userId Hdb Hdb Hw)
      as (r & tr & w' & Hrun & Htr & Hs & Hset & Hnot & Hfound & Hus & Ht).
    exists r, tr, w'.
    split; [exact Hrun|]. split; [exact Htr|]. split; [exact Hset|]. split; [exact Hs|].
    split; [exact Hnot|]. split; [exact Hfound|]. split; [|exact Hus].
    intros H. destruct (Ht H) as (E1 & E2 & _). split; assumption.
Qed.

Lemma remote_write_then_notifications_witness :
  exists (id : jsstring) (current : list User.t) (r : Res unit)
         (nt rest : list Event) (w' : World),
    fromRender addUser addEchoedEnv (startWorld adaForm readyService) = (r, w') /\
    trace w' =
      addCall adaForm :: Snapshot [ada; grace]
        :: Enter (notifyCRUDOperation_ CREATE
                    (PUser (newUserOf adaForm id ServerTimestamp)) false) :: nt ++ rest /\
    forallb isServiceEvent nt = true /\
    List.filter isEnterSystem nt =
      [Enter (showSystemNotification_ (systemTitle CREATE)
                (systemMessage CREATE (PUser (newUserOf adaForm id ServerTimestamp)))
                success)] /\
    List.filter isSetUsers nt = [] /\
    List.filter isStoreCall (nt ++ rest) = [] /\
    List.filter isEnterNotify (nt ++ rest) = [] /\
    (tame addEchoedEnv ->
     r = Ok tt /\
     List.filter isEnterPush nt =
       [Enter (sendPushNotification_ CREATE
                 (PUser (newUserOf adaForm id ServerTimestamp)))] /\
     List.filter isEnterEmail nt =
       [Enter (sendEmailNotification_ CREATE
                 (PUser (newUserOf adaForm id ServerTimestamp)))] /\
     List.filter isSetUsers rest =
       [SetUsers (newUserOf adaForm id ServerTimestamp :: current)] /\
     List.filter isFailureBanner rest = [] /\
     users (app w') = newUserOf adaForm id ServerTimestamp :: current) /\
    ((forall n, snapshots addEchoedEnv n = []) -> current = [grace]).
Proof.
  destruct (remote_write_then_notifications addEchoedEnv (startWorld adaForm readyService))
    as [Hadd _]; [reflexivity|].
  apply Hadd; vm_compute; reflexivity.
Defined.

(** C5 as the specification words it fails twice. With a store but without
    the messaging transport, addUser writes, shows the system notification
    and updates the list, and neither remote dispatcher is entered at any
    point. And with the listener hearing the new record while the write is
    pending, the visible list is replaced before notifyCRUDOperation is
    entered: the list update precedes every notification attempt. *)
Lemma remote_add_without_messaging :
  (let '(r, w') := fromRender addUser quietEnv adaLocalOnly in
   r = Ok tt /\
   List.filter isStoreCall (trace w') = [addCall adaForm] /\
   length (List.filter isSetUsers (trace w')) = 1%nat /\
   length (List.filter isEnterSystem (trace w')) = 1%nat /\
   List.filter isEnterPush (trace w') = [] /\
   List.filter isEnterEmail (trace w') = [] /\
   List.filter isCallable (trace w') = []) /\
  (let '(r, w') := fromRender addUser addEchoedEnv (startWorld adaForm readyService) in
   r = Ok tt /\
   take 3 (trace w') =
     [addCall adaForm; Snapshot [ada; grace];
      Enter (notifyCRUDOperation_ CREATE (PUser ada) false)] /\
   List.filter isEnterNotify (trace w') =
     [Enter (notifyCRUDOperation_ CREATE (PUser ada) false)] /\
   length (List.filter isEnterSystem (trace w')) = 1%nat /\
   length (List.filter isEnterPush (trace w')) = 1%nat /\
   length (List.filter isEnterEmail (trace w')) = 1%nat).
Proof. vm_compute. repeat split. Qed.

(** ** addUser against the listener *)

(** C3 at the failing run: the form is valid, the store's add returns, and
    while it is pending the listener hears the collection with the new
    record in it and replaces the list. addUser then prepends the record to
    that list: the list that held one record holds three, the new record
    twice. *)
Theorem addUser_remote_duplicate :
  let '(r, w') := fromRender addUser addEchoedEnv (startWorld adaForm readyService) in
  r = Ok tt /\
  users adaForm = [grace] /\
  List.filter isStoreCall (trace w') = [addCall adaForm] /\
  List.filter isListUpdate (trace w') = [Snapshot [ada; grace]; SetUsers [ada; ada; grace]] /\
  users (app w') = [ada; ada; grace] /\
  map User.id (users (app w')) = [js "doc-1"; js "doc-1"; js "doc-0"] /\
  length (users (app w')) = (length (users adaForm) + 2)%nat.
Proof. vm_compute. repeat split. Qed.

(** ** addUser: the list, the form and the banner *)

Lemma notifyTrace_enterNotify e svc n operation userData isLocalAction :
  List.filter isEnterNotify (notifyTrace e svc n operation userData isLocalAction) =
    [Enter (notifyCRUDOperation_ operation userData isLocalAction)].
Proof.
  unfold notifyTrace, systemTrace, pushTrace, emailTrace, fallbackTrace.
  destruct isLocalAction, (messagingAvailable svc),
    (permissionsGranted svc), (android e), (functions e);
    cbn [negb andb Datatypes.app]; repeat case_match; reflexivity.
Qed.

Lemma notifyTrace_local_callables e svc n operation userData :
  List.filter isCallable (notifyTrace e svc n operation userData true) = [].
Proof.
  unfold notifyTrace, systemTrace, pushTrace, emailTrace, fallbackTrace.
  destruct (messagingAvailable svc), (permissionsGranted svc), (android e), (functions e);
    cbn [negb andb Datatypes.app]; repeat case_match; reflexivity.
Qed.

(** addUser without a store, when no notification call throws null or
    undefined. *)
Lemma addUser_local (e : Env) (w : World) :
  db (app w) = false ->
  validateName (name (app w)) = None ->
  validateEmail (email (app w)) = None ->
  validateAge (age (app w)) = None ->
  tame e ->
  exists (newUser : User.t) (tr : list Event) (w' : World),
    fromRender addUser e w = (Ok tt, w') /\
    newUser = newUserOf (app w) (uniqueId e (length (trace w)))
                (ClientDate (now e (length (trace w)))) /\
    trace w' = trace w ++ tr /\
    users (app w') = newUser :: users (app w) /\
    name (app w') = [] /\ email (app w') = [] /\ age (app w') = [] /\
    errors (app w') = ∅ /\
    submitting (app w') = false /\
    List.filter isStoreCall tr = [] /\
    List.filter isCallable tr = [] /\
    List.filter isSetUsers tr = [SetUsers (newUser :: users (app w))] /\
    List.filter isEnterNotify tr = [Enter (notifyCRUDOperation_ CREATE (PUser newUser) true)] /\
    List.filter isBanner tr =
      (if decide (users (app w) = []) then []
       else [Enter (addInAppNotification_ (addedBanner (app w)) info)]) /\
    if decide (users (app w) = [])
    then inAppNotifications (app w') = inAppNotifications (app w)
    else exists banner,
           inAppNotifications (app w') = banner :: take 4 (inAppNotifications (app w)) /\
           Notif.message banner = addedBanner (app w) /\
           Notif.type banner = info.
Proof.
  intros Hdb Hn He Ha Ht. destruct w as [s svc tr0]. cbn [app trace service] in *.
  unfold fromRender, addUser, addedBanner. cbn [app].
  run_step. rewrite (valid_noKeys s Hn He Ha). cbv [negb].
  run_step. rewrite tryFinally_setSubmitting. rewrite Hdb.
  destruct (users s) as [|u us] eqn:Hus.
  all: erewrite tryCatch_ok
         by (repeat run_step; first [apply addInAppNotification_run | reflexivity]).
  all: rewrite !deliver_local by exact Hdb.
  all: unfold extend.
  all: cbn [fst snd app service trace users name email age errors submitting
              inAppNotifications withUsers withSubmitting withName withEmail withAge
              withErrors withInAppNotifications newUserOf].
  all: rewrite ?Hus.
  all: eexists _, _, _; split; [reflexivity|].
  all: split; [reflexivity|].
  all: split; [trace_eq|].
  all: do 6 (split; [reflexivity|]).
  all: filters.
  all: rewrite ?notifyTrace_no_setUsers, ?notifyTrace_no_banner, ?notifyTrace_no_storeCall.
  all: rewrite ?notifyTrace_enterNotify, ?notifyTrace_local_callables.
  - repeat split.
  - repeat split. eexists. repeat split.
Qed.

(** X23: addUser on a valid form, when the write to the store (if there is
    one) returns, the listener hears nothing while the handler runs and no
    notification call throws null or undefined: it returns normally; the
    user list is the constructed record followed by the old list, so one
    longer; the record carries the trimmed fields and the device token;
    name, email, age and the error object are cleared and submitting is
    false; and the run pushes an in-app banner exactly when the rendered
    list was not empty (then one banner, of type info, first in the feed
    ahead of the four newest of before). *)
Theorem addUser_prepends (e : Env) (w : World) :
  validateName (name (app w)) = None ->
  validateEmail (email (app w)) = None ->
  validateAge (age (app w)) = None ->
  (db (app w) = true ->
   throws e (addCall (app w)) (length (trace w)) = None /\
   forall n, snapshots e n = []) ->
  tame e ->
  exists (newUser : User.t) (tr : list Event) (w' : World),
    fromRender addUser e w = (Ok tt, w') /\
    trace w' = trace w ++ tr /\
    users (app w') = newUser :: users (app w) /\
    length (users (app w')) = S (length (users (app w))) /\
    User.name newUser = trim (name (app w)) /\
    User.email newUser = trim (email (app w)) /\
    User.age newUser = trim (age (app w)) /\
    User.fcmToken newUser = Some (fcmToken (app w)) /\
    name (app w') = [] /\ email (app w') = [] /\ age (app w') = [] /\
    errors (app w') = ∅ /\
    submitting (app w') = false /\
    List.filter isSetUsers tr = [SetUsers (newUser :: users (app w))] /\
    List.filter isBanner tr =
      (if decide (users (app w) = []) then []
       else [Enter (addInAppNotification_ (addedBanner (app w)) info)]) /\
    ((exists message type, Enter (addInAppNotification_ message type) ∈ tr)
     <-> users (app w) <> []) /\
    if decide (users (app w) = [])
    then inAppNotifications (app w') = inAppNotifications (app w)
    else exists banner,
           inAppNotifications (app w') = banner :: take 4 (inAppNotifications (app w)) /\
           Notif.message banner = addedBanner (app w) /\
           Notif.type banner = info.
Proof.
  intros Hn He Ha Hstore Ht.
  assert (forall tr, List.filter isBanner tr =
            (if decide (users (app w) = []) then []
             else [Enter (addInAppNotification_ (addedBanner (app w)) info)]) ->
          (exists message type, Enter (addInAppNotification_ message type) ∈ tr)
          <-> users (app w) <> []) as Hiff.
  { intros tr Htr. rewrite banner_in_trace, Htr.
    destruct (decide (users (app w) = [])); split; congruence. }
  destruct (db (app w)) eqn:Hdb.
  - destruct (Hstore eq_refl) as [Hw Hsnap].
    destruct (addUser_remote e w Hdb Hn He Ha Hw)
      as (id & current & r & nt & rest & w' & Hrun & Htr & Q & _ & _ & _ & Hsub & Htame & Hcur).
    destruct (Htame Ht) as (-> & _ & _ & Hset & _ & Hus & Hnm & Hem & Hag & Herr & Hban & Hfeed).
    rewrite (Hcur Hsnap) in *.
    destruct (service_filters nt Q) as (_ & S2 & _ & _ & S5 & _).
    rewrite Hsnap in Htr. cbn [map Datatypes.app] in Htr.
    eexists _, _, w'. split; [exact Hrun|]. split; [exact Htr|].
    split; [exact Hus|]. split; [rewrite Hus; reflexivity|].
    do 4 (split; [reflexivity|]).
    do 5 (split; [assumption|]).
    assert (List.filter isBanner
              (addCall (app w)
               :: Enter (notifyCRUDOperation_ CREATE
                           (PUser (newUserOf (app w) id ServerTimestamp)) false)
               :: nt ++ rest) =
            (if decide (users (app w) = []) then []
             else [Enter (addInAppNotification_ (addedBanner (app w)) info)])) as Hb.
    { unfold addCall. cbn [List.filter isBanner]. rewrite List.filter_app, S5. exact Hban. }
    split.
    { unfold addCall. cbn [List.filter isSetUsers]. rewrite List.filter_app, S2. exact Hset. }
    split; [exact Hb|]. split; [apply Hiff, Hb|].
    exact Hfeed.
  - destruct (addUser_local e w Hdb Hn He Ha Ht)
      as (newUser & tr & w' & Hrun & -> & Htr & Hus & Hnm & Hem & Hag & Herr & Hsub & _ & _
          & Hset & _ & Hban & Hfeed).
    eexists _, tr, w'. split; [exact Hrun|]. split; [exact Htr|].
    split; [exact Hus|]. split; [rewrite Hus; reflexivity|].
    do 4 (split; [reflexivity|]).
    do 5 (split; [assumption|]).
    split; [exact Hset|]. split; [exact Hban|]. split; [apply Hiff, Hban|].
    exact Hfeed.
Qed.

Lemma addUser_prepends_witness :
  exists (newUser : User.t) (tr : list Event) (w' : World),
    fromRender addUser quietEnv (startWorld adaForm readyService) = (Ok tt, w') /\
    newUser = ada /\
    users (app w') = [ada; grace] /\
    name (app w') = [] /\ email (app w') = [] /\ age (app w') = [] /\
    errors (app w') = ∅ /\
    List.filter isSetUsers tr = [SetUsers [ada; grace]] /\
    List.filter isBanner tr = [Enter (addInAppNotification_ (addedBanner adaForm) info)] /\
    map Notif.message (inAppNotifications (app w')) = [addedBanner adaForm].
Proof.
  destruct (addUser_prepends quietEnv (startWorld adaForm readyService))
    as (newUser & tr & w' & Hrun & _ & Hus & _ & _ & _ & _ & _ & Hnm & Hem & Hag & Herr & _
        & Hset & Hban & _ & Hfeed);
    try (vm_compute; reflexivity).
  { intros _. split; [reflexivity|]. intros n. reflexivity. }
  { intros ev n _. discriminate. }
  assert (newUser = ada) as ->.
  { pose proof Hrun as R. vm_compute in R. injection R as R. rewrite <- R in Hus.
    vm_compute in Hus. injection Hus as Hus. symmetry. exact Hus. }
  destruct (decide (users (app (startWorld adaForm readyService)) = [])) as [E|_];
    [discriminate E|].
  destruct Hfeed as (banner & Hf & Hm & _).
  exists ada, tr, w'. rewrite Hf. cbn [map pushFeed take inAppNotifications adaForm startWorld app].
  rewrite Hm.
  repeat split; assumption.
Defined.

(** The scenario of the specification: Ada Lovelace is added to an empty
    list with the store and the messaging transport available. *)
Example addUser_ada_scenario :
  let '(r, w') := fromRender addUser quietEnv (startWorld (withUsers [] adaForm) readyService) in
  r = Ok tt /\
  users (app w') =
    [User.mk (js "doc-1") (js "Ada Lovelace") (js "ada@x.com") (js "36")
       (Some ServerTimestamp) (Some (js "token-A"))] /\
  List.filter isStoreCall (trace w') =
    [DbAdd (js "Ada Lovelace") (js "ada@x.com") (js "36") (js "token-A") ServerTimestamp] /\
  length (List.filter isEnterPush (trace w')) = 1%nat /\
  length (List.filter isEnterEmail (trace w')) = 1%nat /\
  List.filter isBanner (trace w') = [].
Proof. vm_compute. repeat split. Qed.


(** ** The push fan-out handler *)

Lemma collectTokens_filter (docs : list (option jsstring)) (senderToken : option jsstring) :
  Functions.collectTokens docs senderToken =
  filter (fun t => t <> [] /\ senderToken <> Some t) (omap (fun fcmToken => fcmToken) docs).
Proof.
  induction docs as [|[t|] docs IH]; [reflexivity| |exact IH].
  cbn [Functions.collectTokens].
  change (omap (fun fcmToken : option jsstring => fcmToken) (Some t :: docs))
    with (t :: omap (fun fcmToken : option jsstring => fcmToken) docs).
  rewrite filter_cons, IH.
  destruct t as [|c t]; cbn [truthy andb].
  - rewrite decide_False by tauto. reflexivity.
  - destruct (decide (Some (c :: t) = senderToken)) as [E|E].
    + rewrite bool_decide_eq_true_2 by exact E. cbn [negb].
      rewrite decide_False by (intros [_ H]; congruence). reflexivity.
    + rewrite bool_decide_eq_false_2 by exact E. cbn [negb].
      rewrite decide_True by (split; congruence). reflexivity.
Qed.

(** C8, as the code has it: the tokens are the non-empty fcmToken fields
    of the documents, in order, without those equal to senderToken. When the
    read returns and no token remains the handler returns the failure reply
    and sends nothing. When tokens remain and the handler returns, it has sent
    exactly one multicast, to those tokens, and returns the counts of its
    response. It raises an internal error exactly when a step inside it
    throws: the read, or, when tokens remain, building the message or the
    multicast send. It never sends more than one multicast. *)
Theorem sendNotificationToAllUsers_outcomes
    (b : Functions.Backend) (data : Functions.Data) :
  (forall docs,
     Functions.collectTokens docs (Functions.senderToken data) =
     filter (fun t => t <> [] /\ Functions.senderToken data <> Some t)
       (omap (fun fcmToken => fcmToken) docs)) /\
  (forall docs,
     Functions.usersGet b = Ok docs ->
     Functions.collectTokens docs (Functions.senderToken data) = [] ->
     Functions.sendNotificationToAllUsers b data =
       (Functions.Returns (Functions.NoUsers (js "No users to notify")), [])) /\
  (forall docs r,
     Functions.usersGet b = Ok docs ->
     Functions.collectTokens docs (Functions.senderToken data) <> [] ->
     fst (Functions.sendNotificationToAllUsers b data) = Functions.Returns r ->
     exists message successCount failureCount,
       snd (Functions.sendNotificationToAllUsers b data) = [message] /\
       Functions.buildMessage data
         (Functions.collectTokens docs (Functions.senderToken data)) = Ok message /\
       Functions.tokens message =
         Functions.collectTokens docs (Functions.senderToken data) /\
       Functions.sendMulticast b message = Ok (successCount, failureCount) /\
       r = Functions.Sent successCount failureCount) /\
  (fst (Functions.sendNotificationToAllUsers b data) = Functions.internalError <->
   (exists err, Functions.usersGet b = Throw err) \/
   (exists docs,
      Functions.usersGet b = Ok docs /\
      Functions.collectTokens docs (Functions.senderToken data) <> [] /\
      ((exists err,
          Functions.buildMessage data
            (Functions.collectTokens docs (Functions.senderToken data)) = Throw err) \/
       (exists message err,
          Functions.buildMessage data
            (Functions.collectTokens docs (Functions.senderToken data)) = Ok message /\
          Functions.sendMulticast b message = Throw err)))) /\
  (forall code message,
     fst (Functions.sendNotificationToAllUsers b data) = Functions.HttpsError code message ->
     Functions.HttpsError code message = Functions.internalError) /\
  (length (snd (Functions.sendNotificationToAllUsers b data)) <= 1)%nat.
Proof.
  split; [intros docs; apply collectTokens_filter|].
  unfold Functions.sendNotificationToAllUsers.
  destruct (Functions.usersGet b) as [docs|err0] eqn:Hget.
  2: { repeat split; try (intros; discriminate); try (intros; simpl in *; congruence);
       try (simpl; lia). intros _. left. eauto. }
  destruct (Functions.collectTokens docs (Functions.senderToken data)) as [|t ts] eqn:Htok.
  { split; [intros d [= <-] _; reflexivity|].
    split; [intros d r [= <-] H; rewrite Htok in H; contradiction|].
    split.
    { split; [discriminate|]. intros [(err & [=])|(d & [= <-] & H & _)].
      rewrite Htok in H. contradiction. }
    split; [intros; discriminate|simpl; lia]. }
  destruct (Functions.buildMessage data (t :: ts)) as [message|err1] eqn:Hbuild.
  2: { split; [intros d [= <-] H; rewrite Htok in H; discriminate|].
       split; [intros d r [= <-] _ H; discriminate|].
       split.
       { split; [|reflexivity]. intros _. right. exists docs.
         rewrite Htok, Hbuild. split; [reflexivity|]. split; [discriminate|]. left. eauto. }
       split; [intros code msg [= <- <-]; reflexivity|simpl; lia]. }
  assert (Functions.tokens message = t :: ts) as Htokens.
  { unfold Functions.buildMessage in Hbuild. repeat case_match; try discriminate.
    injection Hbuild as <-. reflexivity. }
  destruct (Functions.sendMulticast b message) as [[sc fc]|err2] eqn:Hsend.
  - split; [intros d [= <-] H; rewrite Htok in H; discriminate|].
    split.
    { intros d r [= <-] _ [= <-]. exists message, sc, fc.
      rewrite Htok, Hbuild. repeat split; assumption. }
    split.
    { split; [discriminate|]. intros [(err & [=])|(d & [= <-] & _ & H)].
      rewrite Htok, Hbuild in H. destruct H as [(err & [=])|(m & err & [= <-] & H)].
      rewrite Hsend in H. discriminate. }
    split; [intros; discriminate|simpl; lia].
  - split; [intros d [= <-] H; rewrite Htok in H; discriminate|].
    split; [intros d r [= <-] _ H; discriminate|].
    split.
    { split; [|reflexivity]. intros _. right. exists docs.
      rewrite Htok, Hbuild. split; [reflexivity|]. split; [discriminate|]. right. eauto. }
    split; [intros code msg [= <- <-]; reflexivity|simpl; lia].
Qed.

(** C8 as the specification words it fails: the read of the users
    collection returns two tokens, the sender's is left out, one multicast is
    sent to the other, the send rejects, and the whole call raises the
    internal error although the read did not throw. *)
Lemma sendNotificationToAllUsers_fails_after_read :
  Functions.usersGet Functions.sendFails = Ok [Some (js "token-A"); Some (js "token-G")] /\
  Functions.sendNotificationToAllUsers Functions.sendFails Functions.createdAda =
    (Functions.internalError,
     [Functions.mkMessage (js "New User Added")
        (js "Ada Lovelace has been added to the system") (js "CREATE") (js "doc-1")
        [js "token-G"]]).
Proof. vm_compute. split; reflexivity. Qed.

(** A DELETE request whose payload has no deletedUser also raises. *)
Example sendNotificationToAllUsers_delete_without_snapshot :
  fst (Functions.sendNotificationToAllUsers
         (Functions.mkBackend (Ok [Some (js "token-G")]) (fun _ => Ok (1, 0)))
         (Functions.mkData (js "DELETE")
            (Some (Functions.mkUserData None (Some (js "doc-1")) None)) None))
  = Functions.internalError.
Proof. vm_compute. reflexivity. Qed.

(** ** The feed inside the component state *)

(** Whatever the feed held, it holds at most 5 entries after
    addInAppNotification, and the new banner is first. *)
Lemma addInAppNotification_bounded message type e w :
  exists w' banner,
    addInAppNotification message type e w = (Ok tt, w') /\
    head (inAppNotifications (app w')) = Some banner /\
    Notif.message banner = message /\ Notif.type banner = type /\
    (length (inAppNotifications (app w')) <= 5)%nat.
Proof.
  eexists _, _. split; [apply addInAppNotification_run|].
  cbn [app inAppNotifications withInAppNotifications]. repeat split.
  apply pushFeed_length.
Qed.

Lemma removeInAppNotification_run id e w :
  removeInAppNotification id e w =
    (Ok tt,
     mkWorld (withInAppNotifications (removeFeed id (inAppNotifications (app w))) (app w))
       (service w) (trace w)).
Proof. reflexivity. Qed.

(** C10: removeInAppNotification returns normally and changes the feed of
    the component state and nothing else: no event, no other field. The feed
    it leaves is a sublist of the old feed (so the order of what stays is
    unchanged), namely the entries whose identifier is not [id], all of
    them: every sublist of the old feed free of [id] is a sublist of the new
    one. When no entry carries [id] the world is unchanged, and dismissing
    the same [id] again changes nothing. *)
Theorem removeInAppNotification_removes_exactly (id : jsstring) (e : Env) (w : World) :
  exists w',
    removeInAppNotification id e w = (Ok tt, w') /\
    app w' = withInAppNotifications (inAppNotifications (app w')) (app w) /\
    service w' = service w /\
    trace w' = trace w /\
    inAppNotifications (app w') `sublist_of` inAppNotifications (app w) /\
    (forall n, n ∈ inAppNotifications (app w') <->
               n ∈ inAppNotifications (app w) /\ Notif.id n <> id) /\
    (forall l, l `sublist_of` inAppNotifications (app w) ->
               Forall (fun n => Notif.id n <> id) l ->
               l `sublist_of` inAppNotifications (app w')) /\
    ((forall n, n ∈ inAppNotifications (app w) -> Notif.id n <> id) -> w' = w) /\
    (forall e', removeInAppNotification id e' w' = (Ok tt, w')).
Proof.
  destruct (removeFeed_spec id (inAppNotifications (app w)))
    as (Hsub & Hmem & Hmax & Habs & Hidem).
  eexists. split; [apply removeInAppNotification_run|].
  cbn [app service trace inAppNotifications withInAppNotifications].
  split; [destruct w as [[] ? ?]; reflexivity|].
  split; [reflexivity|]. split; [reflexivity|].
  split; [exact Hsub|]. split; [exact Hmem|]. split; [exact Hmax|].
  split.
  - intros H. rewrite (Habs H), withInAppNotifications_same. destruct w; reflexivity.
  - intros e'. rewrite removeInAppNotification_run.
    cbn [app service trace inAppNotifications withInAppNotifications].
    rewrite Hidem. destruct w as [[] ? ?]; reflexivity.
Qed.

Example removeInAppNotification_keeps_order :
  let '(r, w') :=
    removeInAppNotification (js "b") quietEnv
      (startWorld
         (mkApp [grace] false [] [] [] None ∅
            [Notif.mk (js "a") (js "one") info 1; Notif.mk (js "b") (js "two") warning 2;
             Notif.mk (js "c") (js "three") success 3; Notif.mk (js "b") (js "four") info 4]
            (js "token-A") true)
         readyService) in
  r = Ok tt /\
  inAppNotifications (app w') =
    [Notif.mk (js "a") (js "one") info 1; Notif.mk (js "c") (js "three") success 3] /\
  users (app w') = [grace] /\ trace w' = [].
Proof. vm_compute. repeat split. Qed.

(** The timer of a dismissed banner fires harmlessly. *)
Lemma timerFires_after_dismiss id e w w1 w2 :
  removeInAppNotification id e w = (Ok tt, w1) ->
  timerFires id e w1 = (Ok tt, w2) ->
  inAppNotifications (app w2) = inAppNotifications (app w1).
Proof.
  unfold removeInAppNotification, timerFires, setInAppNotifications, modify.
  intros [= <-] [= <-].
  cbn [app inAppNotifications withInAppNotifications].
  apply removeFeed_absent. intros n Hn.
  unfold removeFeed in Hn. apply list_elem_of_filter in Hn. tauto.
Qed.

Example feed_six_pushes :
  map Notif.message
    (feedAfter (map (fun k => Push (Notif.mk [k] [k] info k)) [1; 2; 3; 4; 5; 6]%N))
  = [[6]; [5]; [4]; [3]; [2]]%N.
Proof. vm_compute. reflexivity. Qed.

(** ** The feed stays bounded under every handler *)

Section Preservation.

Variable P : World -> Prop.

Lemma preserves_ret {A} (a : A) : preserves P (ret a).
Proof. intros e w r w' H [= <- <-]. exact H. Qed.

Lemma preserves_bind {A B} (c : M A) (k : A -> M B) :
  preserves P c -> (forall a, preserves P (k a)) -> preserves P (bind c k).
Proof.
  intros Hc Hk e w r w' H. unfold bind.
  destruct (c e w) as [[a|err] w1] eqn:E.
  - intros Hrun. exact (Hk a e w1 r w' (Hc e w _ w1 H E) Hrun).
  - intros [= <- <-]. exact (Hc e w _ w1 H E).
Qed.

Lemma preserves_tryCatch {A} (body : M A) handler :
  preserves P body -> (forall err, preserves P (handler err)) ->
  preserves P (tryCatch body handler).
Proof.
  intros Hb Hh e w r w' H. unfold tryCatch.
  destruct (body e w) as [[a|err] w1] eqn:E.
  - intros [= <- <-]. exact (Hb e w _ w1 H E).
  - intros Hrun. exact (Hh err e w1 r w' (Hb e w _ w1 H E) Hrun).
Qed.

Lemma preserves_tryFinally {A} (body : M A) fin :
  preserves P body -> preserves P fin -> preserves P (tryFinally body fin).
Proof.
  intros Hb Hf e w r w' H. unfold tryFinally.
  destruct (body e w) as [r1 w1] eqn:E.
  destruct (fin e w1) as [[[]|err] w2] eqn:E2; intros [= <- <-];
    exact (Hf e w1 _ w2 (Hb e w _ w1 H E) E2).
Qed.

Lemma preserves_when b (c : M unit) : preserves P c -> preserves P (when b c).
Proof. intros Hc. destruct b; [exact Hc|apply preserves_ret]. Qed.

Lemma preserves_fromRender {A} (handler : AppState -> M A) :
  (forall cl, preserves P (handler cl)) -> preserves P (fromRender handler).
Proof. intros Hh e w r w' H Hrun. exact (Hh (app w) e w r w' H Hrun). Qed.

End Preservation.

Lemma feedBounded_frame {A} (c : M A) :
  (forall e w r w', c e w = (r, w') ->
     inAppNotifications (app w') = inAppNotifications (app w)) ->
  preserves feedBounded c.
Proof.
  intros Hc e w r w' H Hrun. unfold feedBounded in *. rewrite (Hc e w r w' Hrun). exact H.
Qed.

Lemma feedBounded_emit ev : preserves feedBounded (emit ev).
Proof. apply feedBounded_frame. intros e w r w' [= <- <-]. reflexivity. Qed.

Lemma feedBounded_external ev : preserves feedBounded (external ev).
Proof.
  apply feedBounded_frame. intros e w r w'. unfold external.
  destruct (throws e ev (length (trace w))); intros [= <- <-]; reflexivity.
Qed.

Lemma feedBounded_ask {A} (f : Env -> nat -> A) : preserves feedBounded (ask f).
Proof. apply feedBounded_frame. intros e w r w' [= <- <-]. reflexivity. Qed.

Lemma feedBounded_env {A} (f : Env -> A) : preserves feedBounded (env f).
Proof. apply feedBounded_frame. intros e w r w' [= <- <-]. reflexivity. Qed.

Lemma feedBounded_this {A} (f : NotificationService -> A) : preserves feedBounded (this f).
Proof. apply feedBounded_frame. intros e w r w' [= <- <-]. reflexivity. Qed.

Lemma feedBounded_modify f :
  (forall s, inAppNotifications (f s) = inAppNotifications s) ->
  preserves feedBounded (modify f).
Proof.
  intros Hf. apply feedBounded_frame. intros e w r w' [= <- <-]. apply Hf.
Qed.

Lemma feedBounded_raise {A} error : preserves feedBounded (@raise A error).
Proof. apply feedBounded_frame. intros e w r w' [= <- <-]. reflexivity. Qed.

Lemma feedBounded_logMessage error : preserves feedBounded (logMessage error).
Proof. destruct error; [apply feedBounded_raise|apply preserves_ret]. Qed.

Lemma feedBounded_logError error : preserves feedBounded (logError error).
Proof. apply preserves_ret. Qed.

(** The listener replaces the list and nothing else. *)
Lemma feedBounded_awaiting {A} (c : M A) :
  preserves feedBounded c -> preserves feedBounded (awaiting c).
Proof.
  intros Hc e w r w' H. unfold awaiting.
  destruct (c e w) as [r1 w1] eqn:E. intros [= <- <-].
  unfold feedBounded. rewrite deliver_feed. exact (Hc e w r1 w1 H E).
Qed.

Lemma feedBounded_setUsers f : preserves feedBounded (setUsers f).
Proof. apply feedBounded_frame. intros e w r w' [= <- <-]. reflexivity. Qed.

Lemma feedBounded_push n : preserves feedBounded (setInAppNotifications (pushFeed n)).
Proof. intros e w r w' _ [= <- <-]. apply pushFeed_length. Qed.

Lemma feedBounded_remove id : preserves feedBounded (setInAppNotifications (removeFeed id)).
Proof.
  intros e w r w' H [= <- <-]. unfold feedBounded in *. cbn.
  pose proof (removeFeed_length id (inAppNotifications (app w))). lia.
Qed.

Ltac keeps_feed :=
  repeat first
    [ apply preserves_ret
    | apply preserves_bind; [|intros ?]
    | apply preserves_tryCatch; [|intros ?]
    | apply preserves_tryFinally
    | apply preserves_when
    | apply feedBounded_awaiting
    | apply feedBounded_logMessage
    | apply feedBounded_logError
    | apply feedBounded_raise
    | apply feedBounded_emit
    | apply feedBounded_external
    | apply feedBounded_ask
    | apply feedBounded_env
    | apply feedBounded_this
    | apply feedBounded_setUsers
    | apply feedBounded_push
    | apply feedBounded_remove
    | apply feedBounded_modify; intros ?; reflexivity
    | match goal with
      | |- preserves _ (if ?b then _ else _) => destruct b
      | |- preserves _ (match ?x with _ => _ end) => destruct x
      end ].

Lemma feedBounded_showFallbackNotification title message :
  preserves feedBounded (showFallbackNotification title message).
Proof. unfold showFallbackNotification. keeps_feed. Qed.

Lemma feedBounded_notifyCRUDOperation operation userData isLocalAction :
  preserves feedBounded (notifyCRUDOperation operation userData isLocalAction).
Proof.
  unfold notifyCRUDOperation, showSystemNotification, sendPushNotification,
    sendEmailNotification.
  keeps_feed; apply feedBounded_showFallbackNotification.
Qed.

Lemma feedBounded_addInAppNotification message type :
  preserves feedBounded (addInAppNotification message type).
Proof. unfold addInAppNotification. keeps_feed. Qed.

(** X22: every handler keeps the feed of the component state at 5 entries
    or fewer, however its calls into the platform and the store end. *)
Lemma handlers_keep_feed_bounded :
  preserves feedBounded (fromRender addUser) /\
  preserves feedBounded (fromRender updateUser) /\
  (forall userId, preserves feedBounded (pressDelete userId)) /\
  (forall userId, preserves feedBounded (fromRender (fun cl => deleteUser cl userId))) /\
  (forall id, preserves feedBounded (removeInAppNotification id)) /\
  (forall id, preserves feedBounded (timerFires id)).
Proof.
  split; [|split; [|split; [|split; [|split]]]].
  - apply preserves_fromRender. intros cl.
    unfold addUser, validateForm, validationFailed, setSubmitting, setName, setEmail,
      setAge, setErrors.
    keeps_feed;
      first [ apply feedBounded_notifyCRUDOperation
            | apply feedBounded_showFallbackNotification
            | apply feedBounded_addInAppNotification ].
  - apply preserves_fromRender. intros cl.
    unfold updateUser, validateForm, validationFailed, setSubmitting, setName, setEmail,
      setAge, setErrors, setEditingUser.
    keeps_feed;
      first [ apply feedBounded_notifyCRUDOperation
            | apply feedBounded_showFallbackNotification
            | apply feedBounded_addInAppNotification ].
  - intros userId. unfold pressDelete. apply preserves_fromRender. intros cl.
    unfold onPressDelete.
    keeps_feed;
      first [ apply feedBounded_notifyCRUDOperation
            | apply feedBounded_showFallbackNotification
            | apply feedBounded_addInAppNotification ].
  - intros userId. apply preserves_fromRender. intros cl. unfold deleteUser. keeps_feed.
  - intros id. apply feedBounded_remove.
  - intros id. apply feedBounded_remove.
Qed.

(* ================================================================== *)
(** * Further properties: the rest of the code *)

(** ** The validators *)

(** X1: validateName accepts a name exactly when, trimmed, it has 2 to 50
    code units and each is an ASCII letter or white space; so a digit or a
    symbol anywhere inside is rejected, a name of exactly 50 code units is
    accepted, and white space around the name does not count. *)
Theorem validateName_accepts_exactly (s : jsstring) :
  (validateName s = None <->
   (2 <= length (trim s) <= 50)%nat /\
   Forall (fun c => isLetter c || isWhiteSpace c = true) (trim s)) /\
  (forall c, c ∈ trim s -> isLetter c = false -> isWhiteSpace c = false ->
     exists message, validateName s = Some message).
Proof.
  split; [apply validateName_accepts_iff|].
  intros c Hin Hl Hw. destruct (validateName s) as [m|] eqn:E; [eauto|].
  exfalso. apply validateName_accepts_iff in E as [_ HF].
  rewrite Forall_forall in HF. specialize (HF c Hin). rewrite Hl, Hw in HF. discriminate.
Qed.

(** X2: validateEmail accepts an address exactly when, trimmed, it is a
    non-empty local part, one at sign, and a domain that has a dot with at
    least one character before and after it, with no white space and no
    further at sign anywhere. *)
Theorem validateEmail_accepts_exactly (s : jsstring) :
  validateEmail s = None <->
  exists localPart d1 d2,
    trim s = localPart ++ [64%N] ++ d1 ++ [46%N] ++ d2 /\
    localPart <> [] /\ d1 <> [] /\ d2 <> [] /\
    Forall (fun c => isWhiteSpace c = false /\ c <> 64%N) (localPart ++ d1 ++ d2).
Proof.
  rewrite validateEmail_accepts_iff.
  assert (forall l, Forall (fun c => notSpaceAt c = true) l <->
                    Forall (fun c => isWhiteSpace c = false /\ c <> 64%N) l) as Hcls.
  { intros l. apply Forall_iff. intros c. unfold notSpaceAt.
    rewrite negb_true_iff, orb_false_iff, N.eqb_neq. reflexivity. }
  split; intros (a & b & c & H1 & H2 & H3 & H4 & H5); exists a, b, c;
    repeat split; try assumption; apply Hcls; assumption.
Qed.

(** X3: on a string that, trimmed, is an optional sign and decimal digits,
    validateAge accepts exactly the values from 1 to 120 and rejects every
    other value with the range message. *)
Theorem validateAge_decimal_range (s : jsstring) :
  spec_numeric s = true ->
  (validateAge s = None <-> 1 <= spec_decimalValue s <= 120) /\
  (spec_decimalValue s < 1 \/ 120 < spec_decimalValue s ->
   validateAge s = Some (js "Age must be between 1 and 120")).
Proof.
  intros H. split; [apply validateAge_numeric, H|].
  intros Hout. unfold validateAge.
  destruct (decide (trim s = [])) as [E|E].
  { unfold spec_numeric in H. rewrite E in H. discriminate. }
  rewrite (parseInt_numeric s H).
  destruct (Z.ltb_spec (spec_decimalValue s) 1), (Z.gtb_spec (spec_decimalValue s) 120);
    try reflexivity; lia.
Qed.

Lemma validateAge_decimal_range_witness :
  (validateAge (js " 121 ") = None <-> 1 <= spec_decimalValue (js " 121 ") <= 120) /\
  (spec_decimalValue (js " 121 ") < 1 \/ 120 < spec_decimalValue (js " 121 ") ->
   validateAge (js " 121 ") = Some (js "Age must be between 1 and 120")).
Proof. apply (validateAge_decimal_range (js " 121 ")). vm_compute. reflexivity. Defined.

(** trim is idempotent, so the validators see a stored field as they saw
    the typed one. *)

Lemma trimStart_noLeadingSpace s : noLeadingSpace (trimStart s).
Proof.
  induction s as [|c s IH]; cbn [trimStart]; [exact I|].
  destruct (isWhiteSpace c) eqn:E; [exact IH|exact E].
Qed.

Lemma trimStart_fixed s : noLeadingSpace s -> trimStart s = s.
Proof. destruct s as [|c s]; [reflexivity|]. cbn. intros ->. reflexivity. Qed.

Lemma trimStart_snoc l c :
  trimStart (l ++ [c]) =
  match trimStart l with
  | [] => if isWhiteSpace c then [] else [c]
  | t => t ++ [c]
  end.
Proof.
  induction l as [|x l IH]; cbn [trimStart Datatypes.app]; [reflexivity|].
  destruct (isWhiteSpace x); [exact IH|reflexivity].
Qed.

Lemma trimEnd_cons c s :
  trimEnd (c :: s) =
  match trimEnd s with
  | [] => if isWhiteSpace c then [] else [c]
  | t => c :: t
  end.
Proof.
  unfold trimEnd. cbn [rev]. rewrite trimStart_snoc.
  destruct (trimStart (rev s)) as [|x t] eqn:E; cbn [rev].
  - destruct (isWhiteSpace c); reflexivity.
  - rewrite rev_app_distr. cbn [rev Datatypes.app].
    destruct (rev t ++ [x]) eqn:E2; [destruct (rev t); discriminate|reflexivity].
Qed.

Lemma trimEnd_noLeadingSpace s : noLeadingSpace s -> noLeadingSpace (trimEnd s).
Proof.
  destruct s as [|c s]; [intros _; exact I|]. cbn [noLeadingSpace]. intros Hc.
  rewrite trimEnd_cons. destruct (trimEnd s); [rewrite Hc|]; exact Hc.
Qed.

Lemma trimEnd_idempotent s : trimEnd (trimEnd s) = trimEnd s.
Proof.
  unfold trimEnd. rewrite rev_involutive.
  rewrite (trimStart_fixed _ (trimStart_noLeadingSpace (rev s))). reflexivity.
Qed.

Lemma trim_idempotent s : trim (trim s) = trim s.
Proof.
  unfold trim.
  rewrite (trimStart_fixed (trimEnd (trimStart s))).
  - apply trimEnd_idempotent.
  - apply trimEnd_noLeadingSpace, trimStart_noLeadingSpace.
Qed.

Lemma validators_of_trimmed s :
  validateName (trim s) = validateName s /\
  validateEmail (trim s) = validateEmail s /\
  validateAge (trim s) = validateAge s.
Proof.
  unfold validateName, validateEmail, validateAge. rewrite !trim_idempotent. repeat split.
Qed.

Lemma startEditing_run user e w :
  startEditing user e w =
    (Ok tt,
     mkWorld
       (withInAppNotifications
          (pushFeed
             (bannerOf e (length (trace w)) (pencil ++ js " Editing user: " ++ User.name user)
                info)
             (inAppNotifications (app w)))
          (editingForm user (app w)))
       (service w)
       (trace w ++ [Enter (addInAppNotification_
                             (pencil ++ js " Editing user: " ++ User.name user) info);
                    SetTimeout (uniqueId e (S (length (trace w)))) 5000])).
Proof.
  unfold startEditing. do 5 run_step. rewrite addInAppNotification_run. reflexivity.
Qed.

(** X4: a record addUser builds from a form that passes validation can be
    edited and saved as it is: after startEditing on it, validateForm returns
    true, and the values updateUser would write are the record's own name,
    email and age. *)
Theorem stored_record_revalidates
    (s : AppState) (id : jsstring) (createdAt : Timestamp) (e : Env) (w : World) :
  validateName (name s) = None ->
  validateEmail (email s) = None ->
  validateAge (age s) = None ->
  exists w1 w2,
    startEditing (newUserOf s id createdAt) e w = (Ok tt, w1) /\
    editingUser (app w1) = Some (newUserOf s id createdAt) /\
    fromRender validateForm e w1 = (Ok true, w2) /\
    errors (app w2) = ∅ /\
    updateCall (app w1) (newUserOf s id createdAt) =
      DbUpdate id (User.name (newUserOf s id createdAt))
        (User.email (newUserOf s id createdAt)) (User.age (newUserOf s id createdAt))
        (fcmToken (app w)).
Proof.
  intros Hn He Ha.
  destruct (validators_of_trimmed (name s)) as (Hn' & _ & _).
  destruct (validators_of_trimmed (email s)) as (_ & He' & _).
  destruct (validators_of_trimmed (age s)) as (_ & _ & Ha').
  rewrite Hn in Hn'. rewrite He in He'. rewrite Ha in Ha'.
  eexists _, _. split; [apply startEditing_run|].
  unfold fromRender. rewrite validateForm_run.
  cbn [app editingUser name email age errors withErrors withAge withEmail withName
         withEditingUser withInAppNotifications editingForm newUserOf
         User.name User.email User.age].
  split; [reflexivity|].
  assert (formErrors (trim (name s)) (trim (email s)) (trim (age s)) = ∅) as Hempty.
  { unfold formErrors. rewrite Hn', He', Ha'. reflexivity. }
  rewrite Hempty. split; [reflexivity|]. split; [reflexivity|].
  unfold updateCall.
  cbn [app name email age fcmToken withErrors withAge withEmail withName
         withEditingUser withInAppNotifications editingForm newUserOf
         User.id User.name User.email User.age].
  rewrite !trim_idempotent. reflexivity.
Qed.

Lemma stored_record_revalidates_witness :
  exists w1 w2,
    startEditing (newUserOf adaForm (js "doc-1") ServerTimestamp) quietEnv
      (startWorld adaForm readyService) = (Ok tt, w1) /\
    editingUser (app w1) = Some (newUserOf adaForm (js "doc-1") ServerTimestamp) /\
    fromRender validateForm quietEnv w1 = (Ok true, w2) /\
    errors (app w2) = ∅ /\
    updateCall (app w1) (newUserOf adaForm (js "doc-1") ServerTimestamp) =
      DbUpdate (js "doc-1") (js "Ada Lovelace") (js "ada@x.com") (js "36") (js "token-A").
Proof.
  apply (stored_record_revalidates adaForm (js "doc-1") ServerTimestamp quietEnv
           (startWorld adaForm readyService)); vm_compute; reflexivity.
Defined.

(** ** The notification service *)

(** X5: showFallbackNotification in any environment. It only adds events:
    its entry and then its calls. On Android the toast is the first call;
    elsewhere there is no toast. If the toast throws null or undefined, the
    catch block's read of error.message throws a TypeError out of the method
    and the alert is never shown. In every other case the alert is shown
    exactly once and last, and the method returns normally unless the alert
    throws null or undefined. It makes no store or callable call. When
    neither call throws null or undefined it returns normally with the alert
    shown. *)
Theorem showFallbackNotification_always_alerts (title message : jsstring) (e : Env) (w : World) :
  exists (r : Res unit) (calls : list Event),
    showFallbackNotification title message e w =
      (r, extend w (Enter (showFallbackNotification_ title message) :: calls)) /\
    List.filter isToast calls =
      (if android e then [ToastShow (title ++ js ": " ++ message)] else []) /\
    head calls =
      Some (if android e then ToastShow (title ++ js ": " ++ message)
            else AlertAlert title message []) /\
    List.filter isStoreCall calls = [] /\
    List.filter isCallable calls = [] /\
    (android e = true ->
     throws e (ToastShow (title ++ js ": " ++ message)) (S (length (trace w)))
       = Some nullish ->
     r = Throw TypeError /\ List.filter isAlert calls = []) /\
    ((android e = true ->
      throws e (ToastShow (title ++ js ": " ++ message)) (S (length (trace w)))
        <> Some nullish) ->
     List.filter isAlert calls = [AlertAlert title message []] /\
     last calls = Some (AlertAlert title message []) /\
     r = match throws e (AlertAlert title message [])
                 (length (trace w) + length calls) with
         | Some nullish => Throw TypeError
         | _ => Ok tt
         end) /\
    (fallbackTame e ->
     r = Ok tt /\
     List.filter isAlert calls = [AlertAlert title message []] /\
     last calls = Some (AlertAlert title message [])).
Proof.
  eexists _, _. split; [apply showFallbackNotification_any|].
  unfold fallbackCalls, fallbackResult, caught, fallbackTame, neverNullish.
  assert (forall n, (forall ev k, isFallbackCall ev = true -> throws e ev k <> Some nullish) ->
            match throws e (AlertAlert title message []) n with
            | Some nullish => Throw TypeError
            | _ => Ok tt
            end = Ok tt) as Halert.
  { intros n H. destruct (throws e (AlertAlert _ _ _) n) as [[|m']|] eqn:Ea;
      [exfalso; revert Ea; apply H; reflexivity|reflexivity|reflexivity]. }
  destruct (android e).
  - destruct (throws e (ToastShow _) _) as [[|m]|] eqn:Et;
      cbn [List.filter isToast isAlert isStoreCall isCallable head last Datatypes.length];
      rewrite ?Nat.add_succ_r, ?Nat.add_0_r;
      repeat match goal with |- _ /\ _ => split end;
      try reflexivity; try (intros; discriminate).
    all: try (intros _ _; split; reflexivity).
    all: try (intros _; repeat split; fail).
    all: try (intros H; rewrite (Halert _ H); repeat split; fail).
    all: try (intros H; exfalso; apply H; reflexivity).
    all: try (intros H; exfalso; revert Et; apply H; reflexivity).
  - cbn [List.filter isToast isAlert isStoreCall isCallable head last Datatypes.length].
    rewrite Nat.add_1_r.
    repeat match goal with |- _ /\ _ => split end;
      try reflexivity; try (intros; discriminate).
    + intros _. repeat split.
    + intros H. rewrite (Halert _ H). repeat split.
Qed.

Lemma fallbackCalls_filters e n title message :
  List.filter isDisplay (fallbackCalls e n title message) = [] /\
  List.filter isVibrate (fallbackCalls e n title message) = [] /\
  List.filter isEnterFallback (fallbackCalls e n title message) = [].
Proof.
  pose proof (fallbackCalls_kind e n title message) as H.
  repeat split; apply (filter_disjoint _ isFallbackCall); try exact H;
    intros [| | | | | | | | | | |]; try reflexivity; discriminate.
Qed.

(** X6: showSystemNotification in any environment. It throws only out of
    the fallback: when the fallback is not entered it returns normally, and
    it returns normally whenever no call throws null or undefined. Without
    the permission it displays nothing and does not vibrate: it goes straight
    to the fallback. With the permission it vibrates exactly on Android. If
    that vibration throws null or undefined, the inner catch throws, the
    display is never called and the fallback is entered. Otherwise it calls
    displayNotification exactly once, with the colour of the type, after the
    vibration, and it enters the fallback exactly when that display call
    throws. *)
Theorem showSystemNotification_paths
    (title message : jsstring) (type : Severity) (e : Env) (w : World) :
  exists (r : Res unit) (tr : list Event),
    showSystemNotification title message type e w = (r, extend w tr) /\
    (List.filter isEnterFallback tr = [] -> r = Ok tt) /\
    (tame e -> r = Ok tt) /\
    (permissionsGranted (service w) = false ->
     List.filter isDisplay tr = [] /\
     List.filter isVibrate tr = [] /\
     List.filter isEnterFallback tr = [Enter (showFallbackNotification_ title message)]) /\
    (permissionsGranted (service w) = true ->
     List.filter isVibrate tr = (if android e then [Vibrate (vibrationMs type)] else []) /\
     (android e = true ->
      throws e (Vibrate (vibrationMs type)) (S (length (trace w))) = Some nullish ->
      List.filter isDisplay tr = [] /\
      List.filter isEnterFallback tr = [Enter (showFallbackNotification_ title message)]) /\
     ((android e = true ->
       throws e (Vibrate (vibrationMs type)) (S (length (trace w))) <> Some nullish) ->
      exists before after,
        tr = before ++ DisplayNotification title message (notificationColor type) :: after /\
        List.filter isDisplay before = [] /\
        List.filter isDisplay after = [] /\
        List.filter isVibrate after = [] /\
        List.filter isEnterFallback tr =
          (match throws e (DisplayNotification title message (notificationColor type))
                   (length (trace w) + length before) with
           | Some _ => [Enter (showFallbackNotification_ title message)]
           | None => []
           end))).
Proof.
  unfold showSystemNotification.
  erewrite bind_ok by reflexivity. erewrite bind_ok by reflexivity.
  rewrite log_extend.
  change (service (extend w [Enter (showSystemNotification_ title message type)]))
    with (service w).
  assert (forall w1 : World,
            exists r calls,
              showFallbackNotification title message e w1 =
                (r, extend w1 (Enter (showFallbackNotification_ title message) :: calls)) /\
              List.filter isDisplay calls = [] /\
              List.filter isVibrate calls = [] /\
              List.filter isEnterFallback calls = [] /\
              (tame e -> r = Ok tt)) as Hfb.
  { intros w1. eexists _, _. split; [apply showFallbackNotification_any|].
    destruct (fallbackCalls_filters e (length (trace w1)) title message) as (F1 & F2 & F3).
    repeat (split; [assumption|]).
    intros H. apply fallback_tame, tame_fallbackTame, H. }
  set (w0 := extend w [Enter (showSystemNotification_ title message type)]).
  assert (length (trace w0) = S (length (trace w))) as Hlen.
  { unfold w0. rewrite length_extend. cbn [Datatypes.length]. lia. }
  destruct (permissionsGranted (service w)); cbv [negb].
  - destruct (android e) eqn:Ha.
    + assert (tryCatch (external (Vibrate (vibrationMs type))) logMessage e w0 =
                (caught e (Vibrate (vibrationMs type)) (S (length (trace w))),
                 extend w0 [Vibrate (vibrationMs type)])) as Hvib.
      { rewrite guarded_external, Hlen. reflexivity. }
      unfold caught in Hvib.
      destruct (throws e (Vibrate (vibrationMs type)) (S (length (trace w))))
        as [[|m]|] eqn:Ev.
      * erewrite tryCatch_throw
          by (erewrite bind_ok by reflexivity; cbv beta; rewrite Ha; cbv [when];
              erewrite bind_throw by exact Hvib; reflexivity).
        unfold logError. erewrite bind_ok by reflexivity.
        destruct (Hfb (extend w0 [Vibrate (vibrationMs type)]))
          as (r & calls & E & F1 & F2 & F3 & Ht).
        rewrite E. unfold w0. rewrite !extend_extend.
        eexists _, _. split; [reflexivity|].
        cbn [Datatypes.app List.filter isEnterFallback isDisplay isVibrate].
        rewrite F1, F2, F3.
        split; [discriminate|]. split; [exact Ht|]. split; [discriminate|].
        intros _. split; [reflexivity|].
        split; [intros _ _; split; reflexivity|].
        intros H. exfalso. apply H; reflexivity.
      * set (w1 := extend w0 [Vibrate (vibrationMs type)]) in *.
        assert (length (trace w1) = (length (trace w) + 2)%nat) as Hlen1.
        { unfold w1. rewrite length_extend, Hlen. cbn [Datatypes.length]. lia. }
        destruct (throws e (DisplayNotification title message (notificationColor type))
                    (length (trace w) + 2)) as [err|] eqn:Ed.
        -- erewrite tryCatch_throw
             by (erewrite bind_ok by reflexivity; cbv beta; rewrite Ha; cbv [when];
                 erewrite bind_ok by exact Hvib;
                 apply external_throw; rewrite Hlen1; exact Ed).
           unfold logError. erewrite bind_ok by reflexivity.
           destruct (Hfb (extend w1 [DisplayNotification title message (notificationColor type)]))
             as (r & calls & E & F1 & F2 & F3 & Ht).
           rewrite E. unfold w1, w0. rewrite !extend_extend.
           eexists _, _. split; [reflexivity|].
           cbn [Datatypes.app List.filter isEnterFallback isDisplay isVibrate].
           rewrite F1, F2, F3.
           split; [discriminate|]. split; [exact Ht|]. split; [discriminate|].
           intros _. split; [reflexivity|].
           split; [intros _ [=]|].
           intros _.
           exists [Enter (showSystemNotification_ title message type);
                   Vibrate (vibrationMs type)].
           eexists. split; [reflexivity|].
           cbn [Datatypes.app List.filter isEnterFallback isDisplay isVibrate
                  Datatypes.length].
           rewrite F1, F2, Ed. repeat split.
        -- erewrite tryCatch_ok
             by (erewrite bind_ok by reflexivity; cbv beta; rewrite Ha; cbv [when];
                 erewrite bind_ok by exact Hvib;
                 apply external_ok; rewrite Hlen1; exact Ed).
           unfold w1, w0. rewrite !extend_extend.
           eexists _, _. split; [reflexivity|].
           cbn [Datatypes.app List.filter isEnterFallback isDisplay isVibrate].
           split; [reflexivity|]. split; [reflexivity|]. split; [discriminate|].
           intros _. split; [reflexivity|].
           split; [intros _ [=]|].
           intros _.
           exists [Enter (showSystemNotification_ title message type);
                   Vibrate (vibrationMs type)].
           eexists. split; [reflexivity|].
           cbn [Datatypes.app List.filter isEnterFallback isDisplay isVibrate
                  Datatypes.length].
           rewrite Ed. repeat split.
      * set (w1 := extend w0 [Vibrate (vibrationMs type)]) in *.
        assert (length (trace w1) = (length (trace w) + 2)%nat) as Hlen1.
        { unfold w1. rewrite length_extend, Hlen. cbn [Datatypes.length]. lia. }
        destruct (throws e (DisplayNotification title message (notificationColor type))
                    (length (trace w) + 2)) as [err|] eqn:Ed.
        -- erewrite tryCatch_throw
             by (erewrite bind_ok by reflexivity; cbv beta; rewrite Ha; cbv [when];
                 erewrite bind_ok by exact Hvib;
                 apply external_throw; rewrite Hlen1; exact Ed).
           unfold logError. erewrite bind_ok by reflexivity.
           destruct (Hfb (extend w1 [DisplayNotification title message (notificationColor type)]))
             as (r & calls & E & F1 & F2 & F3 & Ht).
           rewrite E. unfold w1, w0. rewrite !extend_extend.
           eexists _, _. split; [reflexivity|].
           cbn [Datatypes.app List.filter isEnterFallback isDisplay isVibrate].
           rewrite F1, F2, F3.
           split; [discriminate|]. split; [exact Ht|]. split; [discriminate|].
           intros _. split; [reflexivity|].
           split; [intros _ [=]|].
           intros _.
           exists [Enter (showSystemNotification_ title message type);
                   Vibrate (vibrationMs type)].
           eexists. split; [reflexivity|].
           cbn [Datatypes.app List.filter isEnterFallback isDisplay isVibrate
                  Datatypes.length].
           rewrite F1, F2, Ed. repeat split.
        -- erewrite tryCatch_ok
             by (erewrite bind_ok by reflexivity; cbv beta; rewrite Ha; cbv [when];
                 erewrite bind_ok by exact Hvib;
                 apply external_ok; rewrite Hlen1; exact Ed).
           unfold w1, w0. rewrite !extend_extend.
           eexists _, _. split; [reflexivity|].
           cbn [Datatypes.app List.filter isEnterFallback isDisplay isVibrate].
           split; [reflexivity|]. split; [reflexivity|]. split; [discriminate|].
           intros _. split; [reflexivity|].
           split; [intros _ [=]|].
           intros _.
           exists [Enter (showSystemNotification_ title message type);
                   Vibrate (vibrationMs type)].
           eexists. split; [reflexivity|].
           cbn [Datatypes.app List.filter isEnterFallback isDisplay isVibrate
                  Datatypes.length].
           rewrite Ed. repeat split.
    + assert (length (trace w0) = (length (trace w) + 1)%nat) as Hlen1.
      { rewrite Hlen. lia. }
      destruct (throws e (DisplayNotification title message (notificationColor type))
                  (length (trace w) + 1)) as [err|] eqn:Ed.
      * erewrite tryCatch_throw
          by (erewrite bind_ok by reflexivity; cbv beta; rewrite Ha; cbv [when];
              erewrite bind_ok by reflexivity;
              apply external_throw; rewrite Hlen1; exact Ed).
        unfold logError. erewrite bind_ok by reflexivity.
        destruct (Hfb (extend w0 [DisplayNotification title message (notificationColor type)]))
          as (r & calls & E & F1 & F2 & F3 & Ht).
        rewrite E. unfold w0. rewrite !extend_extend.
        eexists _, _. split; [reflexivity|].
        cbn [Datatypes.app List.filter isEnterFallback isDisplay isVibrate].
        rewrite F1, F2, F3.
        split; [discriminate|]. split; [exact Ht|]. split; [discriminate|].
        intros _. split; [reflexivity|].
        split; [intros [=]|].
        intros _.
        exists [Enter (showSystemNotification_ title message type)].
        eexists. split; [reflexivity|].
        cbn [Datatypes.app List.filter isEnterFallback isDisplay isVibrate
               Datatypes.length].
        rewrite F1, F2, Ed. repeat split.
      * erewrite tryCatch_ok
          by (erewrite bind_ok by reflexivity; cbv beta; rewrite Ha; cbv [when];
              erewrite bind_ok by reflexivity;
              apply external_ok; rewrite Hlen1; exact Ed).
        unfold w0. rewrite !extend_extend.
        eexists _, _. split; [reflexivity|].
        cbn [Datatypes.app List.filter isEnterFallback isDisplay isVibrate].
        split; [reflexivity|]. split; [reflexivity|]. split; [discriminate|].
        intros _. split; [reflexivity|].
        split; [intros [=]|].
        intros _.
        exists [Enter (showSystemNotification_ title message type)].
        eexists. split; [reflexivity|].
        cbn [Datatypes.app List.filter isEnterFallback isDisplay isVibrate
               Datatypes.length].
        rewrite Ed. repeat split.
  - destruct (Hfb w0) as (r & calls & E & F1 & F2 & F3 & Ht).
    rewrite E. unfold w0. rewrite !extend_extend.
    eexists _, _. split; [reflexivity|].
    cbn [Datatypes.app List.filter isEnterFallback isDisplay isVibrate].
    rewrite F1, F2, F3.
    split; [discriminate|]. split; [exact Ht|].
    split; [intros _; repeat split|discriminate].
Qed.

(** X7: the two dispatchers in any environment. The push dispatcher calls
    its function exactly when the functions module is loaded and
    messagingAvailable is true; the email dispatcher calls its function
    whenever the functions module is loaded, also without the messaging
    transport. Each returns normally or throws a TypeError, and it throws
    exactly when its call was made and rejected with null or undefined (the
    catch block reads error.message). *)
Theorem remote_dispatchers_guards (action : Operation) (userData : Payload) (e : Env) (w : World) :
  (exists (r : Res unit) (tr : list Event),
     sendPushNotification action userData e w = (r, extend w tr) /\
     List.filter isCallable tr =
       (if functions e && messagingAvailable (service w)
        then [HttpsCallable (js "sendNotificationToAllUsers") action userData] else []) /\
     (r = Ok tt \/ r = Throw TypeError) /\
     (r = Throw TypeError <->
      functions e && messagingAvailable (service w) = true /\
      throws e (HttpsCallable (js "sendNotificationToAllUsers") action userData)
        (S (length (trace w))) = Some nullish)) /\
  (exists (r : Res unit) (tr : list Event),
     sendEmailNotification action userData e w = (r, extend w tr) /\
     List.filter isCallable tr =
       (if functions e
        then [HttpsCallable (js "sendEmailNotification") action userData] else []) /\
     (r = Ok tt \/ r = Throw TypeError) /\
     (r = Throw TypeError <->
      functions e = true /\
      throws e (HttpsCallable (js "sendEmailNotification") action userData)
        (S (length (trace w))) = Some nullish)).
Proof.
  split; eexists _, _.
  - split; [apply sendPushNotification_any|]. unfold pushTrace, pushResult, caught.
    destruct (functions e), (messagingAvailable (service w)); cbn [andb];
      try destruct (throws e _ _) as [[|m]|];
      repeat match goal with |- _ /\ _ => split end;
      first [ reflexivity | left; reflexivity | right; reflexivity
            | split;
              [ first [discriminate | intros _; split; reflexivity]
              | first [intros [? ?]; discriminate | intros _; reflexivity] ] ].
  - split; [apply sendEmailNotification_any|]. unfold emailTrace, emailResult, caught.
    destruct (functions e);
      try destruct (throws e _ _) as [[|m]|];
      repeat match goal with |- _ /\ _ => split end;
      first [ reflexivity | left; reflexivity | right; reflexivity
            | split;
              [ first [discriminate | intros _; split; reflexivity]
              | first [intros [? ?]; discriminate | intros _; reflexivity] ] ].
Qed.

(** X8: the callable functions notifyCRUDOperation reaches are the push
    function and then the email function. In any environment none is called
    unless isLocalAction is false, messagingAvailable is true and the
    functions module is loaded, and then the push function alone or the push
    function followed by the email function. When no call throws null or
    undefined the method returns normally and the calls are both or neither:
    both exactly when isLocalAction is false, messagingAvailable is true and
    the functions module is loaded. permissionsGranted plays no part, so they
    are also called when getStatus reports canSendPushNotifications as
    false. *)
Theorem notifyCRUDOperation_remote_calls_exact
    (operation : Operation) (userData : Payload) (isLocalAction : bool) (e : Env) (w : World) :
  (exists (r : Res unit) (tr : list Event),
     notifyCRUDOperation operation userData isLocalAction e w = (r, extend w tr) /\
     (List.filter isCallable tr = [] \/
      negb isLocalAction && messagingAvailable (service w) && functions e = true /\
      (List.filter isCallable tr =
         [HttpsCallable (js "sendNotificationToAllUsers") operation userData] \/
       List.filter isCallable tr =
         [HttpsCallable (js "sendNotificationToAllUsers") operation userData;
          HttpsCallable (js "sendEmailNotification") operation userData])) /\
     (tame e ->
      r = Ok tt /\
      List.filter isCallable tr =
        (if negb isLocalAction && messagingAvailable (service w) && functions e
         then [HttpsCallable (js "sendNotificationToAllUsers") operation userData;
               HttpsCallable (js "sendEmailNotification") operation userData]
         else []))) /\
  (Init.canSendPushNotifications (Init.getStatus (service w)) =
     permissionsGranted (service w) && messagingAvailable (service w)).
Proof.
  split; [|reflexivity].
  destruct (notifyCRUDOperation_any operation userData isLocalAction e w)
    as (r & t1 & rest & E & Q1 & Hrest & Hok).
  destruct (gateway_no_entries t1 Q1) as (_ & _ & _ & G).
  eexists r, _. split; [exact E|].
  split.
  - cbn [List.filter isCallable]. rewrite List.filter_app, G. cbn [Datatypes.app].
    destruct Hrest as [->|[Hg [->| ->]]]; [left; reflexivity| |];
      rewrite Hg; unfold pushTrace, emailTrace;
      apply andb_true_iff in Hg as [_ ->]; rewrite andb_true_r;
      destruct (functions e); cbn; auto.
  - intros H. pose proof (notifyCRUDOperation_run operation userData isLocalAction e w H) as R.
    rewrite E in R. injection R as -> R. apply app_inv_head in R. rewrite R.
    split; [reflexivity|]. apply notifyCRUDOperation_remote_calls.
Qed.

Lemma appends_saysDeleted userId deletedUser isLocalAction :
  appends saysDeleted (notifyCRUDOperation DELETE (PDelete userId deletedUser) isLocalAction).
Proof.
  unfold notifyCRUDOperation, showSystemNotification, sendPushNotification,
    sendEmailNotification, showFallbackNotification.
  change (systemMessage DELETE (PDelete userId deletedUser)) with deletedMessage.
  change (systemTitle DELETE) with (js "User Deleted").
  appends_only.
Qed.

(** The service of a device that denied the permission but has the
    messaging transport: the status says no push can be sent, and the remote
    functions are called all the same. *)
Example remote_calls_without_permission :
  let svc := mkService true false true in
  Init.canSendPushNotifications (Init.getStatus svc) = false /\
  List.filter isCallable
    (trace (snd (notifyCRUDOperation CREATE (PUser grace) false quietEnv
                   (startWorld adaForm svc)))) =
    [HttpsCallable (js "sendNotificationToAllUsers") CREATE (PUser grace);
     HttpsCallable (js "sendEmailNotification") CREATE (PUser grace)].
Proof. vm_compute. split; reflexivity. Qed.

(** X9: the system notification of a delete never names the deleted user.
    The payload of a delete has no name of its own (the name is inside
    deletedUser), so in any environment every display, alert and toast reads
    User "undefined" has been removed from the system, whoever is deleted;
    the method returns normally when no call throws null or undefined. *)
Theorem delete_notification_names_undefined
    (userId : jsstring) (deletedUser : User.t) (isLocalAction : bool) (e : Env) (w : World) :
  exists (r : Res unit) (tr : list Event),
    notifyCRUDOperation DELETE (PDelete userId deletedUser) isLocalAction e w
      = (r, extend w tr) /\
    List.filter isEnterSystem tr =
      [Enter (showSystemNotification_ (js "User Deleted") deletedMessage success)] /\
    Forall (fun ev =>
              match ev with
              | DisplayNotification _ body _ => body = deletedMessage
              | AlertAlert _ body _ => body = deletedMessage
              | ToastShow text => text = js "User Deleted: " ++ deletedMessage
              | _ => True
              end) tr /\
    (tame e -> r = Ok tt).
Proof.
  destruct (appends_saysDeleted userId deletedUser isLocalAction e w) as (r & tr & E & Q).
  exists r, tr. split; [exact E|].
  split.
  { destruct (notifyCRUDOperation_dispatch_any DELETE (PDelete userId deletedUser)
                isLocalAction e w) as (r' & tr' & E' & Hsys).
    rewrite E in E'. injection E' as _ E'. apply app_inv_head in E'. subst tr.
    cbn [List.filter isEnterSystem]. exact Hsys. }
  split.
  { apply Forall_forall. intros ev Hin.
    rewrite forallb_forall in Q. specialize (Q ev (proj1 (list_elem_of_In _ _) Hin)).
    destruct ev; try exact I; cbn [saysDeleted] in Q;
      apply bool_decide_eq_true in Q; exact Q. }
  intros H. pose proof (notifyCRUDOperation_run DELETE (PDelete userId deletedUser)
                          isLocalAction e w H) as R.
  rewrite E in R. injection R as -> _. reflexivity.
Qed.

(** ** Handlers: what they never do *)

Section NeverThrows.

Variable e : Env.

Lemma neverThrows_ret {A} (a : A) : neverThrows e (ret a).
Proof. intros w. eexists _, _. reflexivity. Qed.

Lemma neverThrows_bind {A B} (c : M A) (k : A -> M B) :
  neverThrows e c -> (forall a, neverThrows e (k a)) -> neverThrows e (bind c k).
Proof.
  intros Hc Hk w. destruct (Hc w) as (a & w1 & E).
  destruct (Hk a w1) as (b & w2 & E2). exists b, w2.
  unfold bind. rewrite E. exact E2.
Qed.

Lemma neverThrows_tryCatch {A} (body : M A) handler :
  (forall err, neverThrows e (handler err)) -> neverThrows e (tryCatch body handler).
Proof.
  intros Hh w. unfold tryCatch. destruct (body e w) as [[a|err] w1].
  - eexists _, _. reflexivity.
  - apply Hh.
Qed.

Lemma neverThrows_tryFinally {A} (body : M A) fin :
  neverThrows e body -> neverThrows e fin -> neverThrows e (tryFinally body fin).
Proof.
  intros Hb Hf w. destruct (Hb w) as (a & w1 & E).
  destruct (Hf w1) as ([] & w2 & E2). exists a, w2.
  unfold tryFinally. rewrite E, E2. reflexivity.
Qed.

Hypothesis Htame : fallbackTame e.

Lemma neverThrows_showFallbackNotification title message :
  neverThrows e (showFallbackNotification title message).
Proof. intros w. eexists _, _. apply showFallbackNotification_run, Htame. Qed.

Lemma neverThrows_addInAppNotification message type :
  neverThrows e (addInAppNotification message type).
Proof. intros w. eexists _, _. apply addInAppNotification_run. Qed.

Lemma neverThrows_failure title message banner :
  neverThrows e
    (showFallbackNotification title message ;; addInAppNotification banner warning).
Proof.
  apply neverThrows_bind; [apply neverThrows_showFallbackNotification|].
  intros _. apply neverThrows_addInAppNotification.
Qed.

Lemma neverThrows_caught title message banner error :
  neverThrows e
    (logError error ;; showFallbackNotification title message ;;
     addInAppNotification banner warning).
Proof.
  apply neverThrows_bind; [apply neverThrows_ret|]. intros _. apply neverThrows_failure.
Qed.

End NeverThrows.

(** X10: when neither a toast nor an alert throws null or undefined,
    addUser, updateUser and the Delete button of the confirmation return
    normally from every state, whatever the store, the callable functions,
    the vibration and the display do (also when they throw null or
    undefined): every failure ends in the handler's own catch, which logs the
    error itself and then shows the fallback. *)
Theorem handlers_never_throw (e : Env) (w : World) :
  fallbackTame e ->
  (exists w', fromRender addUser e w = (Ok tt, w')) /\
  (exists w', fromRender updateUser e w = (Ok tt, w')) /\
  (forall userId, exists w', pressDelete userId e w = (Ok tt, w')).
Proof.
  intros Htame.
  assert (forall (c : M unit), neverThrows e c -> exists w', c e w = (Ok tt, w')) as Hrun.
  { intros c Hc. destruct (Hc w) as ([] & w' & E). exists w'. exact E. }
  split; [|split].
  - apply Hrun. intros w0. unfold fromRender. generalize (app w0) as cl. intros cl.
    revert w0. change (neverThrows e (addUser cl)). unfold addUser.
    apply neverThrows_bind; [intros w0; eexists _, _; apply validateForm_run|].
    intros valid. destruct (negb valid).
    + apply neverThrows_failure, Htame.
    + apply neverThrows_bind; [intros w0; eexists _, _; reflexivity|]. intros _.
      apply neverThrows_tryFinally; [|intros w0; eexists _, _; reflexivity].
      apply neverThrows_tryCatch. intros err. apply neverThrows_caught, Htame.
  - apply Hrun. intros w0. unfold fromRender. generalize (app w0) as cl. intros cl.
    revert w0. change (neverThrows e (updateUser cl)). unfold updateUser.
    destruct (editingUser cl); [|apply neverThrows_ret].
    apply neverThrows_bind; [intros w0; eexists _, _; apply validateForm_run|].
    intros valid. destruct (negb valid).
    + apply neverThrows_failure, Htame.
    + apply neverThrows_bind; [intros w0; eexists _, _; reflexivity|]. intros _.
      apply neverThrows_tryFinally; [|intros w0; eexists _, _; reflexivity].
      apply neverThrows_tryCatch. intros err. apply neverThrows_caught, Htame.
  - intros userId. apply Hrun. intros w0. unfold pressDelete, fromRender.
    generalize (app w0) as cl. intros cl.
    revert w0. change (neverThrows e (onPressDelete cl userId)). unfold onPressDelete.
    apply neverThrows_tryCatch. intros err. apply neverThrows_caught, Htame.
Qed.

Lemma handlers_never_throw_witness :
  (exists w', fromRender addUser everythingFailsEnv (startWorld adaForm readyService)
              = (Ok tt, w')) /\
  (exists w', fromRender updateUser everythingFailsEnv (startWorld adaForm readyService)
              = (Ok tt, w')) /\
  (forall userId, exists w',
     pressDelete userId everythingFailsEnv (startWorld adaForm readyService) = (Ok tt, w')).
Proof.
  apply (handlers_never_throw everythingFailsEnv (startWorld adaForm readyService)).
  intros ev n _. discriminate.
Defined.

(** The proviso is needed: on an invalid form addUser shows the fallback
    outside any try, so a toast that throws null makes addUser itself throw,
    before the alert and before the banner. *)
Example addUser_throws_on_null_toast :
  let '(r, w') := fromRender addUser nullToastEnv (startWorld badForm readyService) in
  r = Throw TypeError /\
  List.filter isAlert (trace w') = [] /\
  inAppNotifications (app w') = [].
Proof. vm_compute. repeat split. Qed.

(** A callable function that rejects with null makes the dispatcher's own
    catch throw; addUser's catch takes it for a failed add: the record is
    stored, the list is not updated, the form is kept and the alert Failed
    to add user is shown. *)
Example addUser_null_rejection_reported_as_failure :
  let '(r, w') := fromRender addUser nullCallableEnv (startWorld adaForm readyService) in
  r = Ok tt /\
  List.filter isStoreCall (trace w') = [addCall adaForm] /\
  List.filter isSetUsers (trace w') = [] /\
  users (app w') = [grace] /\
  name (app w') = js "Ada Lovelace" /\
  List.filter isAlert (trace w') = [AlertAlert (js "Error") addFailedMessage []].
Proof. vm_compute. repeat split. Qed.

Lemma offline_showFallbackNotification title message :
  emitsOnly offline (showFallbackNotification title message).
Proof. unfold showFallbackNotification. emits_only. Qed.

Lemma offline_addInAppNotification message type :
  emitsOnly offline (addInAppNotification message type).
Proof. unfold addInAppNotification. emits_only. Qed.

Lemma offline_notifyCRUDOperation operation userData :
  emitsOnly offline (notifyCRUDOperation operation userData true).
Proof.
  unfold notifyCRUDOperation, showSystemNotification. cbn [negb andb].
  emits_only; apply offline_showFallbackNotification.
Qed.

Lemma offline_filters tr :
  forallb offline tr = true ->
  List.filter isStoreCall tr = [] /\ List.filter isCallable tr = [].
Proof.
  intros H. split; apply (filter_disjoint _ offline); try exact H.
  - intros ev. unfold offline. destruct (isStoreCall ev); [discriminate|reflexivity].
  - intros ev. unfold offline.
    destruct (isStoreCall ev), (isCallable ev); try discriminate; reflexivity.
Qed.

(** X11: without a store the handlers stay on the device. A run of
    addUser, of updateUser or of the Delete button from a render whose db is
    null makes no call of the store and no call of a callable function,
    whether validation passes or not and whatever the platform calls do. *)
Theorem local_mode_stays_local (e : Env) (w : World) :
  db (app w) = false ->
  (exists tr, trace (snd (fromRender addUser e w)) = trace w ++ tr /\
              List.filter isStoreCall tr = [] /\ List.filter isCallable tr = []) /\
  (exists tr, trace (snd (fromRender updateUser e w)) = trace w ++ tr /\
              List.filter isStoreCall tr = [] /\ List.filter isCallable tr = []) /\
  (forall userId,
   exists tr, trace (snd (pressDelete userId e w)) = trace w ++ tr /\
              List.filter isStoreCall tr = [] /\ List.filter isCallable tr = []).
Proof.
  intros Hdb.
  assert (forall (c : M unit), emitsOnly offline c ->
            exists tr, trace (snd (c e w)) = trace w ++ tr /\
                       List.filter isStoreCall tr = [] /\ List.filter isCallable tr = [])
    as Hrun.
  { intros c Hc. destruct (Hc e w) as (tr & E & Hq). exists tr.
    split; [exact E|]. apply offline_filters, Hq. }
  unfold pressDelete, fromRender. revert Hdb. generalize (app w) as cl. intros cl Hdb.
  split; [|split; [|intros userId]]; apply Hrun.
  - unfold addUser, validateForm, validationFailed, setSubmitting, setName, setEmail,
      setAge, setErrors. rewrite Hdb.
    emits_only;
      first [ apply offline_notifyCRUDOperation
            | apply offline_showFallbackNotification
            | apply offline_addInAppNotification ].
  - unfold updateUser, validateForm, validationFailed, setSubmitting, setName, setEmail,
      setAge, setErrors, setEditingUser. rewrite Hdb.
    emits_only;
      first [ apply offline_notifyCRUDOperation
            | apply offline_showFallbackNotification
            | apply offline_addInAppNotification ].
  - unfold onPressDelete. rewrite Hdb.
    emits_only;
      first [ apply offline_notifyCRUDOperation
            | apply offline_showFallbackNotification
            | apply offline_addInAppNotification ].
Qed.

Lemma local_mode_stays_local_witness :
  (exists tr, trace (snd (fromRender addUser quietEnv (startWorld localForm readyService)))
                = trace (startWorld localForm readyService) ++ tr /\
              List.filter isStoreCall tr = [] /\ List.filter isCallable tr = []) /\
  (exists tr, trace (snd (fromRender updateUser quietEnv (startWorld localForm readyService)))
                = trace (startWorld localForm readyService) ++ tr /\
              List.filter isStoreCall tr = [] /\ List.filter isCallable tr = []) /\
  (forall userId,
   exists tr, trace (snd (pressDelete userId quietEnv (startWorld localForm readyService)))
                = trace (startWorld localForm readyService) ++ tr /\
              List.filter isStoreCall tr = [] /\ List.filter isCallable tr = []).
Proof.
  apply (local_mode_stays_local quietEnv (startWorld localForm readyService)). reflexivity.
Defined.

(** ** Handlers: the failure paths *)

Lemma invalid_noKeys (s : AppState) :
  validateName (name s) <> None \/ validateEmail (email s) <> None \/
    validateAge (age s) <> None ->
  noKeys (formErrors (name s) (email s) (age s)) = false.
Proof.
  intros H. destruct (noKeys _) eqn:E; [|reflexivity].
  apply noKeys_formErrors_iff in E. destruct E as (Hn & He & Ha).
  destruct H as [H|[H|H]]; contradiction.
Qed.

(** X12: a submit that fails validation stops there. When some validator
    rejects its field, addUser, and updateUser while a user is being edited,
    store the error object of the three validators (which is not empty) and
    enter the fallback with the title Validation Error; in any environment
    they do not call the store or a callable function, send no CRUD
    notification, and leave the user list, the form fields, the edit target
    and the submitting flag as they were. When neither the toast nor the
    alert throws null or undefined they return normally, the alert
    Validation Error is shown, and one warning banner is pushed on the
    feed. *)
Theorem validation_failure_blocks_submit
    (handler : AppState -> M unit) (e : Env) (w : World) :
  handler = addUser \/ (handler = updateUser /\ editingUser (app w) <> None) ->
  validateName (name (app w)) <> None \/ validateEmail (email (app w)) <> None \/
    validateAge (age (app w)) <> None ->
  exists (r : Res unit) (tr : list Event) (w' : World),
    fromRender handler e w = (r, w') /\
    trace w' = trace w ++ tr /\
    errors (app w') = formErrors (name (app w)) (email (app w)) (age (app w)) /\
    errors (app w') <> ∅ /\
    users (app w') = users (app w) /\
    name (app w') = name (app w) /\
    email (app w') = email (app w) /\
    age (app w') = age (app w) /\
    editingUser (app w') = editingUser (app w) /\
    submitting (app w') = submitting (app w) /\
    List.filter isStoreCall tr = [] /\
    List.filter isCallable tr = [] /\
    List.filter isSetUsers tr = [] /\
    List.filter isSnapshot tr = [] /\
    List.filter isEnterNotify tr = [] /\
    List.filter isEnterFallback tr =
      [Enter (showFallbackNotification_ (js "Validation Error") validationMessage)] /\
    (fallbackTame e ->
     r = Ok tt /\
     List.filter isAlert tr = [AlertAlert (js "Validation Error") validationMessage []] /\
     List.filter isBanner tr = [Enter (addInAppNotification_ validationMessage warning)] /\
     exists banner,
       inAppNotifications (app w') = pushFeed banner (inAppNotifications (app w)) /\
       Notif.message banner = validationMessage /\
       Notif.type banner = warning).
Proof.
  intros Hh Hbad. destruct w as [s svc tr0]. cbn [app trace] in *.
  pose proof (invalid_noKeys s Hbad) as Hno.
  assert (fromRender handler e (mkWorld s svc tr0) =
          bind (validateForm s) (fun valid => if negb valid then validationFailed else ret tt)
            e (mkWorld s svc tr0)) as ->.
  { unfold fromRender. cbn [app].
    destruct Hh as [->|[-> Hed]]; unfold addUser, updateUser.
    - erewrite !(bind_ok (validateForm s)) by apply validateForm_run.
      rewrite Hno. reflexivity.
    - destruct (editingUser s); [|contradiction].
      erewrite !(bind_ok (validateForm s)) by apply validateForm_run.
      rewrite Hno. reflexivity. }
  erewrite bind_ok by apply validateForm_run. rewrite Hno. cbv [negb].
  unfold validationFailed. fold validationMessage. cbn [app service trace].
  match goal with |- context [bind _ _ e ?W] =>
    destruct (failure_shown (js "Validation Error") validationMessage validationMessage e W)
      as (r & ft & feed' & Eh & Qf & Hf) end.
  rewrite Eh.
  destruct (failure_filters ft Qf) as (F1 & F2 & F3 & F4 & F5 & F6 & _).
  eexists r, _, _. split; [reflexivity|].
  cbn [app trace service extend users name email age errors submitting editingUser
         inAppNotifications withInAppNotifications withErrors].
  split; [trace_eq|].
  split; [reflexivity|].
  split.
  { intros E. unfold noKeys in Hno. rewrite E in Hno. discriminate Hno. }
  filters. rewrite F1, F2, F3, F4, F5, F6.
  repeat (split; [reflexivity|]).
  intros H. destruct (Hf H) as (-> & A & B & b & -> & Hm & Ht).
  split; [reflexivity|]. rewrite A, B. split; [reflexivity|]. split; [reflexivity|].
  exists b. repeat split; assumption.
Qed.

Lemma validation_failure_blocks_submit_witness :
  exists (r : Res unit) (tr : list Event) (w' : World),
    fromRender addUser quietEnv (startWorld badForm readyService) = (r, w') /\
    r = Ok tt /\
    errors (app w') !! "name" = Some (js "Name must be at least 2 characters") /\
    errors (app w') !! "email" = None /\
    users (app w') = [grace] /\
    name (app w') = js "A" /\
    map Notif.message (inAppNotifications (app w')) = [validationMessage] /\
    map Notif.type (inAppNotifications (app w')) = [warning] /\
    List.filter isStoreCall tr = [] /\
    List.filter isBanner tr = [Enter (addInAppNotification_ validationMessage warning)].
Proof.
  destruct (validation_failure_blocks_submit addUser quietEnv (startWorld badForm readyService))
    as (r & tr & w' & Hrun & _ & Herr & _ & Hus & Hn & _ & _ & _ & _ & Hst & _ & _ & _ & _
        & _ & Hshown).
  - left. reflexivity.
  - left. vm_compute. discriminate.
  - destruct Hshown as (Hr & _ & Hban & banner & Hfeed & Hm & Ht).
    { intros ev n _. discriminate. }
    exists r, tr, w'. rewrite Herr, Hus, Hn, Hfeed.
    cbn [map pushFeed take inAppNotifications]. rewrite Hm, Ht.
    repeat split; try assumption; vm_compute; reflexivity.
Defined.

(** X13: a rejected write of addUser is reported and changes nothing of
    the handler's own. With a store, a valid form and a store add that
    rejects, addUser ends with submitting false in any environment; it makes
    that one store call and never sets the user list: the list at exit is
    what the snapshot listener delivered while the add was pending, the list
    of before when it delivered nothing; the form fields are kept, so the
    user can submit again; no CRUD notification is sent and no callable
    function is called; and it enters the error fallback. When neither the
    toast nor the alert throws null or undefined it returns normally, the
    alert Error with the text Failed to add user is shown, and one warning
    banner is pushed on the feed. *)
Theorem addUser_store_failure (e : Env) (w : World) (err : Thrown) :
  validateName (name (app w)) = None ->
  validateEmail (email (app w)) = None ->
  validateAge (age (app w)) = None ->
  db (app w) = true ->
  throws e (addCall (app w)) (length (trace w)) = Some err ->
  exists (r : Res unit) (tr : list Event) (w' : World),
    fromRender addUser e w = (r, w') /\
    trace w' = trace w ++ tr /\
    submitting (app w') = false /\
    users (app w') = delivered e (length (trace w)) (users (app w)) /\
    (snapshots e (length (trace w)) = [] -> users (app w') = users (app w)) /\
    name (app w') = name (app w) /\
    email (app w') = email (app w) /\
    age (app w') = age (app w) /\
    List.filter isStoreCall tr = [addCall (app w)] /\
    List.filter isSetUsers tr = [] /\
    List.filter isSnapshot tr = map Snapshot (snapshots e (length (trace w))) /\
    List.filter isEnterNotify tr = [] /\
    List.filter isCallable tr = [] /\
    List.filter isEnterFallback tr =
      [Enter (showFallbackNotification_ (js "Error") addFailedMessage)] /\
    (fallbackTame e ->
     r = Ok tt /\
     List.filter isAlert tr = [AlertAlert (js "Error") addFailedMessage []] /\
     List.filter isBanner tr =
       [Enter (addInAppNotification_ (crossMark ++ js " " ++ addFailedMessage) warning)] /\
     exists banner,
       inAppNotifications (app w') = pushFeed banner (inAppNotifications (app w)) /\
       Notif.message banner = crossMark ++ js " " ++ addFailedMessage /\
       Notif.type banner = warning).
Proof.
  intros Hn He Ha Hdb Hw. destruct w as [s svc tr0]. cbn [app trace] in *.
  unfold fromRender, addUser. cbn [app].
  erewrite bind_ok by apply validateForm_run.
  rewrite (valid_noKeys s Hn He Ha). cbv [negb].
  erewrite bind_ok by reflexivity. rewrite tryFinally_setSubmitting.
  rewrite Hdb. unfold addCall in *.
  erewrite tryCatch_bind_ok by reflexivity.
  rewrite !tryCatch_assoc.
  erewrite tryCatch_first_throw by (apply awaiting_run, external_throw; exact Hw).
  cbn [trace app]. rewrite deliver_remote by exact Hdb. cbn [app service trace extend users].
  unfold logError. erewrite bind_ok by reflexivity.
  match goal with |- context [bind _ _ e ?W] =>
    destruct (failure_shown (js "Error") (js "Failed to add user. Please try again.")
                (crossMark ++ js " Failed to add user. Please try again.") e W)
      as (r & ft & feed' & Eh & Qf & Hf) end.
  rewrite Eh.
  destruct (failure_filters ft Qf) as (F1 & F2 & F3 & F4 & F5 & F6 & _).
  eexists r, _, _. split; [reflexivity|].
  cbn [fst snd app service trace users name email age editingUser submitting
         inAppNotifications withInAppNotifications withUsers withSubmitting withErrors].
  split; [trace_eq|].
  filters. snap_filters. rewrite F1, F2, F3, F4, F5, F6, ?app_nil_r.
  repeat (split; [reflexivity|]).
  split; [intros Hs; apply delivered_none, Hs|].
  repeat (split; [reflexivity|]).
  intros H. destruct (Hf H) as (-> & A & B & b & -> & Hm & Ht).
  split; [reflexivity|]. rewrite A, B. split; [reflexivity|]. split; [reflexivity|].
  exists b. repeat split; assumption.
Qed.

Lemma addUser_store_failure_witness :
  exists (r : Res unit) (tr : list Event) (w' : World),
    fromRender addUser storeFailsEnv (startWorld adaForm readyService) = (r, w') /\
    r = Ok tt /\
    submitting (app w') = false /\
    users (app w') = [grace] /\
    name (app w') = js "Ada Lovelace" /\
    map Notif.message (inAppNotifications (app w')) =
      [crossMark ++ js " " ++ addFailedMessage] /\
    map Notif.type (inAppNotifications (app w')) = [warning] /\
    List.filter isSetUsers tr = [] /\
    List.filter isEnterNotify tr = [].
Proof.
  destruct (addUser_store_failure storeFailsEnv (startWorld adaForm readyService)
              (thrown (js "unavailable")))
    as (r & tr & w' & Hrun & _ & Hsub & Hus & _ & Hn & _ & _ & _ & Hset & _ & Hnot & _ & _
        & Hshown); try (vm_compute; reflexivity).
  destruct Hshown as (Hr & _ & _ & banner & Hfeed & Hm & Ht).
  { intros ev n _. unfold storeFailsEnv, throws. destruct (isStoreCall ev); discriminate. }
  exists r, tr, w'. rewrite Hfeed. cbn [map pushFeed take inAppNotifications].
  rewrite Hm, Ht. repeat split; assumption.
Defined.

(** X14: a rejected delete is reported and changes nothing of the
    handler's own. With a store, when the store delete rejects after the
    Delete button is pressed, in any environment the handler makes that one
    store call and never sets the user list: the list at exit is what the
    snapshot listener delivered while the delete was pending, the list of
    before when it delivered nothing; no CRUD notification is sent and no
    callable function is called; and it enters the error fallback. When
    neither the toast nor the alert throws null or undefined it returns
    normally, the alert Error with the text Failed to delete user is shown,
    no removal banner is shown and one warning banner is pushed on the
    feed. *)
Theorem delete_store_failure (userId : jsstring) (e : Env) (w : World) (err : Thrown) :
  db (app w) = true ->
  throws e (DbDelete userId) (length (trace w)) = Some err ->
  exists (r : Res unit) (tr : list Event) (w' : World),
    pressDelete userId e w = (r, w') /\
    trace w' = trace w ++ tr /\
    users (app w') = delivered e (length (trace w)) (users (app w)) /\
    (snapshots e (length (trace w)) = [] -> users (app w') = users (app w)) /\
    List.filter isStoreCall tr = [DbDelete userId] /\
    List.filter isSetUsers tr = [] /\
    List.filter isSnapshot tr = map Snapshot (snapshots e (length (trace w))) /\
    List.filter isEnterNotify tr = [] /\
    List.filter isCallable tr = [] /\
    List.filter isEnterFallback tr =
      [Enter (showFallbackNotification_ (js "Error") deleteFailedMessage)] /\
    (fallbackTame e ->
     r = Ok tt /\
     List.filter isAlert tr = [AlertAlert (js "Error") deleteFailedMessage []] /\
     List.filter isBanner tr =
       [Enter (addInAppNotification_ (crossMark ++ js " " ++ deleteFailedMessage) warning)] /\
     exists banner,
       inAppNotifications (app w') = pushFeed banner (inAppNotifications (app w)) /\
       Notif.message banner = crossMark ++ js " " ++ deleteFailedMessage /\
       Notif.type banner = warning).
Proof.
  intros Hdb Hw. destruct w as [s svc tr0]. cbn [app trace] in *.
  unfold pressDelete, fromRender, onPressDelete. cbn [app]. rewrite Hdb.
  rewrite !tryCatch_assoc.
  erewrite tryCatch_first_throw by (apply awaiting_run, external_throw; exact Hw).
  cbn [trace app]. rewrite deliver_remote by exact Hdb. cbn [app service trace extend users].
  unfold logError. erewrite bind_ok by reflexivity.
  match goal with |- context [bind _ _ e ?W] =>
    destruct (failure_shown (js "Error") (js "Failed to delete user. Please try again.")
                (crossMark ++ js " Failed to delete user. Please try again.") e W)
      as (r & ft & feed' & Eh & Qf & Hf) end.
  rewrite Eh.
  destruct (failure_filters ft Qf) as (F1 & F2 & F3 & F4 & F5 & F6 & _).
  eexists r, _, _. split; [reflexivity|].
  cbn [fst snd app service trace users inAppNotifications withInAppNotifications withUsers].
  split; [trace_eq|].
  filters. snap_filters. rewrite F1, F2, F3, F4, F5, F6, ?app_nil_r.
  repeat (split; [reflexivity|]).
  split; [intros Hs; apply delivered_none, Hs|].
  repeat (split; [reflexivity|]).
  intros H. destruct (Hf H) as (-> & A & B & b & -> & Hm & Ht).
  split; [reflexivity|]. rewrite A, B. split; [reflexivity|]. split; [reflexivity|].
  exists b. repeat split; assumption.
Qed.

Lemma delete_store_failure_witness :
  exists (r : Res unit) (tr : list Event) (w' : World),
    pressDelete (js "doc-0") storeFailsEnv (startWorld adaForm readyService) = (r, w') /\
    r = Ok tt /\
    users (app w') = [grace] /\
    map Notif.message (inAppNotifications (app w')) =
      [crossMark ++ js " " ++ deleteFailedMessage] /\
    map Notif.type (inAppNotifications (app w')) = [warning] /\
    List.filter isSetUsers tr = [] /\
    List.filter isEnterNotify tr = [].
Proof.
  destruct (delete_store_failure (js "doc-0") storeFailsEnv (startWorld adaForm readyService)
              (thrown (js "unavailable")))
    as (r & tr & w' & Hrun & _ & Hus & _ & _ & Hset & _ & Hnot & _ & _ & Hshown);
    try (vm_compute; reflexivity).
  destruct Hshown as (Hr & _ & _ & banner & Hfeed & Hm & Ht).
  { intros ev n _. unfold storeFailsEnv, throws. destruct (isStoreCall ev); discriminate. }
  exists r, tr, w'. rewrite Hfeed. cbn [map pushFeed take inAppNotifications].
  rewrite Hm, Ht. repeat split; assumption.
Defined.

(** ** updateUser without a store *)








(** ** Editing and the banners *)

(** X16: Edit followed by Cancel does not bring the form back. After
    startEditing on a record and then cancelEditing, the edit target is none
    and name, email and age are empty whatever they held before Edit, so a
    draft typed before Edit is lost; the user list and the submitting flag are
    untouched; the two newest banners are Edit cancelled and Editing user; no
    store call is made; and updateUser, run next, does nothing at all. *)
Theorem edit_cancel_round_trip (user : User.t) (e : Env) (w : World) :
  exists tr w1 w2,
    startEditing user e w = (Ok tt, w1) /\
    editingUser (app w1) = Some user /\
    name (app w1) = User.name user /\
    email (app w1) = User.email user /\
    age (app w1) = User.age user /\
    cancelEditing e w1 = (Ok tt, w2) /\
    trace w2 = trace w ++ tr /\
    editingUser (app w2) = None /\
    name (app w2) = [] /\ email (app w2) = [] /\ age (app w2) = [] /\
    errors (app w2) = ∅ /\
    users (app w2) = users (app w) /\
    submitting (app w2) = submitting (app w) /\
    map Notif.message (take 2 (inAppNotifications (app w2))) =
      [crossMark ++ js " Edit cancelled"; pencil ++ js " Editing user: " ++ User.name user] /\
    map Notif.type (take 2 (inAppNotifications (app w2))) = [info; info] /\
    drop 2 (inAppNotifications (app w2)) = take 3 (inAppNotifications (app w)) /\
    List.filter isStoreCall tr = [] /\
    List.filter isSetUsers tr = [] /\
    fromRender updateUser e w2 = (Ok tt, w2).
Proof.
  destruct w as [s svc tr0].
  eexists _, _, _. split; [apply startEditing_run|].
  cbn [app service trace editingUser name email age withInAppNotifications withErrors
         withAge withEmail withName withEditingUser].
  do 4 (split; [reflexivity|]).
  split.
  { unfold cancelEditing. do 5 run_step. apply addInAppNotification_run. }
  cbn [app service trace editingUser name email age errors users submitting
         inAppNotifications withInAppNotifications withErrors withAge withEmail withName
         withEditingUser].
  split; [rewrite <- app_assoc; reflexivity|].
  do 7 (split; [reflexivity|]).
  split; [reflexivity|]. split; [reflexivity|].
  split.
  { unfold pushFeed. cbn [drop take]. destruct (inAppNotifications s) as [|a [|b [|c l]]];
      reflexivity. }
  split; [reflexivity|]. split; [reflexivity|].
  reflexivity.
Qed.


(** A banner pushed while the timer of an older one is pending survives
    that timer. *)
Example banner_expires_after_another_push :
  let '(_, w1) := addInAppNotification (js "first") info quietEnv
                    (startWorld adaForm readyService) in
  let '(_, w2) := addInAppNotification (js "second") warning
                    (mkEnv true true (fun _ _ => None) (fun _ => js "doc-1")
                       (fun _ => 1700000000001%N) (fun _ => js "1700000000001_p0q1r2s3t")
                       (fun _ => []))
                    w1 in
  let '(_, w3) := timerFires (js "1700000000000_k3j9x0a1b") quietEnv w2 in
  map Notif.message (inAppNotifications (app w2)) = [js "second"; js "first"] /\
  map Notif.message (inAppNotifications (app w3)) = [js "second"].
Proof. vm_compute. split; reflexivity. Qed.

(** ** The service's set-up and its status line *)

Ltac init_mem :=
  solve [repeat first [apply list_elem_of_here | apply list_elem_of_further]].

Ltac init_absurd H :=
  solve [ discriminate H
        | repeat (apply elem_of_cons in H as [H|H]; [discriminate H|]);
          apply elem_of_nil in H; destruct H ].

Lemma createNotificationChannels_flags p this :
  fst (Init.createNotificationChannels p this) =
    (if Init.isAndroid p && allChannels p then Init.withChannels true this else this) /\
  (forall c, c ∈ snd (Init.createNotificationChannels p this) ->
     exists id, c = Init.CreateChannel id).
Proof.
  unfold Init.createNotificationChannels, allChannels.
  destruct (Init.isAndroid p), (Init.createChannel p (js "default")),
    (Init.createChannel p (js "high_priority")),
    (Init.createChannel p (js "crud_operations")); cbn [fst snd andb].
  all: split; [reflexivity|].
  all: intros c H; repeat (apply elem_of_cons in H as [->|H]; [eexists; reflexivity|]).
  all: apply elem_of_nil in H; destruct H.
Qed.

Lemma requestPermissions_flags p this :
  fst (Init.requestPermissions p this) =
    Init.withPermissions (negb (Init.isAndroid p) || permissionObtained p) this /\
  (Init.CheckPermission ∈ snd (Init.requestPermissions p this) <-> Init.isAndroid p = true) /\
  (Init.DenialAlert ∈ snd (Init.requestPermissions p this) ->
   Init.RequestPermission ∈ snd (Init.requestPermissions p this) /\
   negb (Init.isAndroid p) || permissionObtained p = false) /\
  (forall c, c ∈ snd (Init.requestPermissions p this) ->
     c = Init.CheckPermission \/ c = Init.RequestPermission \/ c = Init.DenialAlert).
Proof.
  unfold Init.requestPermissions, permissionObtained.
  destruct (Init.isAndroid p), (Init.check p) as [[|]|], (Init.request p) as [[| |]|];
    cbn [fst snd negb orb].
  all: split; [reflexivity|].
  all: split; [split; intros H; first [reflexivity | init_mem | init_absurd H]|].
  all: split; [intros H; first [init_absurd H | split; [init_mem|reflexivity]]|].
  all: intros c H; repeat (apply elem_of_cons in H as [->|H]; [tauto|]).
  all: apply elem_of_nil in H; destruct H.
Qed.

Lemma setupFirebaseMessaging_flags p this :
  Init.setupFirebaseMessaging p this =
    (if Init.messaging p
     then (Init.withMessaging (Init.messagingInstance p) this, [Init.MessagingInstance])
     else (this, [])).
Proof. unfold Init.setupFirebaseMessaging. destruct (Init.messaging p); reflexivity. Qed.

(** X18: what initialize leaves in a new service. The three steps run
    whatever the earlier ones did. The channel flag ends true exactly on
    Android when the three channels could be created; the permission flag
    ends true off Android, and on Android exactly when the permission was
    already held or the request answered granted; the messaging flag ends
    true exactly when the messaging module is loaded and its instance could
    be obtained. The permission is checked exactly on Android, also after a
    channel failure, and the denial alert is shown only after a request that
    was not granted. Off Android the channel flag stays false, so the header
    keeps reading Setting up notifications although the permission flag is
    true. *)
Theorem initialize_status (p : Init.Platform) :
  let this := fst (Init.initialize p Init.fresh) in
  let calls := snd (Init.initialize p Init.fresh) in
  notificationChannelCreated this = Init.isAndroid p && allChannels p /\
  permissionsGranted this = negb (Init.isAndroid p) || permissionObtained p /\
  messagingAvailable this = Init.messaging p && Init.messagingInstance p /\
  (Init.CheckPermission ∈ calls <-> Init.isAndroid p = true) /\
  (Init.MessagingInstance ∈ calls <-> Init.messaging p = true) /\
  (Init.DenialAlert ∈ calls ->
   Init.RequestPermission ∈ calls /\ permissionsGranted this = false) /\
  (Init.statusLine (Some (Init.getStatus this)) = bellEnabled <->
   Init.isAndroid p = true /\ allChannels p = true /\ permissionObtained p = true) /\
  (Init.isAndroid p = false ->
   permissionsGranted this = true /\
   Init.statusLine (Some (Init.getStatus this)) = Init.statusLine None).
Proof.
  unfold Init.initialize.
  destruct (createNotificationChannels_flags p Init.fresh) as [F1 C1].
  destruct (Init.createNotificationChannels p Init.fresh) as [s1 c1]. cbn [fst snd] in F1, C1.
  destruct (requestPermissions_flags p s1) as (F2 & C2 & D2 & K2).
  destruct (Init.requestPermissions p s1) as [s2 c2]. cbn [fst snd] in F2, C2, D2, K2.
  rewrite setupFirebaseMessaging_flags.
  assert (forall c, c ∈ c1 -> c <> Init.CheckPermission /\ c <> Init.DenialAlert /\
                              c <> Init.MessagingInstance) as N1.
  { intros c Hc. destruct (C1 c Hc) as [id ->]. repeat split; discriminate. }
  assert (forall c, c ∈ c2 -> c <> Init.MessagingInstance) as N2.
  { intros c Hc. destruct (K2 c Hc) as [->|[->| ->]]; discriminate. }
  subst s1 s2.
  destruct (Init.messaging p) eqn:Hm; cbn [fst snd]; rewrite ?app_nil_r.
  all: destruct (Init.isAndroid p) eqn:Hand, (allChannels p) eqn:Hall,
         (permissionObtained p) eqn:Hperm; cbn [negb andb orb] in *.
  all: cbn [Init.withChannels Init.withPermissions Init.withMessaging Init.fresh
              Init.getStatus Init.statusLine Init.statusNotificationChannelCreated
              Init.statusPermissionsGranted messagingAvailable permissionsGranted
              notificationChannelCreated andb].
  all: repeat match goal with |- _ /\ _ => split end.
  all: try reflexivity.
  all: try (intros _; split; reflexivity).
  all: try discriminate.
  all: try (split; [intros H; vm_compute in H; discriminate H
                   |intros (H1 & H2 & H3); discriminate]).
  all: try (split; [intros _; repeat split|reflexivity]).
  all: pose proof (N1 Init.CheckPermission) as A1; pose proof (N1 Init.DenialAlert) as A2;
    pose proof (N1 Init.MessagingInstance) as A3;
    pose proof (N2 Init.MessagingInstance) as A4; clear N1 N2 C1 K2.
  all: rewrite ?elem_of_app, ?elem_of_cons, ?elem_of_nil; intuition congruence.
Qed.

(** A phone that refuses the permission: the channels exist, the header asks
    for the permission, and the denial alert follows the request. *)
Example initialize_refusing_phone :
  Init.initialize refusingPhone Init.fresh =
    (mkService true false true,
     [Init.CreateChannel (js "default"); Init.CreateChannel (js "high_priority");
      Init.CreateChannel (js "crud_operations"); Init.CheckPermission;
      Init.RequestPermission; Init.DenialAlert; Init.MessagingInstance]) /\
  Init.statusLine (Some (Init.getStatus (fst (Init.initialize refusingPhone Init.fresh)))) =
    Init.phone ++ js " System Notifications Ready (Permission Needed)".
Proof. split; reflexivity. Qed.

(** Off Android nothing is asked of the platform but the messaging instance. *)
Example initialize_other_platform :
  Init.initialize otherPlatform Init.fresh = (mkService true true false, [Init.MessagingInstance]) /\
  Init.statusLine (Some (Init.getStatus (fst (Init.initialize otherPlatform Init.fresh)))) =
    Init.phone ++ js " Setting up notifications...".
Proof. split; reflexivity. Qed.

(** ** The email function *)

Lemma countStatus_total results :
  Email.countStatus true results + Email.countStatus false results
    = Z.of_nat (length results).
Proof.
  unfold Email.countStatus. induction results as [|[|] results IH];
    cbn [List.filter Bool.eqb Datatypes.length]; lia.
Qed.

Lemma countStatus_nonneg fulfilled results : 0 <= Email.countStatus fulfilled results.
Proof. unfold Email.countStatus. lia. Qed.

Lemma countStatus_all_rejected {A} (send : A -> bool) (mails : list A) :
  (forall m, send m = false) ->
  Email.countStatus true (map send mails) = 0 /\
  Email.countStatus false (map send mails) = Z.of_nat (length mails).
Proof.
  intros H. unfold Email.countStatus. induction mails as [|m mails [IH1 IH2]]; [split; reflexivity|].
  cbn [map List.filter]. rewrite (H m). cbn [Bool.eqb Datatypes.length]. split; lia.
Qed.

Lemma collectEmails_filter (docs : list (option jsstring)) (userEmail : option jsstring) :
  Email.collectEmails docs userEmail =
  filter (fun a => a <> [] /\ userEmail <> Some a) (omap (fun email => email) docs).
Proof.
  induction docs as [|[a|] docs IH]; [reflexivity| |exact IH].
  cbn [Email.collectEmails].
  change (omap (fun email : option jsstring => email) (Some a :: docs))
    with (a :: omap (fun email : option jsstring => email) docs).
  rewrite filter_cons, IH.
  destruct a as [|c a]; cbn [truthy andb].
  - rewrite decide_False by tauto. reflexivity.
  - destruct (decide (Some (c :: a) = userEmail)) as [E|E].
    + rewrite bool_decide_eq_true_2 by exact E. cbn [negb].
      rewrite decide_False by (intros [_ H]; congruence). reflexivity.
    + rewrite bool_decide_eq_false_2 by exact E. cbn [negb].
      rewrite decide_True by (split; congruence). reflexivity.
Qed.

(** X19: the outcomes of the email function. The recipients are the
    non-empty email fields of the documents, in order, except those equal to
    userEmail. With no recipient it answers No users to email and sends
    nothing, whatever the action. Otherwise it hands the transport one mail
    per recipient, in order, all with the same sender, subject and body, and
    answers success with two counts that add up to the number of recipients;
    a mail the transport rejects only moves one count to failureCount, so the
    call succeeds even when every mail is rejected. It fails, with the
    internal error Failed to send email notification and no mail sent, exactly
    when the read throws or when recipients remain and the content cannot be
    built. *)
Theorem email_function_outcomes (b : Email.Backend) (data : Email.Data) :
  (forall docs,
     Email.collectEmails docs (Email.userEmail data) =
     filter (fun a => a <> [] /\ Email.userEmail data <> Some a)
       (omap (fun email => email) docs)) /\
  (forall docs,
     Email.usersGet b = Ok docs ->
     Email.collectEmails docs (Email.userEmail data) = [] ->
     Email.sendEmailNotification b data =
       (Functions.Returns (Functions.NoUsers (js "No users to email")), [])) /\
  (forall docs subject html,
     Email.usersGet b = Ok docs ->
     Email.collectEmails docs (Email.userEmail data) <> [] ->
     Email.emailContent (Email.action data) (Email.userData data) = Ok (subject, html) ->
     exists successCount failureCount mails,
       Email.sendEmailNotification b data =
         (Functions.Returns (Functions.Sent successCount failureCount), mails) /\
       map Email.to mails = Email.collectEmails docs (Email.userEmail data) /\
       Forall (fun m => Email.from m = Email.sender b /\ Email.subject m = subject /\
                        Email.html m = html) mails /\
       successCount + failureCount = Z.of_nat (length mails) /\
       0 <= successCount /\ 0 <= failureCount /\
       ((forall m, Email.sendMail b m = false) ->
        successCount = 0 /\ failureCount = Z.of_nat (length mails))) /\
  (fst (Email.sendEmailNotification b data) = Email.internalError <->
   (exists err, Email.usersGet b = Throw err) \/
   (exists docs err,
      Email.usersGet b = Ok docs /\
      Email.collectEmails docs (Email.userEmail data) <> [] /\
      Email.emailContent (Email.action data) (Email.userData data) = Throw err)) /\
  (fst (Email.sendEmailNotification b data) = Email.internalError ->
   snd (Email.sendEmailNotification b data) = []).
Proof.
  split; [intros docs; apply collectEmails_filter|].
  unfold Email.sendEmailNotification.
  split; [intros docs -> ->; reflexivity|].
  split.
  { intros docs subject html -> Hne ->.
    destruct (Email.collectEmails docs (Email.userEmail data)) as [|a emails] eqn:E;
      [contradiction|].
    eexists _, _, _. split; [reflexivity|].
    split.
    { rewrite map_map. cbn [Email.to]. apply map_id. }
    split.
    { apply Forall_forall. intros m Hm. apply list_elem_of_In, in_map_iff in Hm as (x & <- & _).
      repeat split. }
    split; [rewrite countStatus_total, length_map; reflexivity|].
    split; [apply countStatus_nonneg|]. split; [apply countStatus_nonneg|].
    intros Hrej. apply (countStatus_all_rejected (Email.sendMail b)). exact Hrej. }
  destruct (Email.usersGet b) as [docs|err0].
  - destruct (Email.collectEmails docs (Email.userEmail data)) as [|a emails] eqn:E.
    + split; [|discriminate]. split; [discriminate|].
      intros [(err & H)|(docs' & err & H & Hne & _)]; [discriminate|].
      injection H as <-. rewrite E in Hne. contradiction.
    + destruct (Email.emailContent (Email.action data) (Email.userData data))
        as [[subject html]|err] eqn:C.
      * split; [|discriminate]. split; [discriminate|].
        intros [(err & H)|(docs' & err & _ & _ & H)]; discriminate.
      * split; [|reflexivity]. split; [|reflexivity].
        intros _. right. exists docs, err. rewrite E. repeat split. discriminate.
  - split; [|reflexivity]. split; [|reflexivity]. intros _. left. exists err0. reflexivity.
Qed.

(** ** What the app sends and what the functions read *)

(** X20: the push request of the app is one the push function can serve.
    For the operation and payload each handler notifies with, the request of
    sendPushNotification carries the fields the function reads: building the
    message never throws, its userId is the id of the record, and its body
    names the user by the stored name, for a delete by the name inside
    deletedUser. As the app passes no senderToken, the function excludes no
    device: every non-empty token of the collection is addressed, the
    sender's own included. *)
Theorem client_push_request_served (tokens : list jsstring) :
  (forall u,
     Functions.buildMessage (pushRequest CREATE (PUser u) None) tokens =
       Ok (Functions.mkMessage (js "New User Added")
             (User.name u ++ js " has been added to the system")
             (js "CREATE") (User.id u) tokens)) /\
  (forall id name email age fcmToken oldData,
     Functions.buildMessage
       (pushRequest UPDATE (PUpdate id name email age fcmToken oldData) None) tokens =
       Ok (Functions.mkMessage (js "User Updated")
             (name ++ js "'s information has been updated")
             (js "UPDATE") id tokens)) /\
  (forall id deletedUser,
     Functions.buildMessage (pushRequest DELETE (PDelete id deletedUser) None) tokens =
       Ok (Functions.mkMessage (js "User Deleted")
             (User.name deletedUser ++ js " has been removed from the system")
             (js "DELETE") id tokens)) /\
  (forall operation userData docs,
     Functions.collectTokens docs (Functions.senderToken (pushRequest operation userData None))
       = nonEmpty docs) /\
  (forall operation userData docs t,
     Some t ∈ docs -> t <> [] ->
     t ∈ Functions.collectTokens docs
           (Functions.senderToken (pushRequest operation userData None))).
Proof.
  assert (forall docs, Functions.collectTokens docs None = nonEmpty docs) as Hall.
  { intros docs. rewrite collectTokens_filter. unfold nonEmpty.
    apply list_filter_iff. intros t. split; [tauto|]. intros H. split; [exact H|discriminate]. }
  split; [intros [[|c id] name email age createdAt fcmToken]; reflexivity|].
  split; [intros [|c id] name email age fcmToken oldData; reflexivity|].
  split; [intros [|c id] deletedUser; reflexivity|].
  split; [intros operation userData docs; apply Hall|].
  intros operation userData docs t Hin Hne. cbn [pushRequest Functions.senderToken].
  rewrite Hall. unfold nonEmpty. apply list_elem_of_filter. split; [exact Hne|].
  apply list_elem_of_omap. exists (Some t). split; [exact Hin|reflexivity].
Qed.

(** X21: the email request of the app is one the email function can
    serve. For the operation and payload each handler notifies with, the
    request of sendEmailNotification carries the fields the function's
    templates read, so the content is always built, with the subject of the
    operation. As the app passes no userEmail, nobody is left out: every
    non-empty email of the collection is a recipient, the address of the user
    the mail is about included when its document is in the collection. *)
Theorem client_email_request_served :
  (forall u,
     Email.emailContent (Email.action (emailRequest CREATE (PUser u)))
       (Email.userData (emailRequest CREATE (PUser u))) =
     Ok (js "New User Added - Firebase CRUD Demo",
         Email.htmlCreate (emailUserData (PUser u)))) /\
  (forall id name email age fcmToken oldData,
     let payload := PUpdate id name email age fcmToken oldData in
     Email.emailContent (Email.action (emailRequest UPDATE payload))
       (Email.userData (emailRequest UPDATE payload)) =
     Ok (js "User Updated - Firebase CRUD Demo", Email.htmlUpdate (emailUserData payload))) /\
  (forall id deletedUser,
     Email.emailContent (Email.action (emailRequest DELETE (PDelete id deletedUser)))
       (Email.userData (emailRequest DELETE (PDelete id deletedUser))) =
     Ok (js "User Deleted - Firebase CRUD Demo",
         Email.htmlDelete
           (Email.mkPerson (Some (User.name deletedUser)) (Some (User.email deletedUser))
              (Some (User.age deletedUser))))) /\
  (forall operation userData docs,
     Email.collectEmails docs (Email.userEmail (emailRequest operation userData))
       = nonEmpty docs) /\
  (forall u docs,
     User.email u <> [] -> Some (User.email u) ∈ docs ->
     User.email u ∈ Email.collectEmails docs
                      (Email.userEmail (emailRequest CREATE (PUser u)))).
Proof.
  assert (forall docs, Email.collectEmails docs None = nonEmpty docs) as Hall.
  { intros docs. rewrite collectEmails_filter. unfold nonEmpty.
    apply list_filter_iff. intros t. split; [tauto|]. intros H. split; [exact H|discriminate]. }
  split; [intros u; reflexivity|].
  split; [intros id name email age fcmToken oldData; reflexivity|].
  split; [intros id deletedUser; reflexivity|].
  split; [intros operation userData docs; apply Hall|].
  intros u docs Hne Hin. cbn [emailRequest Email.userEmail].
  rewrite Hall. unfold nonEmpty. apply list_elem_of_filter. split; [exact Hne|].
  apply list_elem_of_omap. exists (Some (User.email u)). split; [exact Hin|reflexivity].
Qed.
